(** * BioReason lab monitor: the client-side monitoring orchestration

    A shallow embedding of the React application of this repository:

    - [JS]       : the platform operations the component relies on
                   (truthiness, [String.prototype.split], [startsWith],
                   [Number.prototype.toFixed], [Date.prototype.toISOString]);
    - [Types]    : the shared data model (types.ts);
    - [Dom]      : media streams, video elements, canvases and files;
    - [App]      : the current [App] component (the one that keeps a history
                   ledger and supports uploaded videos);
    - [Legacy]   : the earlier [App] component (camera and static images only);
    - [Spec]     : the vocabulary of the properties;
    - [Outcome]  : what an invocation of [handleAnalyze] leaves behind;
    - [Examples], [Scenarios] : concrete inputs;
    - [Timeline] : the graph and log panel (ExperimentTimeline.tsx);
    - [Service]  : the Analysis Client (geminiService.ts).

    A React function component is a function from its state to closures.
    Every handler, effect body and suspended [async] call therefore carries
    the state of the render that created it (its _snapshot_), while refs,
    functional state updates and the DOM are read live.  The embedding keeps
    the two apart: closures take the snapshot as an explicit argument and the
    live part is the [World].  An event, the render it causes and the effects
    of that render are one step; the Analysis Client, the camera, the file
    reader and the image decoder answer through events of their own. *)

From Stdlib Require Import ZArith List Bool Ascii String Lia.
From Stdlib Require Import Floats.SpecFloat Sorting.Sorted.
Import ListNotations.
Open Scope list_scope.
Open Scope string_scope.
Open Scope Z_scope.

(** ** Platform operations *)

Module JS.

(** JavaScript numbers are IEEE 754 binary64 values. *)
Definition number : Type := spec_float.

Definition prec : Z := 53.
Definition emax : Z := 1024.

Definition add : number -> number -> number := SFadd prec emax.
Definition sub : number -> number -> number := SFsub prec emax.
Definition mul : number -> number -> number := SFmul prec emax.

Definition isNaN (x : number) : bool :=
  match x with S754_nan => true | _ => false end.

Definition zero : number := S754_zero false.

(** [m * 2^e] written as a binary64 value, for numeric literals. *)
Definition literal (m : positive) (e : Z) : number := S754_finite false m e.

(** Strings are UTF-8 byte strings. *)
Definition nl : string := String (ascii_of_nat 10) EmptyString.

(** A string is falsy exactly when it is empty; [null] is falsy. *)
Definition truthy (s : string) : bool :=
  match s with EmptyString => false | String _ _ => true end.

Definition truthy_opt (o : option string) : bool :=
  match o with Some s => truthy s | None => false end.

(** [a || b] on nullable strings. *)
Definition or_else (a b : option string) : option string :=
  if truthy_opt a then a else b.

Definition startsWith (s p : string) : bool := String.prefix p s.

(** [s.split(c)] for a one-character separator. *)
Fixpoint split_aux (c : ascii) (s : string) (cur : string) : list string :=
  match s with
  | EmptyString => [cur]
  | String a s' =>
      if Ascii.eqb a c then cur :: split_aux c s' EmptyString
      else split_aux c s' (cur ++ String a EmptyString)
  end.

Definition split (s : string) (c : ascii) : list string :=
  split_aux c s EmptyString.

(** *** Decimal digits *)

Definition digitChar (d : Z) : ascii := ascii_of_N (48 + Z.to_N d).

Fixpoint decimalFuel (fuel : nat) (n : Z) (acc : string) : string :=
  match fuel with
  | O => acc
  | S fuel' =>
      let acc' := String (digitChar (n mod 10)) acc in
      if n / 10 =? 0 then acc' else decimalFuel fuel' (n / 10) acc'
  end.

(** Decimal representation of a non-negative integer. *)
Definition decimal (n : Z) : string :=
  decimalFuel (S (Z.to_nat (Z.log2 n))) n EmptyString.

(** The [k] low decimal digits of [n], most significant first. *)
Fixpoint lowDigits (k : nat) (n : Z) (acc : string) : string :=
  match k with
  | O => acc
  | S k' => lowDigits k' (n / 10) (String (digitChar (n mod 10)) acc)
  end.

Definition pad (k : nat) (n : Z) : string := lowDigits k n EmptyString.

Definition isDigit (a : ascii) : bool :=
  let n := N_of_ascii a in ((48 <=? n) && (n <=? 57))%N.

Fixpoint allDigits (s : string) : bool :=
  match s with
  | EmptyString => true
  | String a s' => isDigit a && allDigits s'
  end.

(** *** Number::toString for integral values of at least 10^21

    The shortest decimal [s * 10^(n-k)] that rounds to the same binary64
    value, printed in exponential notation. *)

Definition numDigits (v : Z) : Z := Z.of_nat (String.length (decimal v)).

Section Shortest.
Variable v : Z.

Let d := Z.log2 v + 1.
Let ulp := 2 ^ (d - 53).
Let evenMantissa := Z.even (v / ulp).
Let lo2 := if v =? 2 ^ (d - 1) then 2 * v - ulp / 2 else 2 * v - ulp.
Let hi2 := 2 * v + ulp.

(** [t] converts to the binary64 value [v] (round to nearest, ties to even). *)
Definition roundsTo (t : Z) : bool :=
  if evenMantissa then (lo2 <=? 2 * t) && (2 * t <=? hi2)
  else (lo2 <? 2 * t) && (2 * t <? hi2).

Fixpoint shortestFrom (fuel : nat) (n k : Z) : Z * Z :=
  let p := 10 ^ (n - k) in
  let q := v / p in
  let okLo := roundsTo (q * p) in
  let okHi := roundsTo ((q + 1) * p) in
  let pick :=
    if okLo && okHi then
      (if (v - q * p) <=? ((q + 1) * p - v) then q else q + 1)
    else if okLo then q else q + 1 in
  match fuel with
  | O => (q, k)
  | S fuel' =>
      if okLo || okHi then (pick, k) else shortestFrom fuel' n (k + 1)
  end.

Definition exponential : string :=
  let n := numDigits v in
  let '(s, k) := shortestFrom 17 n 1 in
  let '(s, n) := if s =? 10 ^ k then (1, n + 1) else (s, n) in
  let digits := decimal s in
  match digits with
  | String a EmptyString => String a EmptyString ++ "e+" ++ decimal (n - 1)
  | String a rest => String a EmptyString ++ "." ++ rest ++ "e+" ++ decimal (n - 1)
  | EmptyString => EmptyString
  end.
End Shortest.

(** *** Number.prototype.toFixed(2) *)

(** The integer [n] for which [n / 100] is closest to [m * 2^e], the larger
    one on a tie. *)
Definition nearestHundredths (m : positive) (e : Z) : Z :=
  if 0 <=? e then 100 * Zpos m * 2 ^ e
  else (200 * Zpos m + 2 ^ (- e)) / 2 ^ (- e + 1).

Definition atLeast1e21 (m : positive) (e : Z) : bool :=
  if 0 <=? e then 10 ^ 21 <=? Zpos m * 2 ^ e
  else 10 ^ 21 * 2 ^ (- e) <=? Zpos m.

Definition toFixed2 (x : number) : string :=
  match x with
  | S754_nan => "NaN"
  | S754_infinity s => if s then "-Infinity" else "Infinity"
  | S754_zero _ => "0.00"
  | S754_finite s m e =>
      let sign := if s then "-" else "" in
      if atLeast1e21 m e then sign ++ exponential (Zpos m * 2 ^ e)
      else
        let n := nearestHundredths m e in
        sign ++ decimal (n / 100) ++ "." ++ pad 2 n
  end.

(** *** Date.prototype.toISOString, on a time value in epoch milliseconds *)

Definition msPerDay : Z := 86400000.

(** Proleptic Gregorian (year, month, day) of a day number since the epoch. *)
Definition civilFromDays (day : Z) : Z * Z * Z :=
  let z := day + 719468 in
  let era := z / 146097 in
  let doe := z - era * 146097 in
  let yoe := (doe - doe / 1460 + doe / 36524 - doe / 146096) / 365 in
  let doy := doe - (365 * yoe + yoe / 4 - yoe / 100) in
  let mp := (5 * doy + 2) / 153 in
  let d := doy - (153 * mp + 2) / 5 + 1 in
  let m := if mp <? 10 then mp + 3 else mp - 9 in
  let y := yoe + era * 400 + (if m <=? 2 then 1 else 0) in
  (y, m, d).

Definition isoYear (y : Z) : string :=
  if (0 <=? y) && (y <=? 9999) then pad 4 y
  else (if y <? 0 then "-" else "+") ++ pad 6 (Z.abs y).

Definition toISOString (t : Z) : string :=
  let day := t / msPerDay in
  let ms := t mod msPerDay in
  let '(y, m, d) := civilFromDays day in
  isoYear y ++ "-" ++ pad 2 m ++ "-" ++ pad 2 d ++ "T" ++
  pad 2 (ms / 3600000) ++ ":" ++ pad 2 (ms / 60000 mod 60) ++ ":" ++
  pad 2 (ms / 1000 mod 60) ++ "." ++ pad 3 (ms mod 1000) ++ "Z".

End JS.

(** ** The data model (types.ts) *)

Module Types.

Inductive ExperimentStatus := NORMAL | WARNING | CRITICAL.

Record AnalysisResult := {
  status : ExperimentStatus;
  observation : string;
  deduction : string;
  recommendation : string }.

Inductive ThinkingLevel := LOW | HIGH.

Record AnalysisState := {
  isLoading : bool;
  result : option AnalysisResult;
  error : option string }.

Record TelemetryData := {
  temperature : JS.number;
  pressure : JS.number }.

Record HistoryItem := {
  timestamp : Z;
  telemetry : TelemetryData;
  analysis : AnalysisResult }.

Definition ThinkingLevel_eqb (a b : ThinkingLevel) : bool :=
  match a, b with LOW, LOW | HIGH, HIGH => true | _, _ => false end.

End Types.

(** ** The browser objects the component touches *)

Module Dom.

Definition TrackId : Type := nat.

(** A stream granted for a video request has at least one video track. *)
Record MediaStream := {
  firstVideoTrack : TrackId;
  moreTracks : list TrackId }.

Definition getTracks (s : MediaStream) : list TrackId :=
  firstVideoTrack s :: moreTracks s.

(** What drawing the element's current frame on a canvas yields:
    [canvas.toDataURL] after a successful draw, no 2d context, or an
    exception. *)
Inductive Canvas :=
| Drawn (dataUrl : string)
| NoContext
| Throws.

Record VideoElement := {
  srcObject : option MediaStream;
  readyState : nat;
  frame : Canvas }.

Definition freshVideo : VideoElement :=
  {| srcObject := None; readyState := 0%nat; frame := NoContext |}.

Record Range := {
  range_min : JS.number;
  range_max : JS.number;
  range_step : JS.number }.

(** [track.getCapabilities()], as far as the component looks into it. *)
Record Capabilities := {
  cap_zoom : option Range;
  cap_focusDistance : option Range;
  cap_focusModes : list string }.

(** An uploaded file: its MIME type, the object URL [URL.createObjectURL]
    hands out for it and what [FileReader.readAsDataURL] reads from it
    ([null] when the read fails). *)
Record File := {
  file_type : string;
  file_objectUrl : string;
  file_dataUrl : option string }.

(** [track.stop()] for every track of the list. *)
Definition stopTracks (ts live : list TrackId) : list TrackId :=
  filter (fun t => negb (existsb (Nat.eqb t) ts)) live.

End Dom.

(** ** The current App component *)

Module App.
Import Types Dom.

Inductive InputMode := UPLOAD | CAMERA.
Inductive UploadKind := IMAGE | VIDEO.
(** [type UploadType = 'IMAGE' | 'VIDEO' | null] *)
Definition UploadType : Type := option UploadKind.
Inductive TelemetryMode := SIMULATED | MANUAL.

(** The [useState] cells of the component.  The zoom and focus sliders and
    the gallery-open flag are left out: no effect and no analysis path reads
    them. *)
Record State := {
  thinkingLevel : ThinkingLevel;
  context : string;
  imagePreview : option string;
  videoFileSrc : option string;
  uploadType : UploadType;
  inputMode : InputMode;
  isCameraActive : bool;
  isAutoMonitoring : bool;
  videoTrack : option TrackId;
  capabilities : option Capabilities;
  telemetryMode : TelemetryMode;
  telemetry : TelemetryData;
  analysis : AnalysisState;
  history : list HistoryItem }.

(** [const [enablePreprocessing] = useState<boolean>(true)]: no setter. *)
Definition enablePreprocessing : bool := true.

Definition setThinkingLevel v s :=
  {| thinkingLevel := v; context := context s; imagePreview := imagePreview s;
     videoFileSrc := videoFileSrc s; uploadType := uploadType s;
     inputMode := inputMode s; isCameraActive := isCameraActive s;
     isAutoMonitoring := isAutoMonitoring s; videoTrack := videoTrack s;
     capabilities := capabilities s; telemetryMode := telemetryMode s;
     telemetry := telemetry s; analysis := analysis s; history := history s |}.
Definition setContext v s :=
  {| thinkingLevel := thinkingLevel s; context := v; imagePreview := imagePreview s;
     videoFileSrc := videoFileSrc s; uploadType := uploadType s;
     inputMode := inputMode s; isCameraActive := isCameraActive s;
     isAutoMonitoring := isAutoMonitoring s; videoTrack := videoTrack s;
     capabilities := capabilities s; telemetryMode := telemetryMode s;
     telemetry := telemetry s; analysis := analysis s; history := history s |}.
Definition setImagePreview v s :=
  {| thinkingLevel := thinkingLevel s; context := context s; imagePreview := v;
     videoFileSrc := videoFileSrc s; uploadType := uploadType s;
     inputMode := inputMode s; isCameraActive := isCameraActive s;
     isAutoMonitoring := isAutoMonitoring s; videoTrack := videoTrack s;
     capabilities := capabilities s; telemetryMode := telemetryMode s;
     telemetry := telemetry s; analysis := analysis s; history := history s |}.
Definition setVideoFileSrc v s :=
  {| thinkingLevel := thinkingLevel s; context := context s; imagePreview := imagePreview s;
     videoFileSrc := v; uploadType := uploadType s;
     inputMode := inputMode s; isCameraActive := isCameraActive s;
     isAutoMonitoring := isAutoMonitoring s; videoTrack := videoTrack s;
     capabilities := capabilities s; telemetryMode := telemetryMode s;
     telemetry := telemetry s; analysis := analysis s; history := history s |}.
Definition setUploadType v s :=
  {| thinkingLevel := thinkingLevel s; context := context s; imagePreview := imagePreview s;
     videoFileSrc := videoFileSrc s; uploadType := v;
     inputMode := inputMode s; isCameraActive := isCameraActive s;
     isAutoMonitoring := isAutoMonitoring s; videoTrack := videoTrack s;
     capabilities := capabilities s; telemetryMode := telemetryMode s;
     telemetry := telemetry s; analysis := analysis s; history := history s |}.
Definition setInputMode v s :=
  {| thinkingLevel := thinkingLevel s; context := context s; imagePreview := imagePreview s;
     videoFileSrc := videoFileSrc s; uploadType := uploadType s;
     inputMode := v; isCameraActive := isCameraActive s;
     isAutoMonitoring := isAutoMonitoring s; videoTrack := videoTrack s;
     capabilities := capabilities s; telemetryMode := telemetryMode s;
     telemetry := telemetry s; analysis := analysis s; history := history s |}.
Definition setIsCameraActive v s :=
  {| thinkingLevel := thinkingLevel s; context := context s; imagePreview := imagePreview s;
     videoFileSrc := videoFileSrc s; uploadType := uploadType s;
     inputMode := inputMode s; isCameraActive := v;
     isAutoMonitoring := isAutoMonitoring s; videoTrack := videoTrack s;
     capabilities := capabilities s; telemetryMode := telemetryMode s;
     telemetry := telemetry s; analysis := analysis s; history := history s |}.
Definition setIsAutoMonitoring v s :=
  {| thinkingLevel := thinkingLevel s; context := context s; imagePreview := imagePreview s;
     videoFileSrc := videoFileSrc s; uploadType := uploadType s;
     inputMode := inputMode s; isCameraActive := isCameraActive s;
     isAutoMonitoring := v; videoTrack := videoTrack s;
     capabilities := capabilities s; telemetryMode := telemetryMode s;
     telemetry := telemetry s; analysis := analysis s; history := history s |}.
Definition setVideoTrack v s :=
  {| thinkingLevel := thinkingLevel s; context := context s; imagePreview := imagePreview s;
     videoFileSrc := videoFileSrc s; uploadType := uploadType s;
     inputMode := inputMode s; isCameraActive := isCameraActive s;
     isAutoMonitoring := isAutoMonitoring s; videoTrack := v;
     capabilities := capabilities s; telemetryMode := telemetryMode s;
     telemetry := telemetry s; analysis := analysis s; history := history s |}.
Definition setCapabilities v s :=
  {| thinkingLevel := thinkingLevel s; context := context s; imagePreview := imagePreview s;
     videoFileSrc := videoFileSrc s; uploadType := uploadType s;
     inputMode := inputMode s; isCameraActive := isCameraActive s;
     isAutoMonitoring := isAutoMonitoring s; videoTrack := videoTrack s;
     capabilities := v; telemetryMode := telemetryMode s;
     telemetry := telemetry s; analysis := analysis s; history := history s |}.
Definition setTelemetryMode v s :=
  {| thinkingLevel := thinkingLevel s; context := context s; imagePreview := imagePreview s;
     videoFileSrc := videoFileSrc s; uploadType := uploadType s;
     inputMode := inputMode s; isCameraActive := isCameraActive s;
     isAutoMonitoring := isAutoMonitoring s; videoTrack := videoTrack s;
     capabilities := capabilities s; telemetryMode := v;
     telemetry := telemetry s; analysis := analysis s; history := history s |}.
Definition setTelemetry v s :=
  {| thinkingLevel := thinkingLevel s; context := context s; imagePreview := imagePreview s;
     videoFileSrc := videoFileSrc s; uploadType := uploadType s;
     inputMode := inputMode s; isCameraActive := isCameraActive s;
     isAutoMonitoring := isAutoMonitoring s; videoTrack := videoTrack s;
     capabilities := capabilities s; telemetryMode := telemetryMode s;
     telemetry := v; analysis := analysis s; history := history s |}.
Definition setAnalysis v s :=
  {| thinkingLevel := thinkingLevel s; context := context s; imagePreview := imagePreview s;
     videoFileSrc := videoFileSrc s; uploadType := uploadType s;
     inputMode := inputMode s; isCameraActive := isCameraActive s;
     isAutoMonitoring := isAutoMonitoring s; videoTrack := videoTrack s;
     capabilities := capabilities s; telemetryMode := telemetryMode s;
     telemetry := telemetry s; analysis := v; history := history s |}.
Definition setHistory v s :=
  {| thinkingLevel := thinkingLevel s; context := context s; imagePreview := imagePreview s;
     videoFileSrc := videoFileSrc s; uploadType := uploadType s;
     inputMode := inputMode s; isCameraActive := isCameraActive s;
     isAutoMonitoring := isAutoMonitoring s; videoTrack := videoTrack s;
     capabilities := capabilities s; telemetryMode := telemetryMode s;
     telemetry := telemetry s; analysis := analysis s; history := v |}.

Definition idle : AnalysisState :=
  {| isLoading := false; result := None; error := None |}.

(** The state of the first render. *)
Definition initialState : State :=
  {| thinkingLevel := HIGH; context := ""; imagePreview := None;
     videoFileSrc := None; uploadType := None; inputMode := UPLOAD;
     isCameraActive := false; isAutoMonitoring := false; videoTrack := None;
     capabilities := None; telemetryMode := SIMULATED;
     telemetry := {| temperature := JS.literal 6896136929411072 (-48);
                     pressure := JS.literal 7128353785197363 (-46) |};
     analysis := idle; history := [] |}.

(** *** Suspended analysis cycles *)

(** Where a [handleAnalyze] call is suspended. *)
Inductive Stage :=
| Preprocessing (image : string)
| Fetching (url : string)
| AwaitingClient.

(** A [handleAnalyze] call in progress, with the render it closes over. *)
Record Cycle := {
  cy_id : nat;
  cy_snap : State;
  cy_stage : Stage }.

(** One [analyzeExperiment(context, imageBase64, thinkingLevel)] call. *)
Record ClientCall := {
  call_id : nat;
  call_context : string;
  call_image : string;
  call_level : ThinkingLevel }.

(** *** The world: React state, refs, DOM, timers and pending work *)

Record World := {
  st : State;
  webcamRef : option VideoElement;
  fileVideoRef : option VideoElement;
  liveTracks : list TrackId;
  monitoringInterval : option State;
  pendingCameras : nat;
  pendingReaders : list (option string);
  pending : list Cycle;
  calls : list ClientCall;
  cycles : nat;
  alerts : nat;
  now : Z;
  nextId : nat }.

(** [monitoringInterval] is the interval the auto-monitoring effect created
    and has not cleared, together with the render its callback closes over
    ([monitoringIntervalRef] always names the interval created last, and
    every effect run is preceded by the cleanup that clears it).
    [pendingCameras] counts [getUserMedia] requests not yet settled,
    [pendingReaders] holds what each running [FileReader] will deliver,
    [calls] logs the Analysis Client calls issued, [cycles] counts the
    invocations of [handleAnalyze] and [alerts] those of [alert]. *)

Definition with_st v w :=
  {| st := v; webcamRef := webcamRef w; fileVideoRef := fileVideoRef w;
     liveTracks := liveTracks w; monitoringInterval := monitoringInterval w;
     pendingCameras := pendingCameras w; pendingReaders := pendingReaders w;
     pending := pending w; calls := calls w; cycles := cycles w; alerts := alerts w;
     now := now w; nextId := nextId w |}.
Definition with_webcamRef v w :=
  {| st := st w; webcamRef := v; fileVideoRef := fileVideoRef w;
     liveTracks := liveTracks w; monitoringInterval := monitoringInterval w;
     pendingCameras := pendingCameras w; pendingReaders := pendingReaders w;
     pending := pending w; calls := calls w; cycles := cycles w; alerts := alerts w;
     now := now w; nextId := nextId w |}.
Definition with_fileVideoRef v w :=
  {| st := st w; webcamRef := webcamRef w; fileVideoRef := v;
     liveTracks := liveTracks w; monitoringInterval := monitoringInterval w;
     pendingCameras := pendingCameras w; pendingReaders := pendingReaders w;
     pending := pending w; calls := calls w; cycles := cycles w; alerts := alerts w;
     now := now w; nextId := nextId w |}.
Definition with_liveTracks v w :=
  {| st := st w; webcamRef := webcamRef w; fileVideoRef := fileVideoRef w;
     liveTracks := v; monitoringInterval := monitoringInterval w;
     pendingCameras := pendingCameras w; pendingReaders := pendingReaders w;
     pending := pending w; calls := calls w; cycles := cycles w; alerts := alerts w;
     now := now w; nextId := nextId w |}.
Definition with_monitoringInterval v w :=
  {| st := st w; webcamRef := webcamRef w; fileVideoRef := fileVideoRef w;
     liveTracks := liveTracks w; monitoringInterval := v;
     pendingCameras := pendingCameras w; pendingReaders := pendingReaders w;
     pending := pending w; calls := calls w; cycles := cycles w; alerts := alerts w;
     now := now w; nextId := nextId w |}.
Definition with_pendingCameras v w :=
  {| st := st w; webcamRef := webcamRef w; fileVideoRef := fileVideoRef w;
     liveTracks := liveTracks w; monitoringInterval := monitoringInterval w;
     pendingCameras := v; pendingReaders := pendingReaders w; pending := pending w;
     calls := calls w; cycles := cycles w; alerts := alerts w; now := now w;
     nextId := nextId w |}.
Definition with_pendingReaders v w :=
  {| st := st w; webcamRef := webcamRef w; fileVideoRef := fileVideoRef w;
     liveTracks := liveTracks w; monitoringInterval := monitoringInterval w;
     pendingCameras := pendingCameras w; pendingReaders := v; pending := pending w;
     calls := calls w; cycles := cycles w; alerts := alerts w; now := now w;
     nextId := nextId w |}.
Definition with_pending v w :=
  {| st := st w; webcamRef := webcamRef w; fileVideoRef := fileVideoRef w;
     liveTracks := liveTracks w; monitoringInterval := monitoringInterval w;
     pendingCameras := pendingCameras w; pendingReaders := pendingReaders w;
     pending := v; calls := calls w; cycles := cycles w; alerts := alerts w;
     now := now w; nextId := nextId w |}.
Definition with_calls v w :=
  {| st := st w; webcamRef := webcamRef w; fileVideoRef := fileVideoRef w;
     liveTracks := liveTracks w; monitoringInterval := monitoringInterval w;
     pendingCameras := pendingCameras w; pendingReaders := pendingReaders w;
     pending := pending w; calls := v; cycles := cycles w; alerts := alerts w;
     now := now w; nextId := nextId w |}.
Definition with_cycles v w :=
  {| st := st w; webcamRef := webcamRef w; fileVideoRef := fileVideoRef w;
     liveTracks := liveTracks w; monitoringInterval := monitoringInterval w;
     pendingCameras := pendingCameras w; pendingReaders := pendingReaders w;
     pending := pending w; calls := calls w; cycles := v; alerts := alerts w;
     now := now w; nextId := nextId w |}.
Definition with_alerts v w :=
  {| st := st w; webcamRef := webcamRef w; fileVideoRef := fileVideoRef w;
     liveTracks := liveTracks w; monitoringInterval := monitoringInterval w;
     pendingCameras := pendingCameras w; pendingReaders := pendingReaders w;
     pending := pending w; calls := calls w; cycles := cycles w; alerts := v;
     now := now w; nextId := nextId w |}.
Definition with_now v w :=
  {| st := st w; webcamRef := webcamRef w; fileVideoRef := fileVideoRef w;
     liveTracks := liveTracks w; monitoringInterval := monitoringInterval w;
     pendingCameras := pendingCameras w; pendingReaders := pendingReaders w;
     pending := pending w; calls := calls w; cycles := cycles w; alerts := alerts w;
     now := v; nextId := nextId w |}.
Definition with_nextId v w :=
  {| st := st w; webcamRef := webcamRef w; fileVideoRef := fileVideoRef w;
     liveTracks := liveTracks w; monitoringInterval := monitoringInterval w;
     pendingCameras := pendingCameras w; pendingReaders := pendingReaders w;
     pending := pending w; calls := calls w; cycles := cycles w; alerts := alerts w;
     now := now w; nextId := v |}.

Definition updateState (f : State -> State) (w : World) : World :=
  with_st (f (st w)) w.

(** *** Telemetry simulation and the telemetry panel *)

Definition half : JS.number := JS.literal 4503599627370496 (-53).
Definition twoTenths : JS.number := JS.literal 7205759403792794 (-55).
Definition oneTenth : JS.number := JS.literal 7205759403792794 (-56).

(** One tick of the simulation interval; [r1] and [r2] are the two
    [Math.random()] draws. *)
Definition drift (r1 r2 : JS.number) (prev : TelemetryData) : TelemetryData :=
  {| temperature := JS.add (temperature prev) (JS.mul (JS.sub r1 half) twoTenths);
     pressure := JS.add (pressure prev) (JS.mul (JS.sub r2 half) oneTenth) |}.

(** [handleTempChange] and [handlePressureChange] of the telemetry panel;
    [val] is what [parseFloat] made of the input. *)
Definition handleTempChange (val : JS.number) (prev : TelemetryData) : TelemetryData :=
  {| temperature := if JS.isNaN val then JS.zero else val;
     pressure := pressure prev |}.

Definition handlePressureChange (val : JS.number) (prev : TelemetryData) : TelemetryData :=
  {| temperature := temperature prev;
     pressure := if JS.isNaN val then JS.zero else val |}.

(** *** Camera logic *)

(** What [getUserMedia] grants: the stream and the capabilities of its
    first video track. *)
Record Grant := {
  grant_stream : MediaStream;
  grant_capabilities : Capabilities }.

(** [startCamera] up to its [await]. *)
Definition startCamera (w : World) : World :=
  with_pendingCameras (S (pendingCameras w)) w.

(** [startCamera] after [getUserMedia] settled ([None]: it rejected). *)
Definition startCamera_resume (o : option Grant) (w : World) : World :=
  match o with
  | Some g =>
      let stream := grant_stream g in
      let w1 := with_liveTracks (liveTracks w ++ getTracks stream)%list w in
      let w2 := updateState
                  (fun s => setCapabilities (Some (grant_capabilities g))
                              (setVideoTrack (Some (firstVideoTrack stream)) s)) w1 in
      match webcamRef w2 with
      | Some el =>
          updateState (setIsCameraActive true)
            (with_webcamRef
               (Some {| srcObject := Some stream; readyState := 0%nat;
                        frame := frame el |}) w2)
      | None => w2
      end
  | None => with_alerts (S (alerts w)) w
  end.

Definition stopCamera (w : World) : World :=
  match webcamRef w with
  | Some el =>
      let w1 :=
        match srcObject el with
        | Some stream =>
            with_webcamRef
              (Some {| srcObject := None; readyState := readyState el;
                       frame := frame el |})
              (with_liveTracks (stopTracks (getTracks stream) (liveTracks w)) w)
        | None => w
        end in
      updateState
        (fun s => setCapabilities None (setVideoTrack None (setIsCameraActive false s)))
        w1
  | None => w
  end.

(** The effect on [inputMode]: "Automatically start/stop camera based on
    mode". *)
Definition cameraEffect (snap : State) (w : World) : World :=
  match inputMode snap with
  | CAMERA => updateState (setIsAutoMonitoring true) (startCamera w)
  | UPLOAD =>
      let w1 := stopCamera w in
      match uploadType snap with
      | Some VIDEO => w1
      | _ => updateState (setIsAutoMonitoring false) w1
      end
  end.

Definition cameraCleanup (w : World) : World := stopCamera w.

(** "Determine which video element to capture from" *)
Definition sourceVideo (snap : State) (w : World) : option VideoElement :=
  match inputMode snap with
  | CAMERA => webcamRef w
  | UPLOAD =>
      match uploadType snap with
      | Some VIDEO => fileVideoRef w
      | _ => None
      end
  end.

Definition captureFrame (snap : State) (w : World) : option string :=
  match sourceVideo snap w with
  | None => None
  | Some el =>
      if (readyState el <? 2)%nat then None
      else match frame el with
           | Drawn dataUrl => Some dataUrl
           | NoContext => None
           | Throws => None
           end
  end.

(** *** File and gallery logic *)

Definition handleFileChange (snap : State) (file : option File) (w : World) : World :=
  match file with
  | None => w
  | Some f =>
      let w1 := updateState (setAnalysis idle) w in
      let w2 := if JS.truthy_opt (videoFileSrc snap)
                then updateState (setVideoFileSrc None) w1 else w1 in
      if JS.startsWith (file_type f) "video/" then
        updateState
          (fun s => setIsAutoMonitoring false
                      (setImagePreview None
                         (setUploadType (Some VIDEO)
                            (setVideoFileSrc (Some (file_objectUrl f)) s)))) w2
      else
        with_pendingReaders (pendingReaders w2 ++ [file_dataUrl f])%list w2
  end.

(** [reader.onloadend] of [handleFileChange]. *)
Definition reader_onloadend (readerResult : option string) (w : World) : World :=
  updateState
    (fun s => setIsAutoMonitoring false
                (setVideoFileSrc None
                   (setUploadType (Some IMAGE)
                      (setImagePreview readerResult s)))) w.

Record SampleExperiment := {
  exp_id : string;
  exp_title : string;
  exp_description : string;
  exp_context : string;
  exp_imageUrl : string;
  exp_colorTag : string }.

Definition handleGallerySelect (exp : SampleExperiment) (w : World) : World :=
  updateState
    (fun s => setIsAutoMonitoring false
                (setInputMode UPLOAD
                   (setUploadType (Some IMAGE)
                      (setImagePreview (Some (exp_imageUrl exp))
                         (setVideoFileSrc None
                            (setHistory []
                               (setAnalysis idle
                                  (setContext (exp_context exp) s)))))))) w.

(** *** Preprocessing and analysis *)

(** How loading the image went: [onerror], or [onload] with what the canvas
    then did. *)
Inductive ImageLoad :=
| LoadError
| Loaded (draw : Canvas).

(** The value the promise of [preprocessImage source] resolves with. *)
Definition preprocessImage (source : string) (o : ImageLoad) : string :=
  match o with
  | Loaded (Drawn enhanced) => enhanced
  | Loaded NoContext => source
  | Loaded Throws => source
  | LoadError => source
  end.

Definition degree : string :=
  String (ascii_of_nat 194) (String (ascii_of_nat 176) EmptyString).

Definition augmentedContext (context : string) (telemetry : TelemetryData)
    (date : Z) : string :=
  context ++ JS.nl ++ JS.nl ++ "[REAL-TIME TELEMETRY]" ++ JS.nl ++
  "Temperature: " ++ JS.toFixed2 (temperature telemetry) ++ " " ++ degree ++ "C" ++ JS.nl ++
  "Pressure: " ++ JS.toFixed2 (pressure telemetry) ++ " kPa" ++ JS.nl ++
  "Timestamp: " ++ JS.toISOString date.

Definition findCycle (id : nat) (w : World) : option Cycle :=
  find (fun c => Nat.eqb (cy_id c) id) (pending w).

Definition dropCycle (id : nat) (w : World) : World :=
  with_pending (filter (fun c => negb (Nat.eqb (cy_id c) id)) (pending w)) w.

Definition setStage (id : nat) (stage : Stage) (w : World) : World :=
  with_pending
    (map (fun c => if Nat.eqb (cy_id c) id
                   then {| cy_id := cy_id c; cy_snap := cy_snap c; cy_stage := stage |}
                   else c) (pending w)) w.

(** The [catch] block of [handleAnalyze]. *)
Definition handleAnalyze_catch (message : option string) (s : State) : State :=
  setAnalysis
    {| isLoading := false; result := None;
       error := JS.or_else message (Some "An unexpected error occurred.") |} s.

(** [handleAnalyze] from the composition of the augmented context to the
    call of the Analysis Client. *)
Definition handleAnalyze_call (c : Cycle) (finalImageDataUrl : string)
    (w : World) : World :=
  let snap := cy_snap c in
  let augmented := augmentedContext (context snap) (telemetry snap) (now w) in
  match JS.split finalImageDataUrl ","%char with
  | [_; base64Data] =>
      with_calls
        (calls w ++ [{| call_id := cy_id c; call_context := augmented;
                        call_image := base64Data;
                        call_level := thinkingLevel snap |}])%list
        (setStage (cy_id c) AwaitingClient w)
  | _ =>
      updateState (handleAnalyze_catch (Some "Invalid image data format."))
        (dropCycle (cy_id c) w)
  end.

(** [await ensureBase64(finalImageDataUrl)] and what follows it. *)
Definition ensureBase64 (c : Cycle) (urlOrData : string) (w : World) : World :=
  if JS.startsWith urlOrData "data:" then handleAnalyze_call c urlOrData w
  else setStage (cy_id c) (Fetching urlOrData) w.

(** How the fetch-and-read of [ensureBase64] went. *)
Inductive Fetch :=
| FetchThrows
| ReaderError
| ReadAs (dataUrl : string).

Definition imageToAnalyze (snap : State) (manualImage : option string)
    (w : World) : option string :=
  match inputMode snap with
  | CAMERA => captureFrame snap w
  | UPLOAD =>
      match uploadType snap with
      | Some VIDEO => captureFrame snap w
      | _ => JS.or_else manualImage (imagePreview snap)
      end
  end.

(** [handleAnalyze] up to its first suspension. *)
Definition handleAnalyze (snap : State) (manualImage : option string)
    (w : World) : World :=
  let w0 := with_cycles (S (cycles w)) w in
  match imageToAnalyze snap manualImage w with
  | Some image =>
      if JS.truthy image && JS.truthy (context snap) then
        let c := {| cy_id := nextId w0; cy_snap := snap;
                    cy_stage := Preprocessing image |} in
        let w1 :=
          updateState
            (fun prev => setAnalysis {| isLoading := true;
                                        result := result (analysis prev);
                                        error := None |} prev) w0 in
        let w2 := with_nextId (S (nextId w1))
                    (with_pending (pending w1 ++ [c])%list w1) in
        if enablePreprocessing then w2 else ensureBase64 c image w2
      else w0
  | None => w0
  end.

(** [handleAnalyze] resumed when [preprocessImage] settles. *)
Definition handleAnalyze_preprocessed (id : nat) (o : ImageLoad) (w : World) : World :=
  match findCycle id w with
  | Some c =>
      match cy_stage c with
      | Preprocessing image => ensureBase64 c (preprocessImage image o) w
      | _ => w
      end
  | None => w
  end.

(** [handleAnalyze] resumed when the fetch inside [ensureBase64] settles. *)
Definition handleAnalyze_fetched (id : nat) (o : Fetch) (w : World) : World :=
  match findCycle id w with
  | Some c =>
      match cy_stage c with
      | Fetching _ =>
          match o with
          | ReadAs dataUrl => handleAnalyze_call c dataUrl w
          | FetchThrows =>
              updateState
                (handleAnalyze_catch
                   (Some "Unable to process image. Network or CORS error."))
                (dropCycle id w)
          | ReaderError =>
              updateState (handleAnalyze_catch None) (dropCycle id w)
          end
      | _ => w
      end
  | None => w
  end.

(** [handleAnalyze] resumed when [analyzeExperiment] resolves. *)
Definition handleAnalyze_resolved (id : nat) (r : AnalysisResult) (w : World) : World :=
  match findCycle id w with
  | Some c =>
      match cy_stage c with
      | AwaitingClient =>
          updateState
            (fun prev =>
               setHistory
                 (history prev ++
                  [{| timestamp := now w;
                      Types.telemetry := telemetry (cy_snap c);
                      Types.analysis := r |}])%list
                 (setAnalysis {| isLoading := false; result := Some r;
                                 error := None |} prev))
            (dropCycle id w)
      | _ => w
      end
  | None => w
  end.

(** [handleAnalyze] resumed when [analyzeExperiment] rejects; [message] is
    [err.message]. *)
Definition handleAnalyze_rejected (id : nat) (message : option string)
    (w : World) : World :=
  match findCycle id w with
  | Some c =>
      match cy_stage c with
      | AwaitingClient =>
          updateState (handleAnalyze_catch message) (dropCycle id w)
      | _ => w
      end
  | None => w
  end.

(** *** The auto-monitoring loop *)

Definition InputMode_eqb (a b : InputMode) : bool :=
  match a, b with UPLOAD, UPLOAD | CAMERA, CAMERA => true | _, _ => false end.

Definition UploadType_eqb (a b : UploadType) : bool :=
  match a, b with
  | None, None | Some IMAGE, Some IMAGE | Some VIDEO, Some VIDEO => true
  | _, _ => false
  end.

(** "Auto monitor works for CAMERA OR UPLOADED VIDEO" *)
Definition canMonitor (s : State) : bool :=
  InputMode_eqb (inputMode s) CAMERA
  || (InputMode_eqb (inputMode s) UPLOAD && UploadType_eqb (uploadType s) (Some VIDEO)).

Definition clearMonitoringInterval (w : World) : World :=
  with_monitoringInterval None w.

(** The body of the auto-monitoring effect, run in the render [snap]. *)
Definition monitorEffect (snap : State) (w : World) : World :=
  if isAutoMonitoring snap && canMonitor snap then
    with_monitoringInterval (Some snap) (handleAnalyze snap None w)
  else clearMonitoringInterval w.

Definition monitorCleanup (w : World) : World := clearMonitoringInterval w.

(** The callback handed to [setInterval]: it reads [analysis.isLoading] and
    [handleAnalyze] of the render the effect ran in. *)
Definition monitorTick (w : World) : World :=
  match monitoringInterval w with
  | Some snap =>
      if negb (isLoading (analysis snap)) then handleAnalyze snap None w else w
  | None => w
  end.

(** The dependency list of the auto-monitoring effect:
    [[isAutoMonitoring, inputMode, uploadType, context, thinkingLevel,
    enablePreprocessing]]. *)
Definition monitorDeps_eqb (a b : State) : bool :=
  Bool.eqb (isAutoMonitoring a) (isAutoMonitoring b)
  && InputMode_eqb (inputMode a) (inputMode b)
  && UploadType_eqb (uploadType a) (uploadType b)
  && String.eqb (context a) (context b)
  && ThinkingLevel_eqb (thinkingLevel a) (thinkingLevel b).

(** The dependency list of the camera effect: [[inputMode]]. *)
Definition cameraDeps_eqb (a b : State) : bool :=
  InputMode_eqb (inputMode a) (inputMode b).

Definition handleLiveCameraClick (w : World) : World :=
  updateState (fun s => setIsAutoMonitoring true (setInputMode CAMERA s)) w.

Definition handleFileUploadClick (w : World) : World :=
  updateState (fun s => setIsAutoMonitoring false (setInputMode UPLOAD s)) w.

Definition isMonitoringCapable (s : State) : bool :=
  InputMode_eqb (inputMode s) CAMERA
  || (InputMode_eqb (inputMode s) UPLOAD && UploadType_eqb (uploadType s) (Some VIDEO)).

(** *** What the rendered tree offers *)

(** The [disabled] attribute of the analyze button. *)
Definition analyzeDisabled (s : State) : bool :=
  isLoading (analysis s)
  || (InputMode_eqb (inputMode s) UPLOAD
      && negb (JS.truthy_opt (imagePreview s))
      && negb (JS.truthy_opt (videoFileSrc s))).

(** The [<video ref={fileVideoRef}>] element is in the tree. *)
Definition fileVideoShown (s : State) : bool :=
  InputMode_eqb (inputMode s) UPLOAD
  && UploadType_eqb (uploadType s) (Some VIDEO)
  && JS.truthy_opt (videoFileSrc s).

Definition src_eqb (a b : option string) : bool :=
  match a, b with
  | Some x, Some y => String.eqb x y
  | None, None => true
  | _, _ => false
  end.

(** Committing the render [snap] to the DOM.  The [<video ref={webcamRef}>]
    element is in the tree exactly when [inputMode === 'CAMERA']; React
    clears the ref of an element it removes and sets the ref of an element
    it inserts before any effect of that render runs.  A video element
    whose [src] changed starts loading again. *)
Definition commitDom (prev snap : State) (w : World) : World :=
  let cam :=
    match inputMode snap with
    | CAMERA =>
        match webcamRef w with
        | Some el => Some el
        | None => Some freshVideo
        end
    | UPLOAD => None
    end in
  let fil :=
    if fileVideoShown snap then
      match fileVideoRef w with
      | Some el =>
          if src_eqb (videoFileSrc prev) (videoFileSrc snap) then Some el
          else Some freshVideo
      | None => Some freshVideo
      end
    else None in
  with_fileVideoRef fil (with_webcamRef cam w).

(** One render of the state [st w] after the render [prev]: the DOM is
    committed, then the cleanups of the effects whose dependencies changed
    run, then their bodies, in the order the effects are declared.  State
    set by an effect goes into [st] and is rendered by the next round. *)
Definition render (prev : State) (w : World) : World :=
  let snap := st w in
  let camera := negb (cameraDeps_eqb prev snap) in
  let monitor := negb (monitorDeps_eqb prev snap) in
  let w0 := commitDom prev snap w in
  let w1 := if camera then cameraCleanup w0 else w0 in
  let w2 := if monitor then monitorCleanup w1 else w1 in
  let w3 := if camera then cameraEffect snap w2 else w2 in
  if monitor then monitorEffect snap w3 else w3.

(** *** Events *)

(** User input, timers and the settling of asynchronous work.  The clock
    ([Date.now()]) only moves forward. *)
Inductive Event :=
| ContextTyped (text : string)
| ThinkingLevelPicked (level : ThinkingLevel)
| LiveCameraClick
| FileUploadClick
| MonitoringToggleClick
| AnalyzeClick
| FileChosen (file : option File)
| GallerySelect (exp : SampleExperiment)
| TelemetryModePicked (mode : TelemetryMode)
| TempTyped (val : JS.number)
| PressureTyped (val : JS.number)
| TelemetryTick (r1 r2 : JS.number)
| MonitorTick
| ClockAdvance (ms : N)
| GetUserMediaSettled (o : option Grant)
| ReaderLoadEnd (i : nat)
| VideoProgress (camera : bool) (ready : nat) (picture : Canvas)
| PreprocessSettled (id : nat) (o : ImageLoad)
| FetchSettled (id : nat) (o : Fetch)
| ClientResolved (id : nat) (r : AnalysisResult)
| ClientRejected (id : nat) (message : option string).

Definition progress (ready : nat) (picture : Canvas) (el : VideoElement) : VideoElement :=
  {| srcObject := srcObject el; readyState := ready; frame := picture |}.

(** The handler an event runs, with the closures of the committed render
    [st w].  An event the rendered tree does not offer changes nothing. *)
Definition handle (e : Event) (w : World) : World :=
  let snap := st w in
  match e with
  | ContextTyped text => updateState (setContext text) w
  | ThinkingLevelPicked level => updateState (setThinkingLevel level) w
  | LiveCameraClick => handleLiveCameraClick w
  | FileUploadClick => handleFileUploadClick w
  | MonitoringToggleClick =>
      if isMonitoringCapable snap
      then updateState (setIsAutoMonitoring (negb (isAutoMonitoring snap))) w
      else w
  | AnalyzeClick =>
      if analyzeDisabled snap then w else handleAnalyze snap None w
  | FileChosen file =>
      match inputMode snap with
      | UPLOAD => handleFileChange snap file w
      | CAMERA => w
      end
  | GallerySelect exp => handleGallerySelect exp w
  | TelemetryModePicked mode => updateState (setTelemetryMode mode) w
  | TempTyped val =>
      match telemetryMode snap with
      | MANUAL => updateState (fun s => setTelemetry (handleTempChange val (telemetry s)) s) w
      | SIMULATED => w
      end
  | PressureTyped val =>
      match telemetryMode snap with
      | MANUAL => updateState (fun s => setTelemetry (handlePressureChange val (telemetry s)) s) w
      | SIMULATED => w
      end
  | TelemetryTick r1 r2 =>
      match telemetryMode snap with
      | SIMULATED => updateState (fun s => setTelemetry (drift r1 r2 (telemetry s)) s) w
      | MANUAL => w
      end
  | MonitorTick => monitorTick w
  | ClockAdvance ms => with_now (now w + Z.of_N ms) w
  | GetUserMediaSettled o =>
      match pendingCameras w with
      | S n => startCamera_resume o (with_pendingCameras n w)
      | O => w
      end
  | ReaderLoadEnd i =>
      match nth_error (pendingReaders w) i with
      | Some readerResult =>
          reader_onloadend readerResult
            (with_pendingReaders
               (firstn i (pendingReaders w) ++ skipn (S i) (pendingReaders w))%list w)
      | None => w
      end
  | VideoProgress camera ready picture =>
      if camera then
        match webcamRef w with
        | Some el =>
            match srcObject el with
            | Some _ => with_webcamRef (Some (progress ready picture el)) w
            | None => w
            end
        | None => w
        end
      else
        match fileVideoRef w with
        | Some el => with_fileVideoRef (Some (progress ready picture el)) w
        | None => w
        end
  | PreprocessSettled id o => handleAnalyze_preprocessed id o w
  | FetchSettled id o => handleAnalyze_fetched id o w
  | ClientResolved id r => handleAnalyze_resolved id r w
  | ClientRejected id message => handleAnalyze_rejected id message w
  end.

(** An event, the render it causes and the render the effects of that
    render cause. *)
Definition step (w : World) (e : Event) : World :=
  let w1 := handle e w in
  let w2 := render (st w) w1 in
  render (st w1) w2.

Definition run (w : World) (es : list Event) : World := fold_left step es w.

(** The component right after mounting at time [t]: the first render and
    the bodies of its effects. *)
Definition mount (t : Z) : World :=
  let blank :=
    {| st := initialState; webcamRef := None; fileVideoRef := None;
       liveTracks := []; monitoringInterval := None; pendingCameras := 0%nat;
       pendingReaders := []; pending := []; calls := []; cycles := 0%nat;
       alerts := 0%nat; now := t; nextId := 0%nat |} in
  render initialState
    (monitorEffect initialState (cameraEffect initialState blank)).

End App.

(** ** The earlier App component *)

Module Legacy.
Import Types Dom.

Inductive InputMode := UPLOAD | CAMERA.

(** The [useState] cells the analysis path reads or writes (the telemetry
    mode and the gallery-open flag are left out). *)
Record State := {
  thinkingLevel : ThinkingLevel;
  context : string;
  imagePreview : option string;
  inputMode : InputMode;
  isCameraActive : bool;
  isAutoMonitoring : bool;
  telemetry : TelemetryData;
  analysis : AnalysisState }.

Definition enablePreprocessing : bool := true.

Definition setImagePreview v s :=
  {| thinkingLevel := thinkingLevel s; context := context s; imagePreview := v;
     inputMode := inputMode s; isCameraActive := isCameraActive s;
     isAutoMonitoring := isAutoMonitoring s; telemetry := telemetry s;
     analysis := analysis s |}.
Definition setIsAutoMonitoring v s :=
  {| thinkingLevel := thinkingLevel s; context := context s;
     imagePreview := imagePreview s; inputMode := inputMode s;
     isCameraActive := isCameraActive s; isAutoMonitoring := v;
     telemetry := telemetry s; analysis := analysis s |}.
Definition setAnalysis v s :=
  {| thinkingLevel := thinkingLevel s; context := context s;
     imagePreview := imagePreview s; inputMode := inputMode s;
     isCameraActive := isCameraActive s;
     isAutoMonitoring := isAutoMonitoring s; telemetry := telemetry s;
     analysis := v |}.

(** Where a [handleAnalyze] call is suspended. *)
Inductive Stage :=
| Preprocessing (image : string)
| AwaitingClient.

Record Cycle := {
  cy_id : nat;
  cy_snap : State;
  cy_stage : Stage }.

(** One [analyzeExperiment] call; the image is [undefined] when the data
    URL has no comma. *)
Record ClientCall := {
  call_id : nat;
  call_context : string;
  call_image : option string;
  call_level : ThinkingLevel }.

Record World := {
  st : State;
  videoRef : option VideoElement;
  pending : list Cycle;
  calls : list ClientCall;
  now : Z;
  nextId : nat }.

Definition updateState (f : State -> State) (w : World) : World :=
  {| st := f (st w); videoRef := videoRef w; pending := pending w;
     calls := calls w; now := now w; nextId := nextId w |}.

Definition with_pending v (w : World) : World :=
  {| st := st w; videoRef := videoRef w; pending := v;
     calls := calls w; now := now w; nextId := nextId w |}.

(** What [captureFrame] does: it returns a frame or [null], or the canvas
    throws (nothing catches it here). *)
Inductive Captured :=
| Frame (dataUrl : option string)
| CaptureThrows.

Definition captureFrame (snap : State) (w : World) : Captured :=
  match videoRef w with
  | None => Frame None
  | Some el =>
      if negb (isCameraActive snap) then Frame None
      else match frame el with
           | Drawn dataUrl => Frame (Some dataUrl)
           | NoContext => Frame None
           | Throws => CaptureThrows
           end
  end.

Inductive ImageLoad :=
| LoadError
| Loaded (draw : Canvas).

(** The value the promise of [preprocessImage source] resolves with;
    [None] when it never settles: an exception inside [img.onload] leaves
    the handler before any [resolve]. *)
Definition preprocessImage (source : string) (o : ImageLoad) : option string :=
  match o with
  | Loaded (Drawn enhanced) => Some enhanced
  | Loaded NoContext => Some source
  | Loaded Throws => None
  | LoadError => Some source
  end.

(** The unit of the temperature line, byte for byte as in the file. *)
Definition degree : string :=
  String (ascii_of_nat 195) (String (ascii_of_nat 130)
    (String (ascii_of_nat 194) (String (ascii_of_nat 176) EmptyString))).

Definition augmentedContext (context : string) (telemetry : TelemetryData)
    (date : Z) : string :=
  context ++ JS.nl ++ JS.nl ++ "[REAL-TIME TELEMETRY]" ++ JS.nl ++
  "Temperature: " ++ JS.toFixed2 (temperature telemetry) ++ " " ++ degree ++ "C" ++ JS.nl ++
  "Pressure: " ++ JS.toFixed2 (pressure telemetry) ++ " kPa" ++ JS.nl ++
  "Timestamp: " ++ JS.toISOString date.

Definition findCycle (id : nat) (w : World) : option Cycle :=
  find (fun c => Nat.eqb (cy_id c) id) (pending w).

Definition dropCycle (id : nat) (w : World) : World :=
  with_pending (filter (fun c => negb (Nat.eqb (cy_id c) id)) (pending w)) w.

Definition setStage (id : nat) (stage : Stage) (w : World) : World :=
  with_pending
    (map (fun c => if Nat.eqb (cy_id c) id
                   then {| cy_id := cy_id c; cy_snap := cy_snap c; cy_stage := stage |}
                   else c) (pending w)) w.

(** The [catch] block of [handleAnalyze]: "Stop monitoring on error". *)
Definition handleAnalyze_catch (message : option string) (s : State) : State :=
  setIsAutoMonitoring false
    (setAnalysis
       {| isLoading := false; result := None;
          error := JS.or_else message (Some "An unexpected error occurred.") |} s).

(** [handleAnalyze] from the composition of the augmented context to the
    call of the Analysis Client. *)
Definition handleAnalyze_call (c : Cycle) (finalImageDataUrl : string)
    (w : World) : World :=
  let snap := cy_snap c in
  let augmented := augmentedContext (context snap) (telemetry snap) (now w) in
  let base64Data := nth_error (JS.split finalImageDataUrl ","%char) 1 in
  let w1 := setStage (cy_id c) AwaitingClient w in
  {| st := st w1; videoRef := videoRef w1; pending := pending w1;
     calls := (calls w1 ++ [{| call_id := cy_id c; call_context := augmented;
                               call_image := base64Data;
                               call_level := thinkingLevel snap |}])%list;
     now := now w1; nextId := nextId w1 |}.

(** [handleAnalyze] up to its first suspension; [None] when [captureFrame]
    throws. *)
Definition handleAnalyze (snap : State) (manualImage : option string)
    (w : World) : option World :=
  let fallback := JS.or_else manualImage (imagePreview snap) in
  let capture :=
    match inputMode snap with
    | CAMERA =>
        if negb (JS.truthy_opt manualImage) then
          match captureFrame snap w with
          | Frame captured =>
              if JS.truthy_opt captured
              then Some (captured, updateState (setImagePreview captured) w)
              else Some (fallback, w)
          | CaptureThrows => None
          end
        else Some (fallback, w)
    | UPLOAD => Some (fallback, w)
    end in
  match capture with
  | None => None
  | Some (Some image, w0) =>
      if JS.truthy image && JS.truthy (context snap) then
        let c := {| cy_id := nextId w0; cy_snap := snap;
                    cy_stage := Preprocessing image |} in
        let w1 :=
          updateState
            (fun prev => setAnalysis {| isLoading := true;
                                        result := result (analysis prev);
                                        error := None |} prev) w0 in
        let w2 := {| st := st w1; videoRef := videoRef w1;
                     pending := (pending w1 ++ [c])%list; calls := calls w1;
                     now := now w1; nextId := S (nextId w1) |} in
        Some (if enablePreprocessing then w2 else handleAnalyze_call c image w2)
      else Some w0
  | Some (None, w0) => Some w0
  end.

(** [handleAnalyze] resumed when [preprocessImage] settles, if it does. *)
Definition handleAnalyze_preprocessed (id : nat) (o : ImageLoad) (w : World) : World :=
  match findCycle id w with
  | Some c =>
      match cy_stage c with
      | Preprocessing image =>
          match preprocessImage image o with
          | Some final => handleAnalyze_call c final w
          | None => w
          end
      | _ => w
      end
  | None => w
  end.

Definition handleAnalyze_resolved (id : nat) (r : AnalysisResult) (w : World) : World :=
  match findCycle id w with
  | Some c =>
      match cy_stage c with
      | AwaitingClient =>
          updateState
            (setAnalysis {| isLoading := false; result := Some r; error := None |})
            (dropCycle id w)
      | _ => w
      end
  | None => w
  end.

Definition handleAnalyze_rejected (id : nat) (message : option string)
    (w : World) : World :=
  match findCycle id w with
  | Some c =>
      match cy_stage c with
      | AwaitingClient => updateState (handleAnalyze_catch message) (dropCycle id w)
      | _ => w
      end
  | None => w
  end.

End Legacy.

(** * Vocabulary of the properties *)

Module Spec.
Import Types Dom.

Definition newline : ascii := ascii_of_nat 10.

(** The lines of a text. *)
Definition lines (s : string) : list string := JS.split s newline.

Fixpoint oneLine (s : string) : bool :=
  match s with
  | EmptyString => true
  | String a s' => negb (Ascii.eqb a newline) && oneLine s'
  end.

(** An optional minus sign, digits, a point and exactly two digits. *)
Definition twoDecimals (s : string) : Prop :=
  exists sign int frac,
    s = sign ++ int ++ "." ++ frac /\
    (sign = "" \/ sign = "-") /\
    int <> "" /\ JS.allDigits int = true /\
    JS.allDigits frac = true /\ String.length frac = 2%nat.

Definition digitsOfLength (k : nat) (s : string) : Prop :=
  JS.allDigits s = true /\ String.length s = k.

(** ISO 8601 in the form [YYYY-MM-DDTHH:mm:ss.sssZ], the year with four
    digits or with a sign and six digits. *)
Definition iso8601 (s : string) : Prop :=
  exists Y M D h m sec ms,
    s = Y ++ "-" ++ M ++ "-" ++ D ++ "T" ++ h ++ ":" ++ m ++ ":" ++ sec ++ "." ++ ms ++ "Z" /\
    (digitsOfLength 4 Y \/
     exists sign Y', Y = sign ++ Y' /\ (sign = "+" \/ sign = "-") /\ digitsOfLength 6 Y') /\
    digitsOfLength 2 M /\ digitsOfLength 2 D /\ digitsOfLength 2 h /\
    digitsOfLength 2 m /\ digitsOfLength 2 sec /\ digitsOfLength 3 ms.

(** A finite number below 10^21 in magnitude. *)
Definition fixedRange (x : JS.number) : bool :=
  match x with
  | S754_zero _ => true
  | S754_finite _ m e => negb (JS.atLeast1e21 m e)
  | _ => false
  end.

(** The augmented context as the specification words it: the context, a
    blank line, then the three telemetry lines. *)
Definition specifiedContext (context : string) (telemetry : TelemetryData)
    (date : Z) : string :=
  context ++ JS.nl ++ JS.nl ++
  "Temperature: " ++ JS.toFixed2 (temperature telemetry) ++ " " ++ App.degree ++ "C" ++ JS.nl ++
  "Pressure: " ++ JS.toFixed2 (pressure telemetry) ++ " kPa" ++ JS.nl ++
  "Timestamp: " ++ JS.toISOString date.

(** What no effect and no render touches. *)
Record effectFrame (w w' : App.World) : Prop := {
  ef_history : App.history (App.st w') = App.history (App.st w);
  ef_now : App.now w' = App.now w;
  ef_calls : App.calls w' = App.calls w;
  ef_context : App.context (App.st w') = App.context (App.st w);
  ef_thinkingLevel : App.thinkingLevel (App.st w') = App.thinkingLevel (App.st w);
  ef_inputMode : App.inputMode (App.st w') = App.inputMode (App.st w);
  ef_uploadType : App.uploadType (App.st w') = App.uploadType (App.st w);
  ef_telemetry : App.telemetry (App.st w') = App.telemetry (App.st w);
  ef_videoFileSrc : App.videoFileSrc (App.st w') = App.videoFileSrc (App.st w);
  ef_imagePreview : App.imagePreview (App.st w') = App.imagePreview (App.st w);
  ef_telemetryMode : App.telemetryMode (App.st w') = App.telemetryMode (App.st w);
  ef_pendingReaders : App.pendingReaders w' = App.pendingReaders w }.

(** What the camera operations and the DOM commit leave alone in the
    monitoring loop. *)
Record loopFrame (w w' : App.World) : Prop := {
  lf_monitoringInterval : App.monitoringInterval w' = App.monitoringInterval w;
  lf_pending : App.pending w' = App.pending w;
  lf_nextId : App.nextId w' = App.nextId w;
  lf_cycles : App.cycles w' = App.cycles w;
  lf_analysis : App.analysis (App.st w') = App.analysis (App.st w) }.

(** What the camera effect of the render [snap] makes of
    [isAutoMonitoring]. *)
Definition cameraEffect_auto (snap : App.State) (before : bool) : bool :=
  match App.inputMode snap with
  | App.CAMERA => true
  | App.UPLOAD =>
      match App.uploadType snap with
      | Some App.VIDEO => before
      | _ => false
      end
  end.

(** The interval the auto-monitoring effect of the render [snap] leaves. *)
Definition armed (snap : App.State) : option App.State :=
  if App.isAutoMonitoring snap && App.canMonitor snap then Some snap else None.

(** The values in the dependency list of the auto-monitoring effect. *)
Definition monitorDeps (s : App.State) :=
  (App.isAutoMonitoring s, App.inputMode s, App.uploadType s, App.context s,
   App.thinkingLevel s).

(** The event resolves an Analysis Client call that is in flight. *)
Definition succeeds (w : App.World) (e : App.Event) : bool :=
  match e with
  | App.ClientResolved id _ =>
      match App.findCycle id w with
      | Some c =>
          match App.cy_stage c with
          | App.AwaitingClient => true
          | _ => false
          end
      | None => false
      end
  | _ => false
  end.

(** The ledger after an event: emptied by a gallery selection, extended by
    one entry by a successful completion, otherwise as it was. *)
Definition ledgerAfter (w : App.World) (e : App.Event) : list HistoryItem :=
  match e with
  | App.GallerySelect _ => []
  | App.ClientResolved id r =>
      match App.findCycle id w with
      | Some c =>
          match App.cy_stage c with
          | App.AwaitingClient =>
              (App.history (App.st w) ++
               [{| timestamp := App.now w;
                   telemetry := App.telemetry (App.cy_snap c);
                   analysis := r |}])%list
          | _ => App.history (App.st w)
          end
      | None => App.history (App.st w)
      end
  | _ => App.history (App.st w)
  end.

(** The number of successful completions along a run. *)
Fixpoint completions (w : App.World) (es : list App.Event) : nat :=
  match es with
  | [] => 0%nat
  | e :: es' =>
      ((if succeeds w e then 1 else 0) + completions (App.step w e) es')%nat
  end.

(** The number of successful completions along a run since the last
    gallery selection, starting from [n]. *)
Fixpoint completionsSinceReset (w : App.World) (es : list App.Event) (n : nat) : nat :=
  match es with
  | [] => n
  | e :: es' =>
      completionsSinceReset (App.step w e) es'
        (match e with
         | App.GallerySelect _ => 0%nat
         | _ => if succeeds w e then S n else n
         end)
  end.

Definition timestamps (h : list HistoryItem) : list Z := map timestamp h.

(** The call of the cycle [c] is in the log, and its context was composed
    from the telemetry of the render the cycle closes over. *)
Definition logged (w : App.World) (c : App.Cycle) : Prop :=
  exists call date,
    In call (App.calls w) /\ App.call_id call = App.cy_id c /\
    App.call_context call
    = App.augmentedContext (App.context (App.cy_snap c))
        (App.telemetry (App.cy_snap c)) date.

(** The context of a logged call is an augmented context. *)
Definition augmentedCall (call : App.ClientCall) : Prop :=
  exists context telemetry date,
    App.call_context call = App.augmentedContext context telemetry date.

Definition cyclesConsistent (w : App.World) : Prop :=
  (forall c, In c (App.pending w) -> (App.cy_id c < App.nextId w)%nat) /\
  NoDup (map App.cy_id (App.pending w)) /\
  (forall c, In c (App.pending w) -> App.cy_stage c = App.AwaitingClient -> logged w c) /\
  Forall augmentedCall (App.calls w).

(** What an operation can do to the suspended cycles and the call log. *)
Inductive cycleOp (w w' : App.World) : Prop :=
| op_none :
    App.pending w' = App.pending w -> App.calls w' = App.calls w ->
    App.nextId w' = App.nextId w -> cycleOp w w'
| op_start snap image :
    App.pending w'
    = (App.pending w ++ [{| App.cy_id := App.nextId w; App.cy_snap := snap;
                            App.cy_stage := App.Preprocessing image |}])%list ->
    App.calls w' = App.calls w -> App.nextId w' = S (App.nextId w) ->
    cycleOp w w'
| op_fetch id url :
    App.pending w' = App.pending (App.setStage id (App.Fetching url) w) ->
    App.calls w' = App.calls w -> App.nextId w' = App.nextId w -> cycleOp w w'
| op_call c base64Data :
    App.findCycle (App.cy_id c) w = Some c ->
    App.pending w' = App.pending (App.setStage (App.cy_id c) App.AwaitingClient w) ->
    App.calls w'
    = (App.calls w ++
       [{| App.call_id := App.cy_id c;
           App.call_context :=
             App.augmentedContext (App.context (App.cy_snap c))
               (App.telemetry (App.cy_snap c)) (App.now w);
           App.call_image := base64Data;
           App.call_level := App.thinkingLevel (App.cy_snap c) |}])%list ->
    App.nextId w' = App.nextId w -> cycleOp w w'
| op_drop id :
    App.pending w' = App.pending (App.dropCycle id w) ->
    App.calls w' = App.calls w -> App.nextId w' = App.nextId w -> cycleOp w w'.

(** What the analysis path leaves alone of the camera. *)
Record deviceFrame (w w' : App.World) : Prop := {
  df_liveTracks : App.liveTracks w' = App.liveTracks w;
  df_webcamRef : App.webcamRef w' = App.webcamRef w }.

(** In upload mode there is no webcam element. *)
Definition domMatches (w : App.World) : Prop :=
  App.inputMode (App.st w) = App.UPLOAD -> App.webcamRef w = None.

(** Auto-monitoring is on only for a source that can be captured
    repeatedly. *)
Definition gated (s : App.State) : Prop :=
  App.isAutoMonitoring s = true -> App.isMonitoringCapable s = true.

(** The monitoring interval, when there is one, was created by a render
    with auto-monitoring on and a capture-capable source, and the
    dependencies of the effect have not changed since. *)
Definition intervalCurrent (w : App.World) : Prop :=
  forall snap,
    App.monitoringInterval w = Some snap ->
    monitorDeps snap = monitorDeps (App.st w) /\
    App.isAutoMonitoring snap = true /\ App.canMonitor snap = true.

End Spec.

(** ** What an invocation of [handleAnalyze] leaves behind *)

Module Outcome.
Import Types Dom App.

(** [handleAnalyze] got past its guard: the loading flag is set, the error
    is cleared and a new suspended call, closed over the render [snap],
    waits for the preprocessor with [image]. *)
Definition started (snap : State) (image : string) (w w' : World) : Prop :=
  pending w'
  = (pending w ++ [{| cy_id := nextId w; cy_snap := snap;
                      cy_stage := Preprocessing image |}])%list /\
  nextId w' = S (nextId w) /\
  calls w' = calls w /\
  analysis (st w')
  = {| isLoading := true; result := result (analysis (st w)); error := None |}.

(** Nothing of an analysis happened: no suspended call was added or
    resumed, no Analysis Client call was issued, and the loading flag, the
    result, the error and the ledger are what they were. *)
Definition untouched (w w' : World) : Prop :=
  pending w' = pending w /\ calls w' = calls w /\ nextId w' = nextId w /\
  analysis (st w') = analysis (st w) /\ history (st w') = history (st w).


End Outcome.

(** * Concrete inputs *)

Module Examples.
Import Types Dom.

Definition jpegA : string := "data:image/jpeg;base64,AAAA".
Definition jpegB : string := "data:image/jpeg;base64,BBBB".
Definition jpegC : string := "data:image/jpeg;base64,CCCC".

Definition normal : AnalysisResult :=
  {| status := NORMAL; observation := "clear solution";
     deduction := "no reaction yet"; recommendation := "continue" |}.

Definition rearCamera : App.Grant :=
  {| App.grant_stream := {| firstVideoTrack := 7%nat; moreTracks := [] |};
     App.grant_capabilities :=
       {| cap_zoom := None; cap_focusDistance := None; cap_focusModes := [] |} |}.

Definition photo : File :=
  {| file_type := "image/png"; file_objectUrl := "blob:photo";
     file_dataUrl := Some jpegA |}.

(** The first entry of [SAMPLE_EXPERIMENTS], its context shortened to the
    first line. *)
Definition titration : App.SampleExperiment :=
  {| App.exp_id := "titration"; App.exp_title := "Acid-Base Titration";
     App.exp_description := "Detection of phenolphthalein endpoint (pH 8.2).";
     App.exp_context := "Experiment: Acid-Base Titration";
     App.exp_imageUrl :=
       "https://placehold.co/600x400/ffe4e6/be123c?text=Titration+Endpoint";
     App.exp_colorTag := "bg-pink-100 text-pink-800" |}.

(** Camera mode with a ready camera and a timer tick whose cycle reached
    the Analysis Client. *)
Definition firstTick : list App.Event :=
  [ App.ContextTyped "pH test";
    App.LiveCameraClick;
    App.GetUserMediaSettled (Some rearCamera);
    App.VideoProgress true 4%nat (Drawn jpegA);
    App.MonitorTick;
    App.PreprocessSettled 0%nat (App.Loaded (Drawn jpegB)) ].

(** A second timer tick while the call of the first is still in flight. *)
Definition secondTick : list App.Event :=
  [ App.MonitorTick;
    App.PreprocessSettled 1%nat (App.Loaded (Drawn jpegC)) ].

(** Camera mode with a granted stream. *)
Definition cameraRunning : list App.Event :=
  [ App.LiveCameraClick;
    App.GetUserMediaSettled (Some rearCamera) ].

(** One successful manual analysis of an uploaded photo. *)
Definition oneAnalysis : list App.Event :=
  [ App.ContextTyped "test";
    App.FileChosen (Some photo);
    App.ReaderLoadEnd 0%nat;
    App.ClockAdvance 1000;
    App.AnalyzeClick;
    App.PreprocessSettled 0%nat (App.Loaded (Drawn jpegB));
    App.TelemetryTick App.oneTenth App.twoTenths;
    App.ClockAdvance 2500 ].

(** The earlier component in camera mode, the camera running and
    auto-monitoring on. *)
Definition legacyIdle : Legacy.World :=
  {| Legacy.st :=
       {| Legacy.thinkingLevel := HIGH; Legacy.context := "pH test";
          Legacy.imagePreview := None; Legacy.inputMode := Legacy.CAMERA;
          Legacy.isCameraActive := true; Legacy.isAutoMonitoring := true;
          Legacy.telemetry := App.telemetry App.initialState;
          Legacy.analysis := App.idle |};
     Legacy.videoRef :=
       Some {| srcObject := Some (App.grant_stream rearCamera);
               readyState := 4%nat; frame := Drawn jpegA |};
     Legacy.pending := []; Legacy.calls := []; Legacy.now := 0;
     Legacy.nextId := 0%nat |}.

(** The same after a timer tick started a cycle. *)
Definition legacyPreprocessing : Legacy.World :=
  match Legacy.handleAnalyze (Legacy.st legacyIdle) None legacyIdle with
  | Some w => w
  | None => legacyIdle
  end.

(** The same once the preprocessor resolved and the call is in flight. *)
Definition legacyInFlight : Legacy.World :=
  Legacy.handleAnalyze_preprocessed 0 (Legacy.Loaded (Drawn jpegB))
    legacyPreprocessing.

End Examples.

Module Scenarios.
Import Types Dom App Examples.





(** Camera mode, entered with a context. *)
Definition cameraEntered : list Event :=
  [ ContextTyped "pH test"; LiveCameraClick ].

(** The same once the camera delivers frames. *)
Definition cameraReady : list Event :=
  (cameraEntered ++
   [ GetUserMediaSettled (Some rearCamera);
     VideoProgress true 4%nat (Drawn jpegA) ])%list.

Definition ninetyNine : JS.number := binary_normalize JS.prec JS.emax 99 0 false.

(** The same, and the operator then enters a temperature by hand. *)
Definition manualReading : list Event :=
  (cameraReady ++ [ TelemetryModePicked MANUAL; TempTyped ninetyNine ])%list.

(** In camera mode, the context is edited while a manual analysis is
    loading: the monitoring effect runs again in a render with [isLoading]
    true.  Both cycles then reach the Analysis Client. *)
Definition editWhileLoading : list Event :=
  [ ContextTyped "pH";
    LiveCameraClick;
    GetUserMediaSettled (Some rearCamera);
    VideoProgress true 4%nat (Drawn jpegA);
    AnalyzeClick;
    ContextTyped "pH test";
    PreprocessSettled 0%nat (Loaded (Drawn jpegB));
    PreprocessSettled 1%nat (Loaded (Drawn jpegB)) ].

End Scenarios.


(** * The timeline component and the analysis service *)

(** ** ExperimentTimeline *)

Module Timeline.
Import Types.

(** An integer as a number (exact below 2^53). *)
Definition ofInt (n : Z) : JS.number := binary_normalize JS.prec JS.emax n 0 false.

Definition div : JS.number -> JS.number -> JS.number := SFdiv JS.prec JS.emax.

(** "We only show the last 20 points for the graph": [history.slice(-20)]. *)
Definition dataWindow (history : list HistoryItem) : list HistoryItem :=
  skipn (List.length history - 20) history.

Definition getStatusValue (status : ExperimentStatus) : JS.number :=
  match status with
  | NORMAL => ofInt 0
  | WARNING => ofInt 1
  | CRITICAL => ofInt 2
  end.

Definition height : JS.number := ofInt 160.
Definition width : JS.number := ofInt 1000.
Definition padding : JS.number := ofInt 20.

(** [height - padding - (val / 2) * (height - 2 * padding)] *)
Definition yScaleStatus (val : JS.number) : JS.number :=
  JS.sub (JS.sub height padding)
    (JS.mul (div val (ofInt 2)) (JS.sub height (JS.mul (ofInt 2) padding))).

(** The time scale of the graph; timestamps are integers. *)
Record TimeScale := {
  minTime : Z;
  maxTime : Z;
  timeRange : Z }.

(** [d || 1] *)
Definition orOne (d : Z) : Z := if d =? 0 then 1 else d.

(** The scales [Graph] computes from the window; [None] when it renders
    "Not enough data points for trend analysis..." instead. *)
Definition timeScale (dataWindow : list HistoryItem) : option TimeScale :=
  if (List.length dataWindow <? 2)%nat then None
  else
    match dataWindow with
    | first :: _ =>
        let lo := timestamp first in
        let hi := timestamp (last dataWindow first) in
        Some {| minTime := lo; maxTime := hi; timeRange := orOne (hi - lo) |}
    | [] => None
    end.

(** The rows of the log panel: [[...history].reverse()]. *)
Definition logs (history : list HistoryItem) : list HistoryItem := rev history.

End Timeline.

(** ** The analysis service (geminiService.ts) *)

Module Service.
Import Types.

Definition modelId : string := "gemini-3-pro-preview".

(** "High = Max reasoning (32k tokens), Low = Minimal reasoning for speed
    (2k tokens)" *)
Definition thinkingBudget (thinkingLevel : ThinkingLevel) : Z :=
  match thinkingLevel with
  | HIGH => 32768
  | LOW => 2048
  end.

(** The text part of the request. *)
Definition prompt (context : string) : string :=
  "Experimental Context: " ++ context ++ JS.nl ++ JS.nl ++
  "Analyze the image against this context.".

(** What [generateContent] is called with (the system instruction and the
    response schema are constants and left out). *)
Record Request := {
  req_model : string;
  req_mimeType : string;
  req_data : string;
  req_text : string;
  req_responseMimeType : string;
  req_thinkingBudget : Z }.

Definition request (context imageBase64 : string) (thinkingLevel : ThinkingLevel)
  : Request :=
  {| req_model := modelId;
     req_mimeType := "image/jpeg";
     req_data := imageBase64;
     req_text := prompt context;
     req_responseMimeType := "application/json";
     req_thinkingBudget := thinkingBudget thinkingLevel |}.

(** A thrown value, as far as the caller looks into it: [err.message]. *)
Record Error := { message : option string }.

(** How [generateContent] went: it rejected, or it resolved with a response
    whose [text] may be undefined. *)
Inductive Generated :=
| GenRejects (e : Error)
| GenResolves (text : option string).

(** How the promise of [analyzeExperiment] settles. *)
Inductive Settled :=
| Resolved (r : AnalysisResult)
| Rejected (e : Error).

Section Parse.

(** [JSON.parse], cast to [AnalysisResult] without any check: it throws or
    yields the result. *)
Variable JSON_parse : string -> Error + AnalysisResult.

(** [analyzeExperiment] after [generateContent] settled; the [catch] block
    logs and throws the same error again. *)
Definition analyzeExperiment (g : Generated) : Settled :=
  match g with
  | GenRejects e => Rejected e
  | GenResolves text =>
      match text with
      | Some t =>
          if JS.truthy t then
            match JSON_parse t with
            | inl e => Rejected e
            | inr r => Resolved r
            end
          else Rejected {| message := Some "No response received from Gemini." |}
      | None => Rejected {| message := Some "No response received from Gemini." |}
      end
  end.

End Parse.

(** The event with which the settled promise resumes the cycle [id] of the
    component. *)
Definition resume (id : nat) (s : Settled) : App.Event :=
  match s with
  | Resolved r => App.ClientResolved id r
  | Rejected e => App.ClientRejected id (message e)
  end.

End Service.

(** * More concrete inputs *)

Module MoreExamples.
Import Types Dom Examples.

Definition warning : AnalysisResult :=
  {| status := WARNING; observation := "faint pink";
     deduction := "endpoint near"; recommendation := "slow down" |}.

(** Two successful manual analyses of the uploaded photo. *)
Definition twoAnalyses : list App.Event :=
  (oneAnalysis ++
   [ App.ClientResolved 0%nat normal;
     App.ClockAdvance 4000;
     App.AnalyzeClick;
     App.PreprocessSettled 1%nat (App.Loaded (Drawn jpegC));
     App.ClockAdvance 1500;
     App.ClientResolved 1%nat warning ])%list.

(** A parser that accepts one text. *)
Definition parseNormal (text : string) : Service.Error + AnalysisResult :=
  if String.eqb text "{normal}" then inr normal
  else inl {| Service.message := Some "Unexpected token" |}.

End MoreExamples.

(** * Vocabulary of the further properties *)

Module Laws.
Import Types Dom.

(** What the result area may show: no error while loading, never an error
    together with a result, and never an empty error text. *)
Definition display (a : AnalysisState) : Prop :=
  (isLoading a = true -> error a = None) /\
  (forall text, error a = Some text ->
                result a = None /\ isLoading a = false /\ JS.truthy text = true).

(** What an operation can do to the loading flag and the suspended cycles. *)
Inductive busyOp (w w' : App.World) : Prop :=
| busy_same :
    App.analysis (App.st w') = App.analysis (App.st w) ->
    (App.pending w <> [] -> App.pending w' <> []) -> busyOp w w'
| busy_done :
    isLoading (App.analysis (App.st w')) = false ->
    display (App.analysis (App.st w')) -> busyOp w w'
| busy_start :
    App.analysis (App.st w')
    = {| isLoading := true; result := result (App.analysis (App.st w));
         error := None |} ->
    App.pending w' <> [] -> busyOp w w'.

Definition displayConsistent (w : App.World) : Prop :=
  display (App.analysis (App.st w)) /\
  (isLoading (App.analysis (App.st w)) = true -> App.pending w <> []).

(** The event settles asynchronous work of a cycle. *)
Definition settles (e : App.Event) : bool :=
  match e with
  | App.PreprocessSettled _ _ | App.FetchSettled _ _
  | App.ClientResolved _ _ | App.ClientRejected _ _ => true
  | _ => false
  end.

Fixpoint noComma (s : string) : bool :=
  match s with
  | EmptyString => true
  | String a s' => negb (Ascii.eqb a ","%char) && noComma s'
  end.

(** The suspended calls are kept, in order; new ones come after them. *)
Definition keeps (w w' : App.World) : Prop :=
  exists new, App.pending w' = (App.pending w ++ new)%list.

End Laws.

Module Shape.
Import Types Dom App.

(** The video elements in the tree are those the committed render asks
    for: committing the same render again changes nothing. *)
Definition domSettled (w : World) : Prop := commitDom (st w) (st w) w = w.

(** What the effects leave alone of the tree: which elements exist, and
    the state that decides it. *)
Record shapeFrame (w w' : World) : Prop := {
  sf_webcamRef : webcamRef w = None <-> webcamRef w' = None;
  sf_fileVideoRef : fileVideoRef w' = fileVideoRef w;
  sf_inputMode : inputMode (st w') = inputMode (st w);
  sf_uploadType : uploadType (st w') = uploadType (st w);
  sf_videoFileSrc : videoFileSrc (st w') = videoFileSrc (st w) }.

(** The render an edit of a dependency of the monitoring effect leads to:
    a new context, or another thinking level. *)
Definition edited (e : Event) (s : State) : option State :=
  match e with
  | ContextTyped text =>
      if String.eqb text (context s) then None else Some (setContext text s)
  | ThinkingLevelPicked level =>
      if ThinkingLevel_eqb level (thinkingLevel s) then None
      else Some (setThinkingLevel level s)
  | _ => None
  end.

End Shape.

Module Calls.
Import Types Dom App.

(** Every call in the log belongs to a cycle that was started, a cycle
    that has not reached the Analysis Client has no call, and no cycle has
    two. *)
Definition callsConsistent (w : World) : Prop :=
  (forall call, In call (calls w) -> (call_id call < nextId w)%nat) /\
  (forall c, In c (pending w) -> cy_stage c <> AwaitingClient ->
             ~ In (cy_id c) (map call_id (calls w))) /\
  NoDup (map call_id (calls w)).

(** What an operation can do to the suspended cycles and the call log,
    with the stage the cycle was at. *)
Inductive callOp (w w' : World) : Prop :=
| co_same :
    pending w' = pending w -> calls w' = calls w -> nextId w' = nextId w ->
    callOp w w'
| co_start snap image :
    pending w'
    = (pending w ++ [{| cy_id := nextId w; cy_snap := snap;
                        cy_stage := Preprocessing image |}])%list ->
    calls w' = calls w -> nextId w' = S (nextId w) -> callOp w w'
| co_fetch c url :
    In c (pending w) -> cy_stage c <> AwaitingClient ->
    pending w' = pending (setStage (cy_id c) (Fetching url) w) ->
    calls w' = calls w -> nextId w' = nextId w -> callOp w w'
| co_call c call :
    In c (pending w) -> cy_stage c <> AwaitingClient ->
    call_id call = cy_id c ->
    pending w' = pending (setStage (cy_id c) AwaitingClient w) ->
    calls w' = (calls w ++ [call])%list -> nextId w' = nextId w -> callOp w w'
| co_drop id :
    pending w' = pending (dropCycle id w) ->
    calls w' = calls w -> nextId w' = nextId w -> callOp w w'.

End Calls.

(** * Properties *)

Import Types Dom.

(** ** Platform facts *)

Section StringFacts.

Lemma append_nil_r (s : string) : s ++ "" = s.
Proof. induction s as [| a s IH]; simpl; [| rewrite IH]; reflexivity. Qed.

Lemma append_assoc (a b c : string) : (a ++ b) ++ c = a ++ b ++ c.
Proof. induction a as [| x a IH]; simpl; [| rewrite IH]; reflexivity. Qed.

Lemma append_length (a b : string) :
  String.length (a ++ b) = (String.length a + String.length b)%nat.
Proof. induction a as [| x a IH]; simpl; [| rewrite IH]; reflexivity. Qed.

End StringFacts.

Section DigitFacts.

Lemma isDigit_digitChar (n : Z) : JS.isDigit (JS.digitChar (n mod 10)) = true.
Proof.
  assert (H : 0 <= n mod 10 < 10) by (apply Z.mod_pos_bound; lia).
  unfold JS.digitChar.
  assert (C : n mod 10 = 0 \/ n mod 10 = 1 \/ n mod 10 = 2 \/ n mod 10 = 3 \/
              n mod 10 = 4 \/ n mod 10 = 5 \/ n mod 10 = 6 \/ n mod 10 = 7 \/
              n mod 10 = 8 \/ n mod 10 = 9) by lia.
  repeat (destruct C as [C | C]; [rewrite C; reflexivity | ]).
  rewrite C; reflexivity.
Qed.

Lemma allDigits_app (a b : string) :
  JS.allDigits (a ++ b) = JS.allDigits a && JS.allDigits b.
Proof.
  induction a as [| c a IH]; simpl; [reflexivity |].
  rewrite IH, andb_assoc; reflexivity.
Qed.

Lemma lowDigits_digits (k : nat) : forall n acc,
  JS.allDigits acc = true -> JS.allDigits (JS.lowDigits k n acc) = true.
Proof.
  induction k as [| k IH]; intros n acc Hacc; simpl; [exact Hacc |].
  apply IH; simpl. rewrite isDigit_digitChar, Hacc; reflexivity.
Qed.

Lemma lowDigits_length (k : nat) : forall n acc,
  String.length (JS.lowDigits k n acc) = (k + String.length acc)%nat.
Proof.
  induction k as [| k IH]; intros n acc; simpl; [reflexivity |].
  rewrite IH; simpl; lia.
Qed.

Lemma pad_digits (k : nat) (n : Z) : JS.allDigits (JS.pad k n) = true.
Proof. apply lowDigits_digits; reflexivity. Qed.

Lemma pad_length (k : nat) (n : Z) : String.length (JS.pad k n) = k.
Proof. unfold JS.pad; rewrite lowDigits_length; simpl; lia. Qed.

Lemma decimalFuel_digits (fuel : nat) : forall n acc,
  JS.allDigits acc = true -> JS.allDigits (JS.decimalFuel fuel n acc) = true.
Proof.
  induction fuel as [| fuel IH]; intros n acc Hacc; simpl; [exact Hacc |].
  destruct (n / 10 =? 0).
  - simpl; rewrite isDigit_digitChar, Hacc; reflexivity.
  - apply IH; simpl; rewrite isDigit_digitChar, Hacc; reflexivity.
Qed.

Lemma decimal_digits (n : Z) : JS.allDigits (JS.decimal n) = true.
Proof. apply decimalFuel_digits; reflexivity. Qed.

Lemma decimalFuel_nonempty (fuel : nat) (n : Z) (acc : string) :
  JS.decimalFuel (S fuel) n acc <> EmptyString.
Proof.
  revert n acc; induction fuel as [| fuel IH]; intros n acc.
  - simpl; destruct (n / 10 =? 0); discriminate.
  - change (JS.decimalFuel (S (S fuel)) n acc)
      with (let acc' := String (JS.digitChar (n mod 10)) acc in
            if n / 10 =? 0 then acc' else JS.decimalFuel (S fuel) (n / 10) acc').
    simpl; destruct (n / 10 =? 0); [discriminate | apply IH].
Qed.

Lemma decimal_nonempty (n : Z) : JS.decimal n <> EmptyString.
Proof. apply decimalFuel_nonempty. Qed.

End DigitFacts.

Section TextFacts.
Import Spec.

Lemma split_aux_app (c : ascii) (s rest : string) : forall cur,
  JS.split_aux c (s ++ String c rest) cur
  = (JS.split_aux c s cur ++ JS.split_aux c rest EmptyString)%list.
Proof.
  induction s as [| a s IH]; intros cur; simpl.
  - rewrite Ascii.eqb_refl; reflexivity.
  - destruct (Ascii.eqb a c); simpl; rewrite IH; reflexivity.
Qed.

Lemma split_aux_oneLine (s : string) : forall cur,
  oneLine s = true -> JS.split_aux newline s cur = [cur ++ s].
Proof.
  induction s as [| a s IH]; intros cur H; simpl in *.
  - rewrite append_nil_r; reflexivity.
  - apply andb_prop in H; destruct H as [Ha Hs].
    apply negb_true_iff in Ha; rewrite Ha, IH by exact Hs.
    rewrite append_assoc; reflexivity.
Qed.

Lemma lines_app (s rest : string) :
  lines (s ++ JS.nl ++ rest) = (lines s ++ lines rest)%list.
Proof. unfold lines, JS.split, JS.nl; simpl; apply split_aux_app. Qed.

Lemma lines_oneLine (s : string) : oneLine s = true -> lines s = [s].
Proof. intros H; unfold lines, JS.split; rewrite split_aux_oneLine by exact H; reflexivity. Qed.

Lemma oneLine_app (a b : string) : oneLine (a ++ b) = oneLine a && oneLine b.
Proof.
  induction a as [| c a IH]; simpl; [reflexivity |].
  rewrite IH, andb_assoc; reflexivity.
Qed.

Lemma isDigit_not_newline (a : ascii) :
  JS.isDigit a = true -> Ascii.eqb a newline = false.
Proof.
  intros H; apply Ascii.eqb_neq; intros ->; discriminate H.
Qed.

Lemma allDigits_oneLine (s : string) : JS.allDigits s = true -> oneLine s = true.
Proof.
  induction s as [| a s IH]; simpl; [reflexivity |].
  intros H; apply andb_prop in H; destruct H as [Ha Hs].
  rewrite (isDigit_not_newline a Ha), IH by exact Hs; reflexivity.
Qed.

Lemma decimal_oneLine (n : Z) : oneLine (JS.decimal n) = true.
Proof. apply allDigits_oneLine, decimal_digits. Qed.

Lemma pad_oneLine (k : nat) (n : Z) : oneLine (JS.pad k n) = true.
Proof. apply allDigits_oneLine, pad_digits. Qed.

Lemma exponential_oneLine (v : Z) : oneLine (JS.exponential v) = true.
Proof.
  unfold JS.exponential.
  destruct (JS.shortestFrom v 17 (JS.numDigits v) 1) as [s k].
  destruct (s =? 10 ^ k);
    match goal with
    | |- context [JS.decimal ?x] => pose proof (decimal_oneLine x) as Hd
    end;
    match goal with
    | |- context [JS.decimal (?n - 1)] => pose proof (decimal_oneLine (n - 1)) as He
    end;
    match type of Hd with
    | oneLine ?d = true => destruct d as [| a [| b rest]]
    end; simpl in *; try reflexivity;
    repeat rewrite oneLine_app; simpl;
    repeat match goal with
           | H : _ && _ = true |- _ => apply andb_prop in H; destruct H
           end;
    repeat match goal with
           | H : ?x = true |- context [?x] => rewrite H
           end; try reflexivity.
Qed.

Lemma toFixed2_oneLine (x : JS.number) : oneLine (JS.toFixed2 x) = true.
Proof.
  destruct x as [s | s | | s m e]; simpl; try reflexivity.
  - destruct s; reflexivity.
  - destruct (JS.atLeast1e21 m e).
    + rewrite oneLine_app, exponential_oneLine; destruct s; reflexivity.
    + rewrite !oneLine_app, decimal_oneLine. simpl.
      pose proof (pad_oneLine 2 (JS.nearestHundredths m e)) as Hp.
      unfold JS.pad in Hp; simpl in Hp; simpl; rewrite Hp.
      destruct s; reflexivity.
Qed.

End TextFacts.

Section FormatFacts.
Import Spec.

Lemma pad_shape (k : nat) (n : Z) : digitsOfLength k (JS.pad k n).
Proof. split; [apply pad_digits | apply pad_length]. Qed.

Lemma isoYear_oneLine (y : Z) : oneLine (JS.isoYear y) = true.
Proof.
  unfold JS.isoYear.
  destruct ((0 <=? y) && (y <=? 9999)); [apply pad_oneLine |].
  rewrite oneLine_app, pad_oneLine; destruct (y <? 0); reflexivity.
Qed.

Lemma toISOString_oneLine (t : Z) : oneLine (JS.toISOString t) = true.
Proof.
  unfold JS.toISOString, JS.civilFromDays; cbv zeta.
  repeat (rewrite oneLine_app || rewrite pad_oneLine || rewrite isoYear_oneLine);
    reflexivity.
Qed.

Lemma toISOString_iso8601 (t : Z) : iso8601 (JS.toISOString t).
Proof.
  unfold JS.toISOString, JS.civilFromDays; cbv zeta.
  do 7 eexists.
  split; [reflexivity |].
  split.
  - unfold JS.isoYear.
    match goal with |- context [if ?b then _ else _] => destruct b end.
    + left; apply pad_shape.
    + right; do 2 eexists; split; [reflexivity |]; split; [| apply pad_shape].
      match goal with |- context [if ?b then _ else _] => destruct b end; auto.
  - repeat split; try apply pad_digits; apply pad_length.
Qed.

Lemma toFixed2_twoDecimals (x : JS.number) :
  fixedRange x = true -> twoDecimals (JS.toFixed2 x).
Proof.
  destruct x as [s | s | | s m e]; simpl; try discriminate.
  - intros _; exists "", "0", "00"; repeat split; auto; discriminate.
  - intros H; apply negb_true_iff in H; rewrite H.
    exists (if s then "-" else ""), (JS.decimal (JS.nearestHundredths m e / 100)),
      (JS.pad 2 (JS.nearestHundredths m e)).
    repeat split.
    + destruct s; auto.
    + apply decimal_nonempty.
    + apply decimal_digits.
    + apply pad_digits.
Qed.

(** The lines of what [App.handleAnalyze] composes. *)
Lemma augmentedContext_lines (context : string) (tel : TelemetryData) (date : Z) :
  lines (App.augmentedContext context tel date)
  = List.app (lines context)
      [ ""; "[REAL-TIME TELEMETRY]";
        "Temperature: " ++ JS.toFixed2 (temperature tel) ++ " " ++ App.degree ++ "C";
        "Pressure: " ++ JS.toFixed2 (pressure tel) ++ " kPa";
        "Timestamp: " ++ JS.toISOString date ].
Proof.
  unfold App.augmentedContext.
  rewrite lines_app.
  change (JS.nl ++ "[REAL-TIME TELEMETRY]" ++ JS.nl ++ ?r)
    with ("" ++ JS.nl ++ "[REAL-TIME TELEMETRY]" ++ JS.nl ++ r).
  rewrite (lines_app ""), (lines_app "[REAL-TIME TELEMETRY]").
  replace ("Temperature: " ++ JS.toFixed2 (temperature tel) ++ " " ++ App.degree ++ "C" ++
           JS.nl ++ "Pressure: " ++ JS.toFixed2 (pressure tel) ++ " kPa" ++ JS.nl ++
           "Timestamp: " ++ JS.toISOString date)
    with (("Temperature: " ++ JS.toFixed2 (temperature tel) ++ " " ++ App.degree ++ "C") ++
          JS.nl ++
          ("Pressure: " ++ JS.toFixed2 (pressure tel) ++ " kPa") ++ JS.nl ++
          "Timestamp: " ++ JS.toISOString date)
    by (repeat rewrite append_assoc; reflexivity).
  rewrite !lines_app.
  rewrite (lines_oneLine ("Temperature: " ++ _)), (lines_oneLine ("Pressure: " ++ _)),
    (lines_oneLine ("Timestamp: " ++ _)).
  - reflexivity.
  - rewrite oneLine_app, toISOString_oneLine; reflexivity.
  - rewrite !oneLine_app, toFixed2_oneLine; reflexivity.
  - rewrite !oneLine_app, toFixed2_oneLine; reflexivity.
Qed.

Lemma legacy_augmentedContext_lines (context : string) (tel : TelemetryData) (date : Z) :
  lines (Legacy.augmentedContext context tel date)
  = List.app (lines context)
      [ ""; "[REAL-TIME TELEMETRY]";
        "Temperature: " ++ JS.toFixed2 (temperature tel) ++ " " ++ Legacy.degree ++ "C";
        "Pressure: " ++ JS.toFixed2 (pressure tel) ++ " kPa";
        "Timestamp: " ++ JS.toISOString date ].
Proof.
  unfold Legacy.augmentedContext.
  rewrite lines_app.
  change (JS.nl ++ "[REAL-TIME TELEMETRY]" ++ JS.nl ++ ?r)
    with ("" ++ JS.nl ++ "[REAL-TIME TELEMETRY]" ++ JS.nl ++ r).
  rewrite (lines_app ""), (lines_app "[REAL-TIME TELEMETRY]").
  replace ("Temperature: " ++ JS.toFixed2 (temperature tel) ++ " " ++ Legacy.degree ++ "C" ++
           JS.nl ++ "Pressure: " ++ JS.toFixed2 (pressure tel) ++ " kPa" ++ JS.nl ++
           "Timestamp: " ++ JS.toISOString date)
    with (("Temperature: " ++ JS.toFixed2 (temperature tel) ++ " " ++ Legacy.degree ++ "C") ++
          JS.nl ++
          ("Pressure: " ++ JS.toFixed2 (pressure tel) ++ " kPa") ++ JS.nl ++
          "Timestamp: " ++ JS.toISOString date)
    by (repeat rewrite append_assoc; reflexivity).
  rewrite !lines_app.
  rewrite (lines_oneLine ("Temperature: " ++ _)), (lines_oneLine ("Pressure: " ++ _)),
    (lines_oneLine ("Timestamp: " ++ _)).
  - reflexivity.
  - rewrite oneLine_app, toISOString_oneLine; reflexivity.
  - rewrite !oneLine_app, toFixed2_oneLine; reflexivity.
  - rewrite !oneLine_app, toFixed2_oneLine; reflexivity.
Qed.

End FormatFacts.

(** ** Frame facts: what each operation leaves alone *)

Section Frames.
Import App Spec.

Lemma effectFrame_refl w : effectFrame w w.
Proof. constructor; reflexivity. Qed.

Lemma effectFrame_trans w1 w2 w3 :
  effectFrame w1 w2 -> effectFrame w2 w3 -> effectFrame w1 w3.
Proof. intros [] []; constructor; congruence. Qed.

Lemma loopFrame_refl w : loopFrame w w.
Proof. constructor; reflexivity. Qed.

Lemma loopFrame_trans w1 w2 w3 :
  loopFrame w1 w2 -> loopFrame w2 w3 -> loopFrame w1 w3.
Proof. intros [] []; constructor; congruence. Qed.

Lemma stopCamera_effectFrame w : effectFrame w (stopCamera w).
Proof.
  unfold stopCamera, updateState.
  destruct (webcamRef w) as [el |]; [destruct (srcObject el) |];
    constructor; reflexivity.
Qed.

Lemma stopCamera_loopFrame w : loopFrame w (stopCamera w).
Proof.
  unfold stopCamera, updateState.
  destruct (webcamRef w) as [el |]; [destruct (srcObject el) |];
    constructor; reflexivity.
Qed.

Lemma stopCamera_isAutoMonitoring w :
  isAutoMonitoring (st (stopCamera w)) = isAutoMonitoring (st w).
Proof.
  unfold stopCamera, updateState.
  destruct (webcamRef w) as [el |]; [destruct (srcObject el) |]; reflexivity.
Qed.

Lemma commitDom_effectFrame prev snap w : effectFrame w (commitDom prev snap w).
Proof. constructor; reflexivity. Qed.

Lemma commitDom_loopFrame prev snap w : loopFrame w (commitDom prev snap w).
Proof. constructor; reflexivity. Qed.

Lemma commitDom_st prev snap w : st (commitDom prev snap w) = st w.
Proof. reflexivity. Qed.

Lemma cameraEffect_effectFrame snap w : effectFrame w (cameraEffect snap w).
Proof.
  unfold cameraEffect.
  destruct (inputMode snap).
  - destruct (uploadType snap) as [[] |];
      try apply stopCamera_effectFrame;
      (eapply effectFrame_trans; [apply stopCamera_effectFrame |]);
      constructor; reflexivity.
  - constructor; reflexivity.
Qed.

Lemma cameraEffect_loopFrame snap w : loopFrame w (cameraEffect snap w).
Proof.
  unfold cameraEffect.
  destruct (inputMode snap).
  - destruct (uploadType snap) as [[] |];
      try apply stopCamera_loopFrame;
      (eapply loopFrame_trans; [apply stopCamera_loopFrame |]);
      constructor; reflexivity.
  - constructor; reflexivity.
Qed.

Lemma cameraEffect_isAutoMonitoring snap w :
  isAutoMonitoring (st (cameraEffect snap w))
  = cameraEffect_auto snap (isAutoMonitoring (st w)).
Proof.
  unfold cameraEffect, cameraEffect_auto.
  destruct (inputMode snap); [| reflexivity].
  destruct (uploadType snap) as [[] |]; simpl;
    try apply stopCamera_isAutoMonitoring; reflexivity.
Qed.

Lemma handleAnalyze_effectFrame snap manual w :
  effectFrame w (handleAnalyze snap manual w).
Proof.
  unfold handleAnalyze, enablePreprocessing.
  destruct (imageToAnalyze snap manual w) as [image |]; [| constructor; reflexivity].
  destruct (JS.truthy image && JS.truthy (context snap)); constructor; reflexivity.
Qed.

Lemma handleAnalyze_isAutoMonitoring snap manual w :
  isAutoMonitoring (st (handleAnalyze snap manual w)) = isAutoMonitoring (st w).
Proof.
  unfold handleAnalyze, enablePreprocessing.
  destruct (imageToAnalyze snap manual w) as [image |]; [| reflexivity].
  destruct (JS.truthy image && JS.truthy (context snap)); reflexivity.
Qed.

Lemma handleAnalyze_monitoringInterval snap manual w :
  monitoringInterval (handleAnalyze snap manual w) = monitoringInterval w.
Proof.
  unfold handleAnalyze, enablePreprocessing.
  destruct (imageToAnalyze snap manual w) as [image |]; [| reflexivity].
  destruct (JS.truthy image && JS.truthy (context snap)); reflexivity.
Qed.

Lemma handleAnalyze_cycles snap manual w :
  cycles (handleAnalyze snap manual w) = S (cycles w).
Proof.
  unfold handleAnalyze, enablePreprocessing.
  destruct (imageToAnalyze snap manual w) as [image |]; [| reflexivity].
  destruct (JS.truthy image && JS.truthy (context snap)); reflexivity.
Qed.

(** A cycle started by [handleAnalyze]: nothing, or one new cycle that
    waits for the preprocessor. *)
Lemma handleAnalyze_pending snap manual w :
  (pending (handleAnalyze snap manual w) = pending w /\
   nextId (handleAnalyze snap manual w) = nextId w) \/
  (exists image,
      pending (handleAnalyze snap manual w)
      = (pending w ++ [{| cy_id := nextId w; cy_snap := snap;
                          cy_stage := Preprocessing image |}])%list /\
      nextId (handleAnalyze snap manual w) = S (nextId w)).
Proof.
  unfold handleAnalyze, enablePreprocessing.
  destruct (imageToAnalyze snap manual w) as [image |]; [| left; split; reflexivity].
  destruct (JS.truthy image && JS.truthy (context snap)).
  - right; exists image; split; reflexivity.
  - left; split; reflexivity.
Qed.

Lemma monitorEffect_effectFrame snap w : effectFrame w (monitorEffect snap w).
Proof.
  unfold monitorEffect.
  destruct (isAutoMonitoring snap && canMonitor snap).
  - eapply effectFrame_trans; [apply handleAnalyze_effectFrame |].
    constructor; reflexivity.
  - constructor; reflexivity.
Qed.

Lemma monitorEffect_isAutoMonitoring snap w :
  isAutoMonitoring (st (monitorEffect snap w)) = isAutoMonitoring (st w).
Proof.
  unfold monitorEffect.
  destruct (isAutoMonitoring snap && canMonitor snap); simpl;
    [apply handleAnalyze_isAutoMonitoring | reflexivity].
Qed.

Lemma monitorEffect_monitoringInterval snap w :
  monitoringInterval (monitorEffect snap w) = armed snap.
Proof.
  unfold monitorEffect, armed.
  destruct (isAutoMonitoring snap && canMonitor snap); reflexivity.
Qed.

End Frames.

Section RenderFacts.
Import App Spec.

Lemma InputMode_eqb_eq a b : InputMode_eqb a b = true <-> a = b.
Proof. destruct a, b; simpl; split; congruence. Qed.

Lemma UploadType_eqb_eq a b : UploadType_eqb a b = true <-> a = b.
Proof. destruct a as [[] |], b as [[] |]; simpl; split; congruence. Qed.

Lemma ThinkingLevel_eqb_eq a b : ThinkingLevel_eqb a b = true <-> a = b.
Proof. destruct a, b; simpl; split; congruence. Qed.

Lemma monitorDeps_eqb_eq a b :
  monitorDeps_eqb a b = true <-> monitorDeps a = monitorDeps b.
Proof.
  unfold monitorDeps_eqb, monitorDeps.
  rewrite !andb_true_iff, Bool.eqb_true_iff, InputMode_eqb_eq, UploadType_eqb_eq,
    String.eqb_eq, ThinkingLevel_eqb_eq.
  split.
  - intros [[[[-> ->] ->] ->] ->]; reflexivity.
  - intros H; inversion H; auto.
Qed.

Lemma clearMonitoringInterval_effectFrame w :
  effectFrame w (clearMonitoringInterval w).
Proof. constructor; reflexivity. Qed.

Lemma render_effectFrame prev w : effectFrame w (render prev w).
Proof.
  unfold render, monitorCleanup, cameraCleanup.
  destruct (negb (cameraDeps_eqb prev (st w))), (negb (monitorDeps_eqb prev (st w)));
    repeat (eapply effectFrame_trans;
            [| first [ apply monitorEffect_effectFrame
                     | apply cameraEffect_effectFrame
                     | apply clearMonitoringInterval_effectFrame
                     | apply stopCamera_effectFrame
                     | apply commitDom_effectFrame ]]);
    apply effectFrame_refl.
Qed.

(** A render in which no dependency changed only commits the DOM. *)
Lemma render_idle prev w :
  cameraDeps_eqb prev (st w) = true -> monitorDeps_eqb prev (st w) = true ->
  render prev w = commitDom prev (st w) w.
Proof. intros Hc Hm; unfold render; rewrite Hc, Hm; reflexivity. Qed.

Lemma render_isAutoMonitoring prev w :
  isAutoMonitoring (st (render prev w))
  = if cameraDeps_eqb prev (st w) then isAutoMonitoring (st w)
    else cameraEffect_auto (st w) (isAutoMonitoring (st w)).
Proof.
  unfold render.
  destruct (cameraDeps_eqb prev (st w)), (monitorDeps_eqb prev (st w)); simpl;
    repeat first
      [ rewrite monitorEffect_isAutoMonitoring
      | rewrite cameraEffect_isAutoMonitoring
      | progress unfold monitorCleanup, cameraCleanup, clearMonitoringInterval
      | progress simpl
      | rewrite stopCamera_isAutoMonitoring ];
    reflexivity.
Qed.

Lemma render_monitoringInterval prev w :
  monitoringInterval (render prev w)
  = if monitorDeps_eqb prev (st w) then monitoringInterval w else armed (st w).
Proof.
  unfold render.
  destruct (cameraDeps_eqb prev (st w)), (monitorDeps_eqb prev (st w)); simpl;
    try apply monitorEffect_monitoringInterval;
    try reflexivity.
  unfold cameraCleanup.
  rewrite (lf_monitoringInterval _ _ (cameraEffect_loopFrame _ _)).
  rewrite (lf_monitoringInterval _ _ (stopCamera_loopFrame _)).
  reflexivity.
Qed.

End RenderFacts.

Section RenderLoopFacts.
Import App Spec.

Lemma monitorDeps_eqb_refl s : monitorDeps_eqb s s = true.
Proof. apply monitorDeps_eqb_eq; reflexivity. Qed.

Lemma InputMode_eqb_refl m : InputMode_eqb m m = true.
Proof. destruct m; reflexivity. Qed.

Lemma render_inputMode prev w : inputMode (st (render prev w)) = inputMode (st w).
Proof. apply (ef_inputMode _ _ (render_effectFrame prev w)). Qed.

(** The effects of a render never change the dependency of the camera
    effect. *)
Lemma render_cameraDeps prev w : cameraDeps_eqb (st w) (st (render prev w)) = true.
Proof. unfold cameraDeps_eqb; rewrite render_inputMode; apply InputMode_eqb_refl. Qed.

(** The effects of a render whose own camera effect did not run leave the
    dependencies of the auto-monitoring effect as they are. *)
Lemma render_monitorDeps prev w :
  cameraDeps_eqb prev (st w) = true ->
  monitorDeps_eqb (st w) (st (render prev w)) = true.
Proof.
  intros Hc; apply monitorDeps_eqb_eq; unfold monitorDeps.
  pose proof (render_effectFrame prev w) as [].
  rewrite render_isAutoMonitoring, Hc; congruence.
Qed.

Lemma render_cycles prev w :
  cycles (render prev w)
  = if monitorDeps_eqb prev (st w) then cycles w
    else if isAutoMonitoring (st w) && canMonitor (st w) then S (cycles w)
         else cycles w.
Proof.
  unfold render, monitorEffect, monitorCleanup, cameraCleanup.
  destruct (cameraDeps_eqb prev (st w)), (monitorDeps_eqb prev (st w)); simpl;
    try reflexivity;
    destruct (isAutoMonitoring (st w) && canMonitor (st w)); simpl;
    rewrite ?handleAnalyze_cycles; simpl;
    rewrite ?(lf_cycles _ _ (cameraEffect_loopFrame _ _)); simpl;
    rewrite ?(lf_cycles _ _ (stopCamera_loopFrame _)); reflexivity.
Qed.

Lemma stopCamera_pendingCameras w : pendingCameras (stopCamera w) = pendingCameras w.
Proof.
  unfold stopCamera, updateState.
  destruct (webcamRef w) as [el |]; [destruct (srcObject el) |]; reflexivity.
Qed.

Lemma handleAnalyze_pendingCameras snap manual w :
  pendingCameras (handleAnalyze snap manual w) = pendingCameras w.
Proof.
  unfold handleAnalyze, enablePreprocessing.
  destruct (imageToAnalyze snap manual w) as [image |]; [| reflexivity].
  destruct (JS.truthy image && JS.truthy (context snap)); reflexivity.
Qed.

Lemma render_pendingCameras prev w :
  pendingCameras (render prev w)
  = if cameraDeps_eqb prev (st w) then pendingCameras w
    else match inputMode (st w) with
         | CAMERA => S (pendingCameras w)
         | UPLOAD => pendingCameras w
         end.
Proof.
  unfold render, monitorEffect, monitorCleanup, cameraCleanup, cameraEffect.
  destruct (cameraDeps_eqb prev (st w)), (monitorDeps_eqb prev (st w)); simpl;
    try reflexivity;
    try destruct (isAutoMonitoring (st w) && canMonitor (st w)); simpl;
    rewrite ?handleAnalyze_pendingCameras; simpl;
    try reflexivity;
    destruct (inputMode (st w)); try destruct (uploadType (st w)) as [[] |]; simpl;
    rewrite ?stopCamera_pendingCameras; simpl;
    rewrite ?stopCamera_pendingCameras; reflexivity.
Qed.

End RenderLoopFacts.

(** ** The camera effect and auto-monitoring *)

Section CameraMode.
Import App Spec.

Lemma cameraEffect_camera_arms snap w :
  inputMode snap = CAMERA -> isAutoMonitoring (st (cameraEffect snap w)) = true.
Proof.
  intros H; rewrite cameraEffect_isAutoMonitoring; unfold cameraEffect_auto.
  rewrite H; reflexivity.
Qed.

End CameraMode.

(** ** Cycles with missing inputs *)

Section MissingInputs.
Import App Spec.

(** C8. When the context is empty or there is no image to analyse,
    [handleAnalyze] returns at once: the React state (loading flag, error,
    history), the log of Analysis Client calls and the suspended cycles are
    what they were.  The frame source yields no frame, rather than an
    exception, when there is no video element or when the element has not
    reached HAVE_CURRENT_DATA. *)
Theorem missing_inputs_silent_noop :
  forall (snap : State) (manualImage : option string) (w : World),
    (JS.truthy (context snap) = false \/
     JS.truthy_opt (imageToAnalyze snap manualImage w) = false ->
     handleAnalyze snap manualImage w = with_cycles (S (cycles w)) w /\
     st (handleAnalyze snap manualImage w) = st w /\
     calls (handleAnalyze snap manualImage w) = calls w /\
     pending (handleAnalyze snap manualImage w) = pending w) /\
    (forall el, sourceVideo snap w = Some el -> (readyState el < 2)%nat ->
                captureFrame snap w = None) /\
    (sourceVideo snap w = None -> captureFrame snap w = None).
Proof.
  intros snap manualImage w; split; [| split].
  - intros H.
    assert (E : handleAnalyze snap manualImage w = with_cycles (S (cycles w)) w).
    { unfold handleAnalyze.
      destruct (imageToAnalyze snap manualImage w) as [image |]; [| reflexivity].
      destruct H as [H | H]; simpl in H; rewrite H; rewrite ?andb_false_r;
        reflexivity. }
    rewrite E; repeat split.
  - intros el Hel Hready; unfold captureFrame; rewrite Hel.
    apply Nat.ltb_lt in Hready; rewrite Hready; reflexivity.
  - intros Hnone; unfold captureFrame; rewrite Hnone; reflexivity.
Qed.

Lemma missing_inputs_silent_noop_witness :
  handleAnalyze initialState None (mount 0) = with_cycles 1 (mount 0) /\
  captureFrame (st (step (mount 0) LiveCameraClick)) (step (mount 0) LiveCameraClick)
  = None /\
  captureFrame initialState (mount 0) = None.
Proof.
  split; [| split].
  - apply (missing_inputs_silent_noop initialState None (mount 0)).
    left; reflexivity.
  - apply (proj1 (proj2 (missing_inputs_silent_noop
                           (st (step (mount 0) LiveCameraClick)) None
                           (step (mount 0) LiveCameraClick))) freshVideo).
    + reflexivity.
    + simpl; lia.
  - apply (proj2 (proj2 (missing_inputs_silent_noop initialState None (mount 0)))).
    reflexivity.
Defined.

End MissingInputs.

(** ** What an event does to the ledger and the clock *)

Ltac break_match :=
  match goal with
  | |- context [match ?x with _ => _ end] => destruct x eqn:?
  end.

Ltac unfold_handlers :=
  unfold App.handle, App.handleLiveCameraClick, App.handleFileUploadClick,
    App.handleGallerySelect, App.handleFileChange, App.reader_onloadend,
    App.monitorTick, App.startCamera_resume, App.handleAnalyze_preprocessed,
    App.handleAnalyze_fetched, App.handleAnalyze_resolved,
    App.handleAnalyze_rejected, App.ensureBase64, App.handleAnalyze_call,
    App.handleAnalyze, App.enablePreprocessing, App.setStage, App.dropCycle,
    App.updateState.

Ltac handler_cases :=
  unfold_handlers; repeat (simpl; try reflexivity; break_match);
  simpl; try assumption; try reflexivity.

Section StepFacts.
Import App Spec.

Lemma step_idle w e :
  monitorDeps (st (handle e w)) = monitorDeps (st w) ->
  step w e
  = commitDom (st (handle e w)) (st (handle e w))
      (commitDom (st w) (st (handle e w)) (handle e w)).
Proof.
  intros H; unfold step.
  assert (Hm : monitorDeps_eqb (st w) (st (handle e w)) = true)
    by (apply monitorDeps_eqb_eq; symmetry; exact H).
  assert (Hc : cameraDeps_eqb (st w) (st (handle e w)) = true).
  { unfold cameraDeps_eqb; apply InputMode_eqb_eq.
    unfold monitorDeps in H; inversion H; congruence. }
  rewrite (render_idle _ _ Hc Hm).
  rewrite render_idle; rewrite ?commitDom_st.
  - reflexivity.
  - apply InputMode_eqb_refl.
  - apply monitorDeps_eqb_refl.
Qed.

(** The two renders of a step are enough: after them no dependency of any
    effect differs from the render before, so a further render would run no
    effect. *)
Lemma step_settles w e :
  cameraDeps_eqb (st (render (st w) (handle e w))) (st (step w e)) = true /\
  monitorDeps_eqb (st (render (st w) (handle e w))) (st (step w e)) = true.
Proof.
  unfold step; split; [apply render_cameraDeps |].
  apply render_monitorDeps, render_cameraDeps.
Qed.

Lemma handle_history w e : history (st (handle e w)) = ledgerAfter w e.
Proof. destruct e; unfold ledgerAfter; handler_cases. Qed.

Lemma step_history w e : history (st (step w e)) = ledgerAfter w e.
Proof.
  unfold step.
  rewrite (ef_history _ _ (render_effectFrame _ _)).
  rewrite (ef_history _ _ (render_effectFrame _ _)).
  apply handle_history.
Qed.

Lemma handle_now w e :
  now (handle e w)
  = match e with ClockAdvance ms => now w + Z.of_N ms | _ => now w end.
Proof. destruct e; handler_cases. Qed.

Lemma step_now w e :
  now (step w e)
  = match e with ClockAdvance ms => now w + Z.of_N ms | _ => now w end.
Proof.
  unfold step.
  rewrite (ef_now _ _ (render_effectFrame _ _)).
  rewrite (ef_now _ _ (render_effectFrame _ _)).
  apply handle_now.
Qed.

Lemma step_now_le w e : now w <= now (step w e).
Proof. rewrite step_now; destruct e; lia. Qed.

End StepFacts.

(** ** The history ledger *)

Section Ledger.
Import App Spec Examples.

Lemma stronglySorted_snoc (l : list Z) (y : Z) :
  StronglySorted Z.le l -> Forall (fun x => x <= y) l ->
  StronglySorted Z.le (l ++ [y]).
Proof.
  induction 1 as [| x l Hs IH Hx]; intros Hy; simpl.
  - constructor; constructor.
  - inversion Hy; subst.
    constructor; [apply IH; assumption |].
    apply Forall_app; split; [assumption | constructor; [assumption | constructor]].
Qed.

(** The ledger is sorted and no entry is later than the clock. *)
Lemma ledger_sorted_step w e :
  StronglySorted Z.le (timestamps (history (st w))) /\
  Forall (fun x => x <= now w) (timestamps (history (st w))) ->
  StronglySorted Z.le (timestamps (history (st (step w e)))) /\
  Forall (fun x => x <= now (step w e)) (timestamps (history (st (step w e)))).
Proof.
  intros [Hs Hb].
  pose proof (step_now_le w e) as Hnow.
  assert (Hb' : Forall (fun x => x <= now (step w e)) (timestamps (history (st w)))).
  { eapply Forall_impl; [| exact Hb]; simpl; intros; lia. }
  rewrite step_history; unfold ledgerAfter.
  destruct e; try (split; assumption).
  - split; constructor.
  - destruct (findCycle id w) as [c |]; [| split; assumption].
    destruct (cy_stage c); try (split; assumption).
    unfold timestamps; rewrite map_app; simpl; split.
    + apply stronglySorted_snoc; assumption.
    + apply Forall_app; split; [exact Hb' |].
      constructor; [exact Hnow | constructor].
Qed.

Lemma ledger_sorted_run es : forall w,
  StronglySorted Z.le (timestamps (history (st w))) /\
  Forall (fun x => x <= now w) (timestamps (history (st w))) ->
  StronglySorted Z.le (timestamps (history (st (run w es)))).
Proof.
  induction es as [| e es IH]; intros w H; simpl.
  - apply H.
  - apply IH, ledger_sorted_step, H.
Qed.

Lemma ledger_length_step w e :
  List.length (history (st (step w e)))
  = match e with
    | GallerySelect _ => 0%nat
    | _ => if succeeds w e then S (List.length (history (st w)))
           else List.length (history (st w))
    end.
Proof.
  rewrite step_history; unfold ledgerAfter, succeeds.
  destruct e; try reflexivity.
  destruct (findCycle id w) as [c |]; [| reflexivity].
  destruct (cy_stage c); try reflexivity.
  rewrite length_app; simpl; lia.
Qed.

Lemma ledger_length_run es : forall w,
  List.length (history (st (run w es)))
  = completionsSinceReset w es (List.length (history (st w))).
Proof.
  induction es as [| e es IH]; intros w; simpl; [reflexivity |].
  rewrite IH, ledger_length_step; reflexivity.
Qed.

(** C2, as the code has it.  Between gallery selections the ledger is
    append-only: every event leaves it as it was, except that a successful
    completion appends one entry, stamped with the clock, at the end, and
    that selecting a gallery experiment empties it.  In every reachable
    state its timestamps are non-decreasing and its length is the number of
    successful completions since the last gallery selection. *)
Theorem ledger_append_only_between_resets :
  forall (t : Z) (es : list Event),
    StronglySorted Z.le (timestamps (history (st (run (mount t) es)))) /\
    List.length (history (st (run (mount t) es)))
    = completionsSinceReset (mount t) es 0 /\
    (forall w e, history (st (step w e)) = ledgerAfter w e).
Proof.
  intros t es; split; [| split].
  - apply ledger_sorted_run; split; constructor.
  - apply (ledger_length_run es (mount t)).
  - apply step_history.
Qed.

(** Counterexample to C2 as stated: after one successful analysis the
    ledger holds one entry; selecting a gallery experiment removes it, so
    the ledger is shorter than the number of successful completions. *)
Lemma ledger_cleared_by_gallery :
  history (st (run (mount 0) (oneAnalysis ++ [ClientResolved 0 normal]))) <> [] /\
  history (st (run (mount 0)
                 (oneAnalysis ++ [ClientResolved 0 normal; GallerySelect titration])))
  = [] /\
  List.length
    (history (st (run (mount 0)
                    (oneAnalysis ++ [ClientResolved 0 normal; GallerySelect titration]))))
  <> completions (mount 0)
       (oneAnalysis ++ [ClientResolved 0 normal; GallerySelect titration]).
Proof.
  split; [| split].
  - vm_compute; discriminate.
  - vm_compute; reflexivity.
  - vm_compute; discriminate.
Qed.

End Ledger.

(** ** Analysis failures *)

Section Failure.
Import App Spec Outcome Examples Scenarios.

Lemma handleAnalyze_monitorDeps snap manual w :
  monitorDeps (st (handleAnalyze snap manual w)) = monitorDeps (st w).
Proof.
  unfold monitorDeps.
  destruct (handleAnalyze_effectFrame snap manual w).
  rewrite handleAnalyze_isAutoMonitoring; congruence.
Qed.

(** A timer tick whose closure saw [isLoading] false invokes
    [handleAnalyze]. *)
Lemma tick_invokes_handleAnalyze w snap :
  monitoringInterval w = Some snap -> isLoading (analysis snap) = false ->
  cycles (step w MonitorTick) = S (cycles w).
Proof.
  intros Hi Hl.
  assert (E : handle MonitorTick w = handleAnalyze snap None w)
    by (simpl; unfold monitorTick; rewrite Hi, Hl; reflexivity).
  rewrite step_idle; rewrite E.
  - simpl; apply handleAnalyze_cycles.
  - apply handleAnalyze_monitorDeps.
Qed.

Lemma handleAnalyze_started snap manual w image :
  imageToAnalyze snap manual w = Some image ->
  JS.truthy image = true -> JS.truthy (context snap) = true ->
  started snap image w (handleAnalyze snap manual w).
Proof.
  intros Hi Ht Hc; unfold started, handleAnalyze, enablePreprocessing.
  rewrite Hi, Ht, Hc; repeat split.
Qed.

Lemma started_commitDom snap image w w' prev s :
  started snap image w w' -> started snap image w (commitDom prev s w').
Proof. intros H; exact H. Qed.

(** A timer tick whose closure saw [isLoading] false, a frame and a
    context starts a cycle, which closes over the render of the interval. *)
Lemma tick_starts_cycle w snap image :
  monitoringInterval w = Some snap -> isLoading (analysis snap) = false ->
  imageToAnalyze snap None w = Some image ->
  JS.truthy image = true -> JS.truthy (context snap) = true ->
  started snap image w (step w MonitorTick).
Proof.
  intros Hi Hl Him Ht Hc.
  assert (E : handle MonitorTick w = handleAnalyze snap None w)
    by (simpl; unfold monitorTick; rewrite Hi, Hl; reflexivity).
  rewrite step_idle; rewrite E.
  - do 2 apply started_commitDom; apply handleAnalyze_started; assumption.
  - apply handleAnalyze_monitorDeps.
Qed.


(** C3, as the code has it.  In the current component a rejected Analysis
    Client call publishes the error and leaves the ledger, the log of
    calls, [isAutoMonitoring] and the monitoring interval as they were.
    The timer keeps the callback it had: when that callback was created by
    a render with [isLoading] false, the next tick invokes [handleAnalyze]
    again, and with a frame and a context at hand that invocation sets the
    loading flag and suspends a new call at the preprocessor.  The earlier
    component publishes the error too, but its [catch] block also turns
    auto-monitoring off. *)
Theorem analysis_failure_is_published :
  (forall (w : World) (id : nat) (message : option string) (c : Cycle),
      findCycle id w = Some c -> cy_stage c = AwaitingClient ->
      analysis (st (step w (ClientRejected id message)))
      = {| isLoading := false; result := None;
           error := JS.or_else message (Some "An unexpected error occurred.") |} /\
      (exists text, error (analysis (st (step w (ClientRejected id message)))) = Some text) /\
      history (st (step w (ClientRejected id message))) = history (st w) /\
      calls (step w (ClientRejected id message)) = calls w /\
      isAutoMonitoring (st (step w (ClientRejected id message)))
      = isAutoMonitoring (st w) /\
      monitoringInterval (step w (ClientRejected id message)) = monitoringInterval w /\
      (forall snap,
          monitoringInterval w = Some snap -> isLoading (analysis snap) = false ->
          cycles (step (step w (ClientRejected id message)) MonitorTick)
          = S (cycles (step w (ClientRejected id message))) /\
          (forall image,
              imageToAnalyze snap None (step w (ClientRejected id message)) = Some image ->
              JS.truthy image = true -> JS.truthy (context snap) = true ->
              started snap image (step w (ClientRejected id message))
                (step (step w (ClientRejected id message)) MonitorTick)))) /\
  (forall (w : Legacy.World) (id : nat) (message : option string) (c : Legacy.Cycle),
      Legacy.findCycle id w = Some c -> Legacy.cy_stage c = Legacy.AwaitingClient ->
      Legacy.analysis (Legacy.st (Legacy.handleAnalyze_rejected id message w))
      = {| isLoading := false; result := None;
           error := JS.or_else message (Some "An unexpected error occurred.") |} /\
      Legacy.isAutoMonitoring (Legacy.st (Legacy.handleAnalyze_rejected id message w))
      = false).
Proof.
  split.
  - intros w id message c Hc Hs.
    assert (E : handle (ClientRejected id message) w
                = updateState (handleAnalyze_catch message) (dropCycle id w))
      by (simpl; unfold handleAnalyze_rejected; rewrite Hc, Hs; reflexivity).
    assert (Hi : step w (ClientRejected id message)
                 = commitDom (st (handle (ClientRejected id message) w))
                     (st (handle (ClientRejected id message) w))
                     (commitDom (st w) (st (handle (ClientRejected id message) w))
                        (handle (ClientRejected id message) w)))
      by (apply step_idle; rewrite E; reflexivity).
    assert (Hint : monitoringInterval (step w (ClientRejected id message))
                   = monitoringInterval w) by (rewrite Hi, E; reflexivity).
    split; [| split; [| split; [| split; [| split; [| split]]]]].
    + rewrite Hi, E; reflexivity.
    + rewrite Hi, E; simpl; unfold JS.or_else.
      destruct (JS.truthy_opt message) eqn:Ht; [| eexists; reflexivity].
      destruct message as [text |]; [exists text; reflexivity | discriminate].
    + rewrite Hi, E; reflexivity.
    + rewrite Hi, E; reflexivity.
    + rewrite Hi, E; reflexivity.
    + exact Hint.
    + intros snap Hsnap Hl; split.
      * apply (tick_invokes_handleAnalyze _ snap); [congruence | exact Hl].
      * intros image Him Ht Hctx.
        apply tick_starts_cycle; try assumption; congruence.
  - intros w id message c Hc Hs.
    unfold Legacy.handleAnalyze_rejected; rewrite Hc, Hs; split; reflexivity.
Qed.

Lemma analysis_failure_is_published_witness :
  history (st (step (run (mount 0) firstTick) (ClientRejected 0 (Some "503"))))
  = history (st (run (mount 0) firstTick)) /\
  isAutoMonitoring (st (step (run (mount 0) firstTick) (ClientRejected 0 (Some "503"))))
  = isAutoMonitoring (st (run (mount 0) firstTick)) /\
  started (st (run (mount 0) [ContextTyped "pH test"; LiveCameraClick])) jpegA
    (step (run (mount 0) firstTick) (ClientRejected 0 (Some "503")))
    (step (step (run (mount 0) firstTick) (ClientRejected 0 (Some "503"))) MonitorTick) /\
  Legacy.isAutoMonitoring
    (Legacy.st (Legacy.handleAnalyze_rejected 0 (Some "503") legacyInFlight)) = false.
Proof.
  pose proof (proj1 analysis_failure_is_published
                (run (mount 0) firstTick) 0%nat (Some "503")
                {| cy_id := 0;
                   cy_snap := st (run (mount 0) [ContextTyped "pH test"; LiveCameraClick]);
                   cy_stage := AwaitingClient |}
                ltac:(vm_compute; reflexivity) eq_refl)
    as (_ & _ & Hh & _ & Ha & _ & Ht).
  pose proof (proj2 (Ht (st (run (mount 0) [ContextTyped "pH test"; LiveCameraClick]))
                       ltac:(vm_compute; reflexivity) ltac:(vm_compute; reflexivity))
                jpegA
                ltac:(vm_compute; reflexivity) ltac:(vm_compute; reflexivity)
                ltac:(vm_compute; reflexivity)) as Hc.
  pose proof (proj2 analysis_failure_is_published legacyInFlight 0%nat (Some "503")
                {| Legacy.cy_id := 0; Legacy.cy_snap := Legacy.st legacyIdle;
                   Legacy.cy_stage := Legacy.AwaitingClient |}
                ltac:(vm_compute; reflexivity) eq_refl) as (_ & Hl).
  split; [exact Hh | split; [exact Ha | split; [exact Hc | exact Hl]]].
Defined.

(** Why the render of the interval matters.  When the context is edited
    while an analysis is loading, the interval is created again by a render
    with [isLoading] true; after both calls were rejected nothing is
    loading and auto-monitoring is still on, yet the callback goes on
    reading [isLoading] true and the tick does nothing. *)
Example interval_of_a_loading_render_skips :
  isAutoMonitoring
    (st (run (mount 0)
           (editWhileLoading ++ [ClientRejected 0 None; ClientRejected 1 None])))
  = true /\
  isLoading
    (analysis
       (st (run (mount 0)
              (editWhileLoading ++ [ClientRejected 0 None; ClientRejected 1 None]))))
  = false /\
  option_map (fun snap => isLoading (analysis snap))
    (monitoringInterval
       (run (mount 0)
          (editWhileLoading ++ [ClientRejected 0 None; ClientRejected 1 None])))
  = Some true /\
  handle MonitorTick
    (run (mount 0) (editWhileLoading ++ [ClientRejected 0 None; ClientRejected 1 None]))
  = run (mount 0) (editWhileLoading ++ [ClientRejected 0 None; ClientRejected 1 None]).
Proof. repeat apply conj; vm_compute; reflexivity. Qed.

(** Counterexample to C3 as stated: in the earlier component, with
    auto-monitoring on and a call in flight, the rejection of the call
    turns auto-monitoring off. *)
Lemma legacy_failure_stops_monitoring :
  Legacy.isAutoMonitoring (Legacy.st legacyInFlight) = true /\
  Legacy.pending legacyInFlight
  = [{| Legacy.cy_id := 0; Legacy.cy_snap := Legacy.st legacyIdle;
        Legacy.cy_stage := Legacy.AwaitingClient |}] /\
  Legacy.isAutoMonitoring
    (Legacy.st (Legacy.handleAnalyze_rejected 0 (Some "503") legacyInFlight))
  <> Legacy.isAutoMonitoring (Legacy.st legacyInFlight).
Proof.
  split; [| split].
  - reflexivity.
  - vm_compute; reflexivity.
  - vm_compute; discriminate.
Qed.

End Failure.

(** ** Gating of auto-monitoring *)

Section Gating.
Import App Spec Examples.

Lemma canMonitor_deps a b :
  monitorDeps a = monitorDeps b -> canMonitor a = canMonitor b.
Proof. unfold monitorDeps, canMonitor; intros H; inversion H; congruence. Qed.

Lemma armed_some s snap :
  armed s = Some snap ->
  snap = s /\ isAutoMonitoring s = true /\ canMonitor s = true.
Proof.
  unfold armed; destruct (isAutoMonitoring s) eqn:Ha, (canMonitor s) eqn:Hc;
    simpl; intros H; inversion H; auto.
Qed.

Lemma handle_gated w e : gated (st w) -> gated (st (handle e w)).
Proof.
  unfold gated, isMonitoringCapable; intros Hg.
  destruct e; unfold_handlers;
    repeat (simpl; try exact Hg; try (intros; discriminate);
            try (intros; reflexivity); break_match);
    simpl; intros; try discriminate; try reflexivity; try (apply Hg; assumption).
  all: try (destruct (isAutoMonitoring (st w)); simpl in *; congruence).
  all: unfold isMonitoringCapable in *; try assumption.
  all: repeat match goal with
              | H : inputMode _ = _ |- context [inputMode _] => rewrite H
              end; auto.
Qed.

Lemma render_gated prev w : gated (st w) -> gated (st (render prev w)).
Proof.
  unfold gated, isMonitoringCapable; intros Hg.
  destruct (render_effectFrame prev w) as [_ _ _ _ _ Hi Hu _ _ _ _ _].
  rewrite render_isAutoMonitoring, Hi, Hu.
  destruct (cameraDeps_eqb prev (st w)); [exact Hg |].
  unfold cameraEffect_auto.
  destruct (inputMode (st w)); [| reflexivity].
  destruct (uploadType (st w)) as [[] |]; simpl; try discriminate.
  reflexivity.
Qed.

Lemma step_gated w e : gated (st w) -> gated (st (step w e)).
Proof. intros H; unfold step; apply render_gated, render_gated, handle_gated, H. Qed.

Lemma handle_monitoringInterval w e :
  monitoringInterval (handle e w) = monitoringInterval w.
Proof. destruct e; handler_cases. Qed.

Lemma step_intervalCurrent w e : intervalCurrent w -> intervalCurrent (step w e).
Proof.
  intros Hw snap; unfold step.
  set (w1 := handle e w).
  set (w2 := render (st w) w1).
  assert (H23 : monitorDeps (st w2) = monitorDeps (st (render (st w1) w2))).
  { apply monitorDeps_eqb_eq, render_monitorDeps.
    unfold w2; apply render_cameraDeps. }
  rewrite render_monitoringInterval.
  destruct (monitorDeps_eqb (st w1) (st w2)) eqn:H12.
  - apply monitorDeps_eqb_eq in H12.
    unfold w2 at 1; rewrite render_monitoringInterval.
    destruct (monitorDeps_eqb (st w) (st w1)) eqn:H01.
    + apply monitorDeps_eqb_eq in H01.
      unfold w1 at 1; rewrite handle_monitoringInterval; intros Hs.
      destruct (Hw snap Hs) as (Hd & Ha & Hc).
      repeat split; try assumption; congruence.
    + intros Hs; apply armed_some in Hs; destruct Hs as (-> & Ha & Hc).
      repeat split; try assumption; congruence.
  - intros Hs; apply armed_some in Hs; destruct Hs as (-> & Ha & Hc).
    repeat split; assumption.
Qed.

Lemma run_invariant (P : World -> Prop) :
  (forall w e, P w -> P (step w e)) ->
  forall es w, P w -> P (run w es).
Proof.
  intros Hstep es; induction es as [| e es IH]; intros w Hw; simpl;
    [exact Hw | apply IH, Hstep, Hw].
Qed.

End Gating.

Section GatingClaim.
Import App Spec Examples.

Lemma step_isAutoMonitoring w e :
  isAutoMonitoring (st (step w e))
  = if cameraDeps_eqb (st w) (st (handle e w))
    then isAutoMonitoring (st (handle e w))
    else cameraEffect_auto (st (handle e w)) (isAutoMonitoring (st (handle e w))).
Proof.
  unfold step.
  rewrite render_isAutoMonitoring, render_cameraDeps.
  apply render_isAutoMonitoring.
Qed.

Lemma step_uploadType w e : uploadType (st (step w e)) = uploadType (st (handle e w)).
Proof.
  unfold step.
  rewrite (ef_uploadType _ _ (render_effectFrame _ _)).
  apply (ef_uploadType _ _ (render_effectFrame _ _)).
Qed.

Lemma step_inputMode w e : inputMode (st (step w e)) = inputMode (st (handle e w)).
Proof. unfold step; rewrite !render_inputMode; reflexivity. Qed.

Lemma gallery_forces_off w exp :
  isAutoMonitoring (st (step w (GallerySelect exp))) = false.
Proof.
  rewrite step_isAutoMonitoring.
  destruct (cameraDeps_eqb _ _); reflexivity.
Qed.

Lemma reader_forces_off w i readerResult :
  nth_error (pendingReaders w) i = Some readerResult ->
  isAutoMonitoring (st (step w (ReaderLoadEnd i))) = false /\
  uploadType (st (step w (ReaderLoadEnd i))) = Some IMAGE.
Proof.
  intros H; rewrite step_isAutoMonitoring, step_uploadType.
  simpl; rewrite H; simpl.
  unfold cameraDeps_eqb; simpl; rewrite InputMode_eqb_refl; split; reflexivity.
Qed.

Lemma toggle_needs_capable_source w :
  isMonitoringCapable (st w) = false ->
  st (step w MonitoringToggleClick) = st w /\
  monitoringInterval (step w MonitoringToggleClick) = monitoringInterval w.
Proof.
  intros H.
  assert (E : handle MonitoringToggleClick w = w) by (simpl; rewrite H; reflexivity).
  rewrite step_idle; rewrite E; split; reflexivity.
Qed.

Lemma mount_gated t : gated (st (mount t)) /\ intervalCurrent (mount t).
Proof. split; [intros H | intros snap H]; discriminate H. Qed.

(** C4. In every state reachable from mounting, [isAutoMonitoring] is true
    only when the source is the camera or an uploaded video, and a
    monitoring interval exists only then.  Choosing a gallery experiment,
    and the end of the read of an uploaded image, set [isAutoMonitoring] to
    false; while the source is not capture-capable the toggle is not
    offered, so nothing can turn auto-monitoring on. *)
Theorem auto_monitoring_gated :
  (forall (t : Z) (es : list Event),
      (isAutoMonitoring (st (run (mount t) es)) = true ->
       isMonitoringCapable (st (run (mount t) es)) = true) /\
      (forall snap,
          monitoringInterval (run (mount t) es) = Some snap ->
          isAutoMonitoring (st (run (mount t) es)) = true /\
          isMonitoringCapable (st (run (mount t) es)) = true)) /\
  (forall w exp, isAutoMonitoring (st (step w (GallerySelect exp))) = false) /\
  (forall w i readerResult,
      nth_error (pendingReaders w) i = Some readerResult ->
      isAutoMonitoring (st (step w (ReaderLoadEnd i))) = false /\
      uploadType (st (step w (ReaderLoadEnd i))) = Some IMAGE) /\
  (forall w,
      isMonitoringCapable (st w) = false ->
      st (step w MonitoringToggleClick) = st w /\
      monitoringInterval (step w MonitoringToggleClick) = monitoringInterval w).
Proof.
  split; [| split; [| split]].
  - intros t es.
    assert (Hg : gated (st (run (mount t) es)))
      by (apply (run_invariant (fun w => gated (st w)));
          [apply step_gated | apply mount_gated]).
    assert (Hi : intervalCurrent (run (mount t) es))
      by (apply (run_invariant intervalCurrent);
          [apply step_intervalCurrent | apply mount_gated]).
    split; [exact Hg |].
    intros snap Hs; destruct (Hi snap Hs) as (Hd & Ha & Hc).
    assert (Hauto : isAutoMonitoring (st (run (mount t) es)) = true)
      by (unfold monitorDeps in Hd; inversion Hd; congruence).
    split; [exact Hauto | exact (Hg Hauto)].
  - apply gallery_forces_off.
  - apply reader_forces_off.
  - apply toggle_needs_capable_source.
Qed.

Lemma auto_monitoring_gated_witness :
  isMonitoringCapable (st (run (mount 0) [ContextTyped "pH test"; LiveCameraClick]))
  = true /\
  isAutoMonitoring (st (run (mount 0) [ContextTyped "pH test"; LiveCameraClick]))
  = true /\
  isAutoMonitoring
    (st (step (run (mount 0) [ContextTyped "test"; FileChosen (Some photo)])
           (ReaderLoadEnd 0))) = false /\
  st (step (mount 0) MonitoringToggleClick) = st (mount 0).
Proof.
  split; [| split; [| split]].
  - apply (proj1 (proj1 auto_monitoring_gated 0 [ContextTyped "pH test"; LiveCameraClick])).
    vm_compute; reflexivity.
  - apply (proj2 (proj1 auto_monitoring_gated 0 [ContextTyped "pH test"; LiveCameraClick])
             (st (run (mount 0) [ContextTyped "pH test"; LiveCameraClick]))).
    vm_compute; reflexivity.
  - apply (proj1 (proj2 (proj2 auto_monitoring_gated))
             (run (mount 0) [ContextTyped "test"; FileChosen (Some photo)])
             0%nat (Some jpegA)).
    vm_compute; reflexivity.
  - apply (proj2 (proj2 (proj2 auto_monitoring_gated)) (mount 0)).
    vm_compute; reflexivity.
Defined.

End GatingClaim.

(** ** Suspended cycles and the call log *)

Section Cycles.
Import App Spec.

Lemma findCycle_some id w c :
  findCycle id w = Some c -> In c (pending w) /\ cy_id c = id.
Proof.
  unfold findCycle; intros H; apply find_some in H; destruct H as [Hin Heq].
  split; [exact Hin | apply Nat.eqb_eq, Heq].
Qed.

Lemma ids_setStage id stage w :
  map cy_id (pending (setStage id stage w)) = map cy_id (pending w).
Proof.
  unfold setStage; simpl; rewrite map_map; apply map_ext.
  intros c; destruct (Nat.eqb (cy_id c) id); reflexivity.
Qed.

Lemma in_setStage id stage w c' :
  In c' (pending (setStage id stage w)) ->
  (In c' (pending w) /\ cy_id c' <> id) \/
  (exists c, In c (pending w) /\ cy_id c = id /\
             c' = {| cy_id := cy_id c; cy_snap := cy_snap c; cy_stage := stage |}).
Proof.
  unfold setStage; simpl; intros H; apply in_map_iff in H.
  destruct H as (c & Hc & Hin).
  destruct (Nat.eqb (cy_id c) id) eqn:E.
  - right; exists c; apply Nat.eqb_eq in E; auto.
  - left; subst c'; apply Nat.eqb_neq in E; auto.
Qed.

Lemma in_dropCycle id w c :
  In c (pending (dropCycle id w)) -> In c (pending w).
Proof. unfold dropCycle; simpl; intros H; apply filter_In in H; apply H. Qed.

Lemma NoDup_map_filter {A B} (g : A -> B) (f : A -> bool) (l : list A) :
  NoDup (map g l) -> NoDup (map g (filter f l)).
Proof.
  induction l as [| a l IH]; simpl; intros H; [constructor |].
  inversion H as [| x xs Hn Hd]; subst.
  destruct (f a); simpl; [constructor |]; auto.
  intros Hin; apply Hn.
  apply in_map_iff in Hin; destruct Hin as (b & Hb & Hin).
  apply filter_In in Hin; apply in_map_iff; exists b; tauto.
Qed.

Lemma NoDup_map_inj {A B} (g : A -> B) (l : list A) a b :
  NoDup (map g l) -> In a l -> In b l -> g a = g b -> a = b.
Proof.
  induction l as [| x l IH]; simpl; intros H Ha Hb E; [contradiction |].
  inversion H as [| y ys Hn Hd]; subst.
  destruct Ha as [-> | Ha], Hb as [-> | Hb]; auto.
  - exfalso; apply Hn; rewrite E; apply in_map, Hb.
  - exfalso; apply Hn; rewrite <- E; apply in_map, Ha.
Qed.

Lemma logged_mono w w' c :
  (forall call, In call (calls w) -> In call (calls w')) ->
  logged w c -> logged w' c.
Proof.
  intros Hsub (call & date & Hin & Hid & Hctx).
  exists call, date; auto.
Qed.

Lemma cycleOp_consistent w w' :
  cycleOp w w' -> cyclesConsistent w -> cyclesConsistent w'.
Proof.
  intros Hop (Hlt & Hnd & Hlog & Haug).
  destruct Hop as [Hp Hc Hn | snap image Hp Hc Hn | id url Hp Hc Hn
                  | c b64 Hf Hp Hc Hn | id Hp Hc Hn];
    unfold cyclesConsistent; rewrite Hp, Hc, Hn.
  - repeat split; auto.
    intros c Hin Hs; eapply logged_mono; [| apply Hlog; eauto].
    rewrite Hc; auto.
  - repeat split; auto.
    + intros c Hin; apply in_app_or in Hin; destruct Hin as [Hin | [<- | []]];
        [apply Hlt in Hin; lia | simpl; lia].
    + rewrite map_app; simpl.
      apply NoDup_app; [exact Hnd | repeat constructor; intros [] | ].
      intros x Hx [<- | []].
      apply in_map_iff in Hx; destruct Hx as (c & Hc' & Hin).
      apply Hlt in Hin; lia.
    + intros c Hin Hs; apply in_app_or in Hin; destruct Hin as [Hin | [<- | []]];
        [| discriminate Hs].
      eapply logged_mono; [| apply Hlog; eauto]. rewrite Hc; auto.
  - repeat split; auto.
    + intros c Hin; apply in_setStage in Hin.
      destruct Hin as [[Hin _] | (c0 & Hin & _ & ->)]; simpl; auto.
    + rewrite ids_setStage; exact Hnd.
    + intros c Hin Hs; apply in_setStage in Hin.
      destruct Hin as [[Hin _] | (c0 & Hin & _ & ->)]; [| discriminate Hs].
      eapply logged_mono; [| apply Hlog; eauto]. rewrite Hc; auto.
  - apply findCycle_some in Hf; destruct Hf as [Hcin _].
    repeat split; auto.
    + intros c' Hin; apply in_setStage in Hin.
      destruct Hin as [[Hin _] | (c0 & Hin & _ & ->)]; simpl; auto.
    + rewrite ids_setStage; exact Hnd.
    + intros c' Hin Hs; apply in_setStage in Hin.
      destruct Hin as [[Hin _] | (c0 & Hin & Hid & ->)].
      * eapply logged_mono; [| apply Hlog; eauto].
        rewrite Hc; intros; apply in_or_app; auto.
      * assert (c0 = c) by (eapply (NoDup_map_inj cy_id); eauto).
        subst c0.
        eexists; exists (now w); split; [rewrite Hc; apply in_or_app; right; left;
                                         reflexivity |].
        split; reflexivity.
    + apply Forall_app; split; [exact Haug |].
      constructor; [| constructor].
      do 3 eexists; reflexivity.
  - repeat split; auto.
    + intros c Hin; apply in_dropCycle in Hin; auto.
    + unfold dropCycle; simpl; apply NoDup_map_filter, Hnd.
    + intros c Hin Hs; apply in_dropCycle in Hin.
      eapply logged_mono; [| apply Hlog; eauto]. rewrite Hc; auto.
Qed.

End Cycles.

Section CycleSteps.
Import App Spec.

Lemma handleAnalyze_cycleOp snap manual w : cycleOp w (handleAnalyze snap manual w).
Proof.
  pose proof (ef_calls _ _ (handleAnalyze_effectFrame snap manual w)) as Hc.
  destruct (handleAnalyze_pending snap manual w) as [[Hp Hn] | (image & Hp & Hn)].
  - apply op_none; assumption.
  - eapply op_start; eassumption.
Qed.

Lemma handleAnalyze_call_cycleOp c final w :
  findCycle (cy_id c) w = Some c -> cycleOp w (handleAnalyze_call c final w).
Proof.
  intros Hf; unfold handleAnalyze_call.
  destruct (JS.split final ","%char) as [| a [| b [| x l]]];
    try (apply (op_drop _ _ (cy_id c)); reflexivity).
  apply (op_call _ _ c b); try reflexivity; exact Hf.
Qed.

Lemma ensureBase64_cycleOp c urlOrData w :
  findCycle (cy_id c) w = Some c -> cycleOp w (ensureBase64 c urlOrData w).
Proof.
  intros Hf; unfold ensureBase64.
  destruct (JS.startsWith urlOrData "data:").
  - apply handleAnalyze_call_cycleOp, Hf.
  - apply (op_fetch _ _ (cy_id c) urlOrData); reflexivity.
Qed.

Lemma findCycle_self id w c : findCycle id w = Some c -> findCycle (cy_id c) w = Some c.
Proof. intros H; destruct (findCycle_some _ _ _ H) as [_ ->]; exact H. Qed.

Lemma handle_cycleOp w e : cycleOp w (handle e w).
Proof.
  destruct e;
    try (apply op_none; handler_cases; fail).
  - (* AnalyzeClick *)
    simpl; destruct (analyzeDisabled (st w));
      [apply op_none; reflexivity | apply handleAnalyze_cycleOp].
  - (* MonitorTick *)
    simpl; unfold monitorTick.
    destruct (monitoringInterval w) as [snap |]; [| apply op_none; reflexivity].
    destruct (negb (isLoading (analysis snap)));
      [apply handleAnalyze_cycleOp | apply op_none; reflexivity].
  - (* PreprocessSettled *)
    simpl; unfold handleAnalyze_preprocessed.
    destruct (findCycle id w) as [c |] eqn:Hf; [| apply op_none; reflexivity].
    destruct (cy_stage c); try (apply op_none; reflexivity).
    apply ensureBase64_cycleOp, (findCycle_self id), Hf.
  - (* FetchSettled *)
    simpl; unfold handleAnalyze_fetched.
    destruct (findCycle id w) as [c |] eqn:Hf; [| apply op_none; reflexivity].
    destruct (cy_stage c); try (apply op_none; reflexivity).
    destruct o; try (apply (op_drop _ _ id); reflexivity).
    apply handleAnalyze_call_cycleOp, (findCycle_self id), Hf.
  - (* ClientResolved *)
    simpl; unfold handleAnalyze_resolved.
    destruct (findCycle id w) as [c |] eqn:Hf; [| apply op_none; reflexivity].
    destruct (cy_stage c); try (apply op_none; reflexivity).
    apply (op_drop _ _ id); reflexivity.
  - (* ClientRejected *)
    simpl; unfold handleAnalyze_rejected.
    destruct (findCycle id w) as [c |] eqn:Hf; [| apply op_none; reflexivity].
    destruct (cy_stage c); try (apply op_none; reflexivity).
    apply (op_drop _ _ id); reflexivity.
Qed.

Lemma monitorEffect_cycleOp snap w : cycleOp w (monitorEffect snap w).
Proof.
  unfold monitorEffect.
  destruct (isAutoMonitoring snap && canMonitor snap); [| apply op_none; reflexivity].
  pose proof (ef_calls _ _ (handleAnalyze_effectFrame snap None w)) as Hc.
  destruct (handleAnalyze_pending snap None w) as [[Hp Hn] | (image & Hp & Hn)].
  - apply op_none; assumption.
  - eapply op_start; eassumption.
Qed.

(** An operation seen from a world with the same cycles, log and clock. *)
Lemma cycleOp_from w w1 w2 :
  pending w1 = pending w -> nextId w1 = nextId w -> calls w1 = calls w ->
  now w1 = now w -> cycleOp w1 w2 -> cycleOp w w2.
Proof.
  intros Hp Hn Hc Ht Hop.
  destruct Hop as [Hp' Hc' Hn' | snap image Hp' Hc' Hn' | id url Hp' Hc' Hn'
                  | c b64 Hf Hp' Hc' Hn' | id Hp' Hc' Hn'].
  - apply op_none; congruence.
  - apply (op_start _ _ snap image); congruence.
  - apply (op_fetch _ _ id url); try congruence.
    rewrite Hp'; unfold setStage; simpl; rewrite Hp; reflexivity.
  - apply (op_call _ _ c b64); try congruence.
    + unfold findCycle in *; rewrite <- Hp; exact Hf.
    + rewrite Hp'; unfold setStage; simpl; rewrite Hp; reflexivity.
  - apply (op_drop _ _ id); try congruence.
    rewrite Hp'; unfold dropCycle; simpl; rewrite Hp; reflexivity.
Qed.

Lemma render_cycleOp prev w : cycleOp w (render prev w).
Proof.
  unfold render, monitorCleanup, cameraCleanup, clearMonitoringInterval.
  set (snap := st w).
  set (w0 := commitDom prev snap w).
  destruct (negb (cameraDeps_eqb prev snap)), (negb (monitorDeps_eqb prev snap)).
  - set (w1 := cameraEffect snap (with_monitoringInterval None (stopCamera w0))).
    destruct (cameraEffect_loopFrame snap (with_monitoringInterval None (stopCamera w0)))
      as [_ Hp1 Hn1 _ _].
    destruct (cameraEffect_effectFrame snap (with_monitoringInterval None (stopCamera w0)))
      as [_ Ht1 Hc1 _ _ _ _ _ _ _ _ _].
    destruct (stopCamera_loopFrame w0) as [_ Hp2 Hn2 _ _].
    destruct (stopCamera_effectFrame w0) as [_ Ht2 Hc2 _ _ _ _ _ _ _ _ _].
    apply (cycleOp_from w w1); [| | | | apply monitorEffect_cycleOp];
      unfold w1; simpl in *; congruence.
  - destruct (cameraEffect_loopFrame snap (stopCamera w0)) as [_ Hp1 Hn1 _ _].
    destruct (cameraEffect_effectFrame snap (stopCamera w0))
      as [_ _ Hc1 _ _ _ _ _ _ _ _ _].
    destruct (stopCamera_loopFrame w0) as [_ Hp2 Hn2 _ _].
    destruct (stopCamera_effectFrame w0) as [_ _ Hc2 _ _ _ _ _ _ _ _ _].
    apply op_none; simpl in *; congruence.
  - apply (cycleOp_from w (with_monitoringInterval None w0));
      [reflexivity | reflexivity | reflexivity | reflexivity
      | apply monitorEffect_cycleOp].
  - apply op_none; reflexivity.
Qed.

Lemma step_cyclesConsistent w e : cyclesConsistent w -> cyclesConsistent (step w e).
Proof.
  intros H; unfold step.
  eapply cycleOp_consistent; [apply render_cycleOp |].
  eapply cycleOp_consistent; [apply render_cycleOp |].
  eapply cycleOp_consistent; [apply handle_cycleOp | exact H].
Qed.

Lemma mount_cyclesConsistent t : cyclesConsistent (mount t).
Proof.
  repeat split; simpl; try (intros c []); constructor.
Qed.

End CycleSteps.

(** ** Telemetry snapshots *)

Section Snapshot.
Import App Spec Outcome Examples Scenarios.

Lemma run_cyclesConsistent t es : cyclesConsistent (run (mount t) es).
Proof.
  apply (run_invariant cyclesConsistent);
    [apply step_cyclesConsistent | apply mount_cyclesConsistent].
Qed.










(** On the timer path the render a cycle closes over is the one that
    created the interval, and [telemetry] is not among the dependencies of
    that effect: a reading entered by hand afterwards is on screen, but in
    neither the context nor the entry. *)
Example tick_carries_the_telemetry_of_the_interval :
  JS.toFixed2 (temperature (telemetry (st (run (mount 0) manualReading)))) = "99.00" /\
  map call_context
    (calls (run (mount 0)
              (manualReading ++
               [MonitorTick; PreprocessSettled 0%nat (Loaded (Drawn jpegB))])))
  = [augmentedContext "pH test" (telemetry initialState) 0] /\
  map Types.telemetry
    (history (st (run (mount 0)
                    (manualReading ++
                     [MonitorTick; PreprocessSettled 0%nat (Loaded (Drawn jpegB));
                      ClientResolved 0%nat normal]))))
  = [telemetry initialState].
Proof. repeat apply conj; vm_compute; reflexivity. Qed.

(** In that run the telemetry state has drifted away from the snapshot by
    the time the call resolves. *)
Example telemetry_drifted_meanwhile :
  telemetry (st (run (mount 0) oneAnalysis)) <> telemetry initialState /\
  now (run (mount 0) oneAnalysis) = 3500.
Proof. split; [vm_compute; discriminate | vm_compute; reflexivity]. Qed.

End Snapshot.

(** ** The augmented context *)

Section AugmentedContext.
Import App Spec Examples.

(** C6, as the code has it.  The context sent to the Analysis Client is
    the original context, an empty line, the header line
    [[REAL-TIME TELEMETRY]], then the temperature, pressure and timestamp
    lines and nothing after them.  The two readings are printed by
    [toFixed(2)]: with exactly two decimals when the value is finite and
    below 10^21 in magnitude.  The timestamp is in the ISO 8601 form of
    [toISOString].  The earlier component composes the same lines, its unit
    spelled with the bytes of the file. *)
Theorem augmented_context_layout :
  (forall (context : string) (tel : TelemetryData) (date : Z),
      lines (augmentedContext context tel date)
      = List.app (lines context)
          [ ""; "[REAL-TIME TELEMETRY]";
            "Temperature: " ++ JS.toFixed2 (temperature tel) ++ " " ++ degree ++ "C";
            "Pressure: " ++ JS.toFixed2 (pressure tel) ++ " kPa";
            "Timestamp: " ++ JS.toISOString date ] /\
      (fixedRange (temperature tel) = true ->
       twoDecimals (JS.toFixed2 (temperature tel))) /\
      (fixedRange (pressure tel) = true ->
       twoDecimals (JS.toFixed2 (pressure tel))) /\
      iso8601 (JS.toISOString date)) /\
  (forall (t : Z) (es : list Event),
      Forall augmentedCall (calls (run (mount t) es))) /\
  (forall (context : string) (tel : TelemetryData) (date : Z),
      lines (Legacy.augmentedContext context tel date)
      = List.app (lines context)
          [ ""; "[REAL-TIME TELEMETRY]";
            "Temperature: " ++ JS.toFixed2 (temperature tel) ++ " " ++ Legacy.degree ++ "C";
            "Pressure: " ++ JS.toFixed2 (pressure tel) ++ " kPa";
            "Timestamp: " ++ JS.toISOString date ]).
Proof.
  split; [| split].
  - intros context tel date; split; [apply augmentedContext_lines |].
    split; [apply toFixed2_twoDecimals |].
    split; [apply toFixed2_twoDecimals | apply toISOString_iso8601].
  - intros t es; apply (run_cyclesConsistent t es).
  - apply legacy_augmentedContext_lines.
Qed.

Lemma augmented_context_layout_witness :
  twoDecimals (JS.toFixed2 (temperature (telemetry initialState))) /\
  twoDecimals (JS.toFixed2 (pressure (telemetry initialState))).
Proof.
  destruct (proj1 augmented_context_layout "test" (telemetry initialState) 0)
    as (_ & Ht & Hp & _).
  split; [apply Ht | apply Hp]; reflexivity.
Defined.

(** Counterexample to C6 as stated: the composed context is not the
    context, a blank line and the three telemetry lines; its third line
    from the end of the context is the header. *)
Lemma augmented_context_has_header :
  augmentedContext "test" (telemetry initialState) 0
  <> specifiedContext "test" (telemetry initialState) 0 /\
  nth_error (lines (augmentedContext "test" (telemetry initialState) 0)) 2
  = Some "[REAL-TIME TELEMETRY]" /\
  nth_error (lines (specifiedContext "test" (telemetry initialState) 0)) 2
  = Some ("Temperature: 24.50 " ++ degree ++ "C").
Proof.
  split; [| split].
  - vm_compute; discriminate.
  - vm_compute; reflexivity.
  - vm_compute; reflexivity.
Qed.

(** Readings outside the range are printed without two decimals. *)
Example toFixed2_out_of_range :
  JS.toFixed2 (S754_infinity false) = "Infinity" /\
  JS.toFixed2 (JS.literal 1 70) = "1.1805916207174113e+21".
Proof. split; vm_compute; reflexivity. Qed.

End AugmentedContext.

(** ** Timer ticks during a call in flight *)

Section Overlap.
Import App Spec Examples.

(** The guard of the interval callback reads the [analysis] of the render
    in which the effect ran; [analysis.isLoading] is not among the
    dependencies of the effect, so the state the guard reads stays what it
    was when the interval was created. *)
Lemma tick_reads_the_snapshot w snap :
  monitoringInterval w = Some snap ->
  handle MonitorTick w
  = if isLoading (analysis snap) then w else handleAnalyze snap None w.
Proof.
  intros H; simpl; unfold monitorTick; rewrite H.
  destruct (isLoading (analysis snap)); reflexivity.
Qed.

(** C1 fails on the current component.  After the first tick of
    [firstTick] one call is in flight and [isLoading] is true; the second
    tick nevertheless starts a cycle, and a second call is issued while the
    first has not resolved. *)
Theorem second_tick_issues_second_call :
  isLoading (analysis (st (run (mount 0) firstTick))) = true /\
  map call_id (calls (run (mount 0) firstTick)) = [0%nat] /\
  map cy_stage (pending (run (mount 0) firstTick)) = [AwaitingClient] /\
  map call_id (calls (run (run (mount 0) firstTick) secondTick)) = [0%nat; 1%nat] /\
  map cy_stage (pending (run (run (mount 0) firstTick) secondTick))
  = [AwaitingClient; AwaitingClient].
Proof. repeat split; vm_compute; reflexivity. Qed.

End Overlap.

(** ** Camera teardown *)

Section Teardown.
Import App Spec Examples.

(** With the video element attached, [stopCamera] stops every track of its
    stream and releases the track and capability state. *)
Lemma stopCamera_attached w el stream :
  webcamRef w = Some el -> srcObject el = Some stream ->
  (forall t, In t (getTracks stream) -> ~ In t (liveTracks (stopCamera w))) /\
  (exists el', webcamRef (stopCamera w) = Some el' /\ srcObject el' = None) /\
  videoTrack (st (stopCamera w)) = None /\
  capabilities (st (stopCamera w)) = None /\
  isCameraActive (st (stopCamera w)) = false.
Proof.
  intros Hw Hs; unfold stopCamera; rewrite Hw, Hs; simpl; repeat split.
  - intros t Hin Hlive; unfold stopTracks in Hlive.
    apply filter_In in Hlive; destruct Hlive as [_ Hneg].
    apply negb_true_iff in Hneg.
    assert (Hex : existsb (Nat.eqb t) (getTracks stream) = true)
      by (apply existsb_exists; exists t; split; [exact Hin | apply Nat.eqb_refl]).
    congruence.
  - eexists; split; reflexivity.
Qed.

(** Without the video element [stopCamera] does nothing. *)
Lemma stopCamera_detached w : webcamRef w = None -> stopCamera w = w.
Proof. intros H; unfold stopCamera; rewrite H; reflexivity. Qed.

Lemma handleAnalyze_deviceFrame snap manual w :
  deviceFrame w (handleAnalyze snap manual w).
Proof.
  unfold handleAnalyze, enablePreprocessing.
  destruct (imageToAnalyze snap manual w) as [image |]; [| constructor; reflexivity].
  destruct (JS.truthy image && JS.truthy (context snap)); constructor; reflexivity.
Qed.

Lemma monitorEffect_deviceFrame snap w : deviceFrame w (monitorEffect snap w).
Proof.
  unfold monitorEffect.
  destruct (isAutoMonitoring snap && canMonitor snap); [| constructor; reflexivity].
  destruct (handleAnalyze_deviceFrame snap None w); constructor; simpl; assumption.
Qed.

(** In a render of the upload mode the video element is gone, and in a
    render that enters the camera mode it is new: whenever a render calls
    [stopCamera], there is no stream for it to stop. *)
Lemma render_device prev w :
  (inputMode prev = UPLOAD -> webcamRef w = None) ->
  liveTracks (render prev w) = liveTracks w /\
  (inputMode (st w) = UPLOAD -> webcamRef (render prev w) = None).
Proof.
  intros Hdom.
  unfold render, monitorCleanup, cameraCleanup, clearMonitoringInterval,
    cameraDeps_eqb.
  set (snap := st w).
  assert (Hcam : forall x, liveTracks (cameraEffect snap x)
                           = match inputMode snap with
                             | CAMERA => liveTracks x
                             | UPLOAD => liveTracks (stopCamera x)
                             end /\
                           webcamRef (cameraEffect snap x)
                           = match inputMode snap with
                             | CAMERA => webcamRef x
                             | UPLOAD => webcamRef (stopCamera x)
                             end).
  { intros x; unfold cameraEffect; destruct (inputMode snap); [| split; reflexivity].
    destruct (uploadType snap) as [[] |]; split; reflexivity. }
  destruct (InputMode_eqb (inputMode prev) (inputMode snap)) eqn:Hc; simpl.
  - destruct (negb (monitorDeps_eqb prev snap));
      [destruct (monitorEffect_deviceFrame snap
                   (with_monitoringInterval None (commitDom prev snap w))) as [-> ->] |];
      simpl; split; try reflexivity;
      unfold snap; intros Hu; rewrite Hu; reflexivity.
  - assert (Hne : inputMode prev <> inputMode snap)
      by (intros E; rewrite E, InputMode_eqb_refl in Hc; discriminate).
    assert (Hstop :
              liveTracks (stopCamera (commitDom prev snap w)) = liveTracks w /\
              webcamRef (stopCamera (commitDom prev snap w))
              = match inputMode snap with
                | CAMERA => Some freshVideo
                | UPLOAD => None
                end).
    { unfold stopCamera, commitDom; simpl.
      destruct (inputMode snap) eqn:Hs; simpl; [split; reflexivity |].
      destruct (inputMode prev) eqn:Hp; [| congruence].
      rewrite (Hdom eq_refl); simpl; split; reflexivity. }
    destruct Hstop as [Hl Hr].
    assert (Hagain : forall x,
               webcamRef x = None -> stopCamera x = x)
      by (intros x Hx; unfold stopCamera; rewrite Hx; reflexivity).
    destruct (negb (monitorDeps_eqb prev snap)).
    + destruct (monitorEffect_deviceFrame snap
                  (cameraEffect snap
                     (with_monitoringInterval None
                        (stopCamera (commitDom prev snap w))))) as [-> ->].
      destruct (Hcam (with_monitoringInterval None (stopCamera (commitDom prev snap w))))
        as [-> ->].
      fold snap; destruct (inputMode snap) eqn:Hs; simpl.
      * rewrite Hagain by (simpl; exact Hr). simpl; split; [exact Hl |].
        intros _; exact Hr.
      * split; [exact Hl | intros Hu; discriminate Hu].
    + destruct (Hcam (stopCamera (commitDom prev snap w))) as [-> ->].
      fold snap; destruct (inputMode snap) eqn:Hs; simpl.
      * rewrite Hagain by exact Hr. split; [exact Hl | intros _; exact Hr].
      * split; [exact Hl | intros Hu; discriminate Hu].
Qed.

Lemma render_liveTracks prev w :
  (inputMode prev = UPLOAD -> webcamRef w = None) ->
  liveTracks (render prev w) = liveTracks w /\ domMatches (render prev w).
Proof.
  intros Hdom; destruct (render_device prev w Hdom) as [Hl Hr].
  split; [exact Hl |].
  unfold domMatches; rewrite render_inputMode; exact Hr.
Qed.

Lemma handle_webcamRef_none w e : webcamRef w = None -> webcamRef (handle e w) = None.
Proof.
  intros H; destruct e; unfold_handlers;
    repeat (simpl; try exact H; break_match); simpl; try exact H; congruence.
Qed.

Lemma handle_liveTracks w e tr : In tr (liveTracks w) -> In tr (liveTracks (handle e w)).
Proof.
  intros H; destruct e; unfold_handlers;
    repeat (simpl; try exact H; break_match); simpl; try exact H;
    apply in_or_app; left; exact H.
Qed.

Lemma handle_inputMode_upload w e :
  domMatches w -> inputMode (st w) = UPLOAD -> webcamRef (handle e w) = None.
Proof. intros Hd Hu; apply handle_webcamRef_none, Hd, Hu. Qed.

Lemma step_domMatches w e : domMatches w -> domMatches (step w e).
Proof.
  intros Hd; unfold step.
  destruct (render_liveTracks (st w) (handle e w)) as [_ Hd1];
    [intros Hu; apply handle_inputMode_upload; assumption |].
  apply render_liveTracks.
  rewrite <- (render_inputMode (st w)); exact Hd1.
Qed.

(** No event ever stops a track: in every reachable state, every live track
    is still live after any event. *)
Lemma tracks_are_never_stopped (t : Z) (es : list Event) (e : Event) (tr : TrackId) :
  In tr (liveTracks (run (mount t) es)) ->
  In tr (liveTracks (step (run (mount t) es) e)).
Proof.
  assert (Hd : domMatches (run (mount t) es))
    by (apply (run_invariant domMatches);
        [apply step_domMatches | intros _; reflexivity]).
  generalize dependent (run (mount t) es); intros w Hd Hin.
  unfold step.
  destruct (render_liveTracks (st w) (handle e w)) as [Hl1 Hd1];
    [intros Hu; apply handle_inputMode_upload; assumption |].
  destruct (render_liveTracks (st (handle e w)) (render (st w) (handle e w)))
    as [Hl2 _];
    [rewrite <- (render_inputMode (st w)); exact Hd1 |].
  rewrite Hl2, Hl1; apply handle_liveTracks, Hin.
Qed.

(** A stream granted after the mode was switched back is not attached to
    any element and stays live as well. *)
Example late_grant_stays_live :
  liveTracks (run (mount 0)
                [LiveCameraClick; FileUploadClick; GetUserMediaSettled (Some rearCamera)])
  = [7%nat] /\
  inputMode (st (run (mount 0)
                   [LiveCameraClick; FileUploadClick;
                    GetUserMediaSettled (Some rearCamera)])) = UPLOAD.
Proof. split; vm_compute; reflexivity. Qed.

(** C9 fails on the current component.  With the camera running, switching
    to file upload removes the video element before the cleanup and the
    body of the camera effect call [stopCamera]; both find
    [webcamRef.current] null, so the track of the stream stays live and
    the track and capability state stay set. *)
Theorem mode_switch_leaves_camera_running :
  liveTracks (run (mount 0) cameraRunning) = [7%nat] /\
  inputMode (st (step (run (mount 0) cameraRunning) FileUploadClick)) = UPLOAD /\
  webcamRef (step (run (mount 0) cameraRunning) FileUploadClick) = None /\
  liveTracks (step (run (mount 0) cameraRunning) FileUploadClick) = [7%nat] /\
  videoTrack (st (step (run (mount 0) cameraRunning) FileUploadClick)) = Some 7%nat /\
  capabilities (st (step (run (mount 0) cameraRunning) FileUploadClick))
  = Some (grant_capabilities rearCamera) /\
  isCameraActive (st (step (run (mount 0) cameraRunning) FileUploadClick)) = true.
Proof. repeat split; vm_compute; reflexivity. Qed.

End Teardown.

(** ** Entering camera mode *)

Section CameraEntry.
Import App Spec Outcome Examples Scenarios.

Lemma run_domMatches t es : domMatches (run (mount t) es).
Proof.
  apply (run_invariant domMatches); [apply step_domMatches | intros _; reflexivity].
Qed.

(** The first render after the Live Camera click, from upload mode and with
    no webcam element in the tree: the element is inserted, both effects
    run, and the [handleAnalyze] of the monitoring effect finds the element
    without data. *)
Lemma camera_click_render w :
  inputMode (st w) = UPLOAD -> webcamRef w = None ->
  let w1 := handleLiveCameraClick w in
  let w2 := render (st w) w1 in
  webcamRef w2 = Some freshVideo /\
  monitoringInterval w2 = Some (st w1) /\
  captureFrame (st w1) w2 = None /\
  untouched w w2 /\
  cycles w2 = S (cycles w) /\
  pendingCameras w2 = S (pendingCameras w) /\
  inputMode (st w2) = CAMERA /\ isAutoMonitoring (st w2) = true /\
  monitorDeps (st w2) = monitorDeps (st w1).
Proof.
  intros Hup Href w1 w2.
  assert (Hcam : cameraDeps_eqb (st w) (st w1) = false)
    by (unfold cameraDeps_eqb; rewrite Hup; reflexivity).
  assert (Hmon : monitorDeps_eqb (st w) (st w1) = false).
  { unfold monitorDeps_eqb; rewrite Hup; simpl.
    rewrite andb_false_r; reflexivity. }
  assert (E : w2 = monitorEffect (st w1)
                    (cameraEffect (st w1)
                       (monitorCleanup (cameraCleanup (commitDom (st w) (st w1) w1)))))
    by (unfold w2, render; rewrite Hcam, Hmon; reflexivity).
  clearbody w2; subst w2; clear Hcam Hmon.
  destruct w as [s wr fr lt mi pc pr pe ca cy al no ni].
  destruct s as [tl ctx ip vf ut im ica iam vt cap tm tel an hi].
  simpl in Hup, Href; subst im wr.
  lazy; repeat split.
Qed.

(** C10, as the code has it.  In every reachable state in upload mode, the
    Live Camera click turns auto-monitoring on without any toggle (the
    click handler sets it, the mode-change effect sets it again), the
    monitoring interval is created with the render of the camera mode, the
    camera is requested, and [handleAnalyze] is invoked once at once.  That
    invocation finds the video element just inserted, without data: it
    returns without a frame, so no analysis starts with the click.  The
    loop is armed: a tick of the interval, once the element delivers a
    frame, starts a cycle (when a context was entered and no analysis was
    loading at the click). *)
Theorem camera_mode_arms_monitoring :
  forall (t : Z) (es : list Event),
    inputMode (st (run (mount t) es)) = UPLOAD ->
    let w := run (mount t) es in
    let snap := st (handleLiveCameraClick w) in
    let w' := step w LiveCameraClick in
    (inputMode (st w') = CAMERA /\ isAutoMonitoring (st w') = true /\
     isAutoMonitoring snap = true /\
     (forall s w0, inputMode s = CAMERA ->
                   isAutoMonitoring (st (cameraEffect s w0)) = true)) /\
    (monitoringInterval w' = Some snap /\
     pendingCameras w' = S (pendingCameras w) /\ cycles w' = S (cycles w)) /\
    (webcamRef w' = Some freshVideo /\ captureFrame snap w' = None /\
     untouched w w') /\
    (forall w2 image,
        monitoringInterval w2 = Some snap ->
        isLoading (analysis (st w)) = false -> JS.truthy (context (st w)) = true ->
        captureFrame snap w2 = Some image -> JS.truthy image = true ->
        started snap image w2 (step w2 MonitorTick)).
Proof.
  intros t es Hup w snap w'.
  assert (Href : webcamRef w = None) by (apply run_domMatches; exact Hup).
  destruct (camera_click_render w Hup Href)
    as (Hel & Hint & Hcap & Hun & Hcy & Hpc & Hmode & Hauto & Hdeps).
  fold snap in Hint, Hcap, Hdeps.
  set (w2 := render (st w) (handleLiveCameraClick w)) in *.
  assert (Hidle : w' = commitDom snap (st w2) w2).
  { unfold w', step; fold w2; apply render_idle.
    - unfold cameraDeps_eqb; apply InputMode_eqb_eq.
      rewrite Hmode; reflexivity.
    - apply monitorDeps_eqb_eq; symmetry; exact Hdeps. }
  assert (Href' : webcamRef w' = Some freshVideo)
    by (rewrite Hidle; unfold commitDom; simpl; rewrite Hmode, Hel; reflexivity).
  split; [| split; [| split]].
  - rewrite Hidle, commitDom_st; repeat split; try assumption.
    apply cameraEffect_camera_arms.
  - rewrite Hidle; repeat split; assumption.
  - split; [exact Href' | split].
    + unfold captureFrame, sourceVideo; simpl; rewrite Href'; reflexivity.
    + rewrite Hidle; exact Hun.
  - intros w3 image Hi Hl Hc Him Ht.
    apply tick_starts_cycle; try assumption.
Qed.

Lemma camera_mode_arms_monitoring_witness :
  isAutoMonitoring (st (step (run (mount 0) [ContextTyped "pH test"]) LiveCameraClick))
  = true /\
  untouched (run (mount 0) [ContextTyped "pH test"])
    (step (run (mount 0) [ContextTyped "pH test"]) LiveCameraClick) /\
  started (st (handleLiveCameraClick (run (mount 0) [ContextTyped "pH test"]))) jpegA
    (run (mount 0) cameraReady) (step (run (mount 0) cameraReady) MonitorTick).
Proof.
  destruct (camera_mode_arms_monitoring 0 [ContextTyped "pH test"] eq_refl)
    as ((_ & Ha & _) & _ & (_ & _ & Hu) & Ht).
  split; [exact Ha | split; [exact Hu |]].
  exact (Ht (run (mount 0) cameraReady) jpegA
            ltac:(vm_compute; reflexivity) ltac:(vm_compute; reflexivity)
            ltac:(vm_compute; reflexivity) ltac:(vm_compute; reflexivity)
            ltac:(vm_compute; reflexivity)).
Defined.

(** Counterexample to C10 as stated.  With a context entered, the Live
    Camera click turns auto-monitoring on and creates the interval, but no
    analysis cycle is triggered: nothing is loading, no call is suspended
    and none was issued, right after the click and still when the camera
    delivers frames.  The cycle comes with the first tick of the timer. *)
Lemma camera_click_starts_no_analysis :
  inputMode (st (run (mount 0) [ContextTyped "pH test"])) = UPLOAD /\
  isAutoMonitoring (st (run (mount 0) [ContextTyped "pH test"; LiveCameraClick])) = true /\
  monitoringInterval (run (mount 0) [ContextTyped "pH test"; LiveCameraClick]) <> None /\
  webcamRef (run (mount 0) [ContextTyped "pH test"; LiveCameraClick]) = Some freshVideo /\
  isLoading (analysis (st (run (mount 0) [ContextTyped "pH test"; LiveCameraClick])))
  = false /\
  pending (run (mount 0) [ContextTyped "pH test"; LiveCameraClick]) = [] /\
  calls (run (mount 0) [ContextTyped "pH test"; LiveCameraClick]) = [] /\
  isLoading (analysis (st (run (mount 0) cameraReady))) = false /\
  pending (run (mount 0) cameraReady) = [] /\
  calls (run (mount 0) cameraReady) = [] /\
  map cy_stage (pending (run (mount 0) (cameraReady ++ [MonitorTick])))
  = [Preprocessing jpegA].
Proof.
  repeat apply conj; try (vm_compute; reflexivity); vm_compute; discriminate.
Qed.

End CameraEntry.

(** ** The image preprocessor *)

Section Preprocessor.
Import Spec Examples.

(** In the current component the promise of [preprocessImage] resolves
    for every way the load can go, and with the unmodified input on every
    failure. *)
Lemma preprocessImage_best_effort (source : string) (o : App.ImageLoad) :
  (forall enhanced, o <> App.Loaded (Drawn enhanced)) ->
  App.preprocessImage source o = source.
Proof.
  intros H; destruct o as [| [enhanced | |]]; try reflexivity.
  exfalso; apply (H enhanced); reflexivity.
Qed.

(** C7 fails on the earlier component.  Its [img.onload] handler has no
    [try]: when drawing throws, the promise of [preprocessImage] is never
    settled, and the cycle that awaits it stays suspended with [isLoading]
    true. *)
Theorem legacy_preprocess_never_settles :
  Legacy.preprocessImage jpegA (Legacy.Loaded Throws) = None /\
  Legacy.pending legacyPreprocessing
  = [{| Legacy.cy_id := 0; Legacy.cy_snap := Legacy.st legacyIdle;
        Legacy.cy_stage := Legacy.Preprocessing jpegA |}] /\
  Legacy.handleAnalyze_preprocessed 0 (Legacy.Loaded Throws) legacyPreprocessing
  = legacyPreprocessing /\
  isLoading (Legacy.analysis (Legacy.st legacyPreprocessing)) = true /\
  App.preprocessImage jpegA (App.Loaded Throws) = jpegA.
Proof. repeat split; vm_compute; reflexivity. Qed.

End Preprocessor.

(** * Further properties *)

(** ** The graph window and the log panel *)

Section TimelineFacts.
Import Types Timeline.

Lemma tl_skipn {A} (k : nat) (l : list A) : tl (skipn k l) = skipn (S k) l.
Proof.
  revert l; induction k as [| k IH]; intros [| a l]; simpl; try reflexivity.
  apply IH.
Qed.

(** X1. The graph window is the tail of the ledger: the whole ledger while
    it has at most 20 entries, its last 20 entries afterwards, in ledger
    order; appending an entry appends it to the window and, once the window
    is full, drops the oldest point. *)
Theorem dataWindow_sliding :
  forall (history : list HistoryItem) (item : HistoryItem),
    List.length (dataWindow history) = Nat.min (List.length history) 20 /\
    (exists older, history = (older ++ dataWindow history)%list) /\
    dataWindow (history ++ [item])
    = ((if (List.length history <? 20)%nat then dataWindow history
        else tl (dataWindow history)) ++ [item])%list.
Proof.
  intros history item; unfold dataWindow; split; [| split].
  - rewrite length_skipn; lia.
  - exists (firstn (List.length history - 20) history).
    symmetry; apply firstn_skipn.
  - rewrite length_app; simpl.
    destruct (List.length history <? 20)%nat eqn:E.
    + apply Nat.ltb_lt in E.
      replace (List.length history + 1 - 20)%nat with 0%nat by lia.
      replace (List.length history - 20)%nat with 0%nat by lia.
      reflexivity.
    + apply Nat.ltb_ge in E.
      rewrite tl_skipn.
      replace (List.length history + 1 - 20)%nat
        with (S (List.length history - 20)) by lia.
      rewrite skipn_app.
      replace (S (List.length history - 20) - List.length history)%nat
        with 0%nat by lia.
      reflexivity.
Qed.

End TimelineFacts.

Section TimelineScales.
Import App Spec Timeline Examples MoreExamples.

Lemma stronglySorted_skipn {A} (R : A -> A -> Prop) (k : nat) : forall l,
  StronglySorted R l -> StronglySorted R (skipn k l).
Proof.
  induction k as [| k IH]; intros l H; simpl; [exact H |].
  destruct l as [| a l]; [constructor |].
  inversion H; subst; apply IH; assumption.
Qed.

Lemma last_cons_default {A} (l : list A) : forall a d d',
  last (a :: l) d = last (a :: l) d'.
Proof.
  induction l as [| b l IH]; intros a d d'; [reflexivity |].
  change (last (a :: b :: l) d) with (last (b :: l) d).
  change (last (a :: b :: l) d') with (last (b :: l) d').
  apply IH.
Qed.

Lemma sorted_between (first : HistoryItem) (rest : list HistoryItem) :
  StronglySorted Z.le (timestamps (first :: rest)) ->
  forall item, In item (first :: rest) ->
    timestamp first <= timestamp item <= timestamp (last (first :: rest) first).
Proof.
  revert first; induction rest as [| b rest IH]; intros first Hs item Hin.
  - destruct Hin as [<- | []]; simpl; lia.
  - unfold timestamps in Hs; simpl in Hs.
    inversion Hs as [| x xs Hs' Hall]; subst.
    inversion Hall as [| y ys Hfb Hall']; subst.
    assert (Hlast : last (first :: b :: rest) first = last (b :: rest) b)
      by (change (last (first :: b :: rest) first) with (last (b :: rest) first);
          apply last_cons_default).
    rewrite Hlast.
    assert (Hb := IH b Hs').
    destruct Hin as [<- | Hin].
    + split; [lia |]. specialize (Hb b (or_introl eq_refl)). lia.
    + specialize (Hb item Hin). split; [| lia].
      assert (Hx : In (timestamp item) (map timestamp (b :: rest))) by (apply in_map, Hin).
      rewrite Forall_forall in Hall. simpl in Hall. 
      specialize (Hall (timestamp item)). simpl in Hx. apply Hall. exact Hx.
Qed.


(** X2. In every reachable state for which the graph is drawn (at least two
    points in the window), the time scale is well defined: the first point
    is the earliest and the last the latest, the range the offsets are
    divided by is positive, and every point's offset lies between 0 and the
    range. *)
Theorem graph_time_scale :
  forall (t : Z) (es : list Event) (scale : TimeScale),
    timeScale (dataWindow (history (st (run (mount t) es)))) = Some scale ->
    minTime scale <= maxTime scale /\
    0 < timeRange scale /\
    (forall item,
        In item (dataWindow (history (st (run (mount t) es)))) ->
        0 <= timestamp item - minTime scale <= timeRange scale).
Proof.
  intros t es scale Hscale.
  assert (Hs : StronglySorted Z.le
                 (timestamps (dataWindow (history (st (run (mount t) es)))))).
  { unfold timestamps, dataWindow; rewrite <- skipn_map.
    apply stronglySorted_skipn.
    apply (ledger_sorted_run es (mount t)); split; constructor. }
  unfold timeScale in Hscale.
  destruct (List.length (dataWindow (history (st (run (mount t) es)))) <? 2)%nat;
    [discriminate |].
  destruct (dataWindow (history (st (run (mount t) es)))) as [| first rest];
    [discriminate |].
  inversion Hscale; subst scale; clear Hscale; cbn [minTime maxTime timeRange].
  pose proof (sorted_between first rest Hs) as Hb.
  assert (Hfl : timestamp first <= timestamp (last (first :: rest) first))
    by (apply (Hb first); left; reflexivity).
  assert (Hr : timestamp (last (first :: rest) first) - timestamp first
               <= orOne (timestamp (last (first :: rest) first) - timestamp first) /\
               0 < orOne (timestamp (last (first :: rest) first) - timestamp first)).
  { unfold orOne.
    destruct (timestamp (last (first :: rest) first) - timestamp first =? 0) eqn:E;
      [apply Z.eqb_eq in E | apply Z.eqb_neq in E]; lia. }
  split; [exact Hfl | split; [apply Hr |]].
  intros item Hin; specialize (Hb item Hin).
  change (0 <= timestamp item - timestamp first
          <= orOne (timestamp (last (first :: rest) first) - timestamp first)).
  lia.
Qed.

Lemma graph_time_scale_witness :
  minTime {| minTime := 3500; maxTime := 9000; timeRange := 5500 |}
  <= maxTime {| minTime := 3500; maxTime := 9000; timeRange := 5500 |} /\
  0 < timeRange {| minTime := 3500; maxTime := 9000; timeRange := 5500 |}.
Proof.
  destruct (graph_time_scale 0 twoAnalyses
              {| minTime := 3500; maxTime := 9000; timeRange := 5500 |}
              ltac:(vm_compute; reflexivity)) as (H1 & H2 & _).
  split; [exact H1 | exact H2].
Defined.

(** X3. The status scale puts NORMAL, WARNING and CRITICAL at y = 140, 80
    and 20 of the 160-high drawing, so a more severe status is always drawn
    strictly higher. *)
Theorem status_scale_levels :
  forall s1 s2 : ExperimentStatus,
    yScaleStatus (getStatusValue s1)
    = match s1 with
      | NORMAL => ofInt 140
      | WARNING => ofInt 80
      | CRITICAL => ofInt 20
      end /\
    (SFltb (getStatusValue s1) (getStatusValue s2) = true ->
     SFltb (yScaleStatus (getStatusValue s2)) (yScaleStatus (getStatusValue s1)) = true) /\
    SFleb (ofInt 0) (yScaleStatus (getStatusValue s1)) = true /\
    SFleb (yScaleStatus (getStatusValue s1)) height = true.
Proof.
  intros s1 s2; split; [| split; [| split]].
  - destruct s1; vm_compute; reflexivity.
  - destruct s1, s2; vm_compute; intros H; congruence.
  - destruct s1; vm_compute; reflexivity.
  - destruct s1; vm_compute; reflexivity.
Qed.

Lemma status_scale_levels_witness :
  SFltb (yScaleStatus (getStatusValue CRITICAL)) (yScaleStatus (getStatusValue NORMAL))
  = true.
Proof.
  apply (proj1 (proj2 (status_scale_levels NORMAL CRITICAL))).
  vm_compute; reflexivity.
Defined.

Lemma stronglySorted_ge_snoc (l : list Z) (y : Z) :
  StronglySorted Z.ge l -> Forall (fun x => x >= y) l ->
  StronglySorted Z.ge (l ++ [y]).
Proof.
  induction 1 as [| x l Hs IH Hx]; intros Hy; simpl.
  - constructor; constructor.
  - inversion Hy; subst.
    constructor; [apply IH; assumption |].
    apply Forall_app; split; [assumption | constructor; [assumption | constructor]].
Qed.

Lemma stronglySorted_rev (l : list Z) :
  StronglySorted Z.le l -> StronglySorted Z.ge (rev l).
Proof.
  induction 1 as [| x l Hs IH Hx]; simpl; [constructor |].
  apply stronglySorted_ge_snoc; [exact IH |].
  apply Forall_rev. eapply Forall_impl; [| exact Hx]. simpl; intros; lia.
Qed.

(** X4. The log panel lists the ledger newest first: a successful
    completion puts its entry on top of the rows that were there, and in
    every reachable state the rows are in non-increasing order of time. *)
Theorem logs_newest_first :
  (forall (w : World) (id : nat) (r : AnalysisResult) (c : Cycle),
      findCycle id w = Some c -> cy_stage c = AwaitingClient ->
      logs (history (st (step w (ClientResolved id r))))
      = {| timestamp := now w; Types.telemetry := telemetry (cy_snap c);
           Types.analysis := r |} :: logs (history (st w))) /\
  (forall (t : Z) (es : list Event),
      StronglySorted Z.ge (timestamps (logs (history (st (run (mount t) es)))))).
Proof.
  split.
  - intros w id r c Hf Hs; unfold logs.
    rewrite step_history; unfold ledgerAfter; rewrite Hf, Hs.
    rewrite rev_app_distr; reflexivity.
  - intros t es; unfold logs, timestamps; rewrite map_rev.
    apply stronglySorted_rev.
    apply (ledger_sorted_run es (mount t)); split; constructor.
Qed.

Lemma logs_newest_first_witness :
  logs (history (st (step (run (mount 0) oneAnalysis) (ClientResolved 0 normal))))
  = {| timestamp := now (run (mount 0) oneAnalysis);
       Types.telemetry := telemetry initialState;
       Types.analysis := normal |} :: logs (history (st (run (mount 0) oneAnalysis))).
Proof.
  exact (proj1 logs_newest_first (run (mount 0) oneAnalysis) 0%nat normal
           {| cy_id := 0;
              cy_snap := st (run (mount 0)
                               [ContextTyped "test"; FileChosen (Some photo);
                                ReaderLoadEnd 0; ClockAdvance 1000]);
              cy_stage := AwaitingClient |}
           ltac:(vm_compute; reflexivity) eq_refl).
Defined.

End TimelineScales.

(** ** What the result area shows *)

Section Display.
Import App Spec Laws Examples MoreExamples.

Lemma display_idle : display idle.
Proof. split; [reflexivity | intros text H; discriminate H]. Qed.

Lemma display_catch message s : display (analysis (handleAnalyze_catch message s)).
Proof.
  unfold display, handleAnalyze_catch; simpl; split; [intros H; discriminate H |].
  intros text H; repeat split.
  unfold JS.or_else in H.
  destruct (JS.truthy_opt message) eqn:E.
  - subst message; exact E.
  - inversion H; reflexivity.
Qed.

Lemma busyOp_consistent w w' : busyOp w w' -> displayConsistent w -> displayConsistent w'.
Proof.
  intros Hop [Hd Hp]; destruct Hop as [Ha Hn | Hl Hd' | Ha Hn]; split.
  - rewrite Ha; exact Hd.
  - rewrite Ha; intros H; apply Hn, Hp, H.
  - exact Hd'.
  - rewrite Hl; discriminate.
  - rewrite Ha; split; [reflexivity | intros text H; discriminate H].
  - intros _; exact Hn.
Qed.

Lemma handleAnalyze_busyOp snap manual w : busyOp w (handleAnalyze snap manual w).
Proof.
  unfold handleAnalyze, enablePreprocessing.
  destruct (imageToAnalyze snap manual w) as [image |];
    [| apply busy_same; [reflexivity | intros H; exact H]].
  destruct (JS.truthy image && JS.truthy (context snap)).
  - apply busy_start; [reflexivity |].
    simpl; destruct (pending w); discriminate.
  - apply busy_same; [reflexivity | intros H; exact H].
Qed.

Lemma setStage_nonempty id stage w : pending w <> [] -> pending (setStage id stage w) <> [].
Proof. unfold setStage; simpl; destruct (pending w); [congruence | discriminate]. Qed.

Lemma handleAnalyze_call_busyOp c final w : busyOp w (handleAnalyze_call c final w).
Proof.
  unfold handleAnalyze_call.
  destruct (JS.split final ","%char) as [| a [| b [| x l]]];
    try (apply busy_done; [reflexivity | apply display_catch]).
  apply busy_same; [reflexivity | apply setStage_nonempty].
Qed.

Lemma ensureBase64_busyOp c url w : busyOp w (ensureBase64 c url w).
Proof.
  unfold ensureBase64; destruct (JS.startsWith url "data:").
  - apply handleAnalyze_call_busyOp.
  - apply busy_same; [reflexivity | apply setStage_nonempty].
Qed.

Lemma handle_busyOp w e : busyOp w (handle e w).
Proof.
  destruct e;
    try (apply busy_same; [handler_cases | handler_cases; intros H; exact H]; fail).
  - (* AnalyzeClick *)
    simpl; destruct (analyzeDisabled (st w));
      [apply busy_same; [reflexivity | intros H; exact H] | apply handleAnalyze_busyOp].
  - (* FileChosen *)
    simpl; destruct (inputMode (st w)); [| apply busy_same; auto].
    unfold handleFileChange.
    destruct file as [f |]; [| apply busy_same; auto].
    apply busy_done;
      destruct (JS.truthy_opt (videoFileSrc (st w))), (JS.startsWith (file_type f) "video/");
      simpl; try reflexivity; apply display_idle.
  - (* GallerySelect *)
    apply busy_done; [reflexivity | apply display_idle].
  - (* MonitorTick *)
    simpl; unfold monitorTick.
    destruct (monitoringInterval w) as [snap |]; [| apply busy_same; auto].
    destruct (negb (isLoading (analysis snap)));
      [apply handleAnalyze_busyOp | apply busy_same; auto].
  - (* PreprocessSettled *)
    simpl; unfold handleAnalyze_preprocessed.
    destruct (findCycle id w) as [c |]; [| apply busy_same; auto].
    destruct (cy_stage c); try (apply busy_same; auto; fail).
    apply ensureBase64_busyOp.
  - (* FetchSettled *)
    simpl; unfold handleAnalyze_fetched.
    destruct (findCycle id w) as [c |]; [| apply busy_same; auto].
    destruct (cy_stage c); try (apply busy_same; auto; fail).
    destruct o; try (apply busy_done; [reflexivity | apply display_catch]).
    apply handleAnalyze_call_busyOp.
  - (* ClientResolved *)
    simpl; unfold handleAnalyze_resolved.
    destruct (findCycle id w) as [c |]; [| apply busy_same; auto].
    destruct (cy_stage c); try (apply busy_same; auto; fail).
    apply busy_done; [reflexivity |].
    split; [intros H; discriminate H | intros text H; discriminate H].
  - (* ClientRejected *)
    simpl; unfold handleAnalyze_rejected.
    destruct (findCycle id w) as [c |]; [| apply busy_same; auto].
    destruct (cy_stage c); try (apply busy_same; auto; fail).
    apply busy_done; [reflexivity | apply display_catch].
Qed.

Lemma monitorEffect_busyOp snap w : busyOp w (monitorEffect snap w).
Proof.
  unfold monitorEffect.
  destruct (isAutoMonitoring snap && canMonitor snap);
    [| apply busy_same; [reflexivity | intros H; exact H]].
  destruct (handleAnalyze_busyOp snap None w) as [Ha Hn | Hl Hd | Ha Hn].
  - apply busy_same; assumption.
  - apply busy_done; assumption.
  - apply busy_start; assumption.
Qed.

Lemma busyOp_from w w1 w2 :
  analysis (st w1) = analysis (st w) -> pending w1 = pending w ->
  busyOp w1 w2 -> busyOp w w2.
Proof.
  intros Ha Hp [Ha' Hn | Hl Hd | Ha' Hn].
  - apply busy_same; [congruence | rewrite <- Hp; exact Hn].
  - apply busy_done; assumption.
  - apply busy_start; [congruence | exact Hn].
Qed.

Lemma render_busyOp prev w : busyOp w (render prev w).
Proof.
  unfold render, monitorCleanup, cameraCleanup, clearMonitoringInterval.
  set (snap := st w).
  set (w0 := commitDom prev snap w).
  destruct (negb (cameraDeps_eqb prev snap)), (negb (monitorDeps_eqb prev snap)).
  - destruct (cameraEffect_loopFrame snap (with_monitoringInterval None (stopCamera w0)))
      as [_ Hp1 _ _ Ha1].
    destruct (stopCamera_loopFrame w0) as [_ Hp2 _ _ Ha2].
    eapply busyOp_from; [| | apply monitorEffect_busyOp]; simpl in *; congruence.
  - destruct (cameraEffect_loopFrame snap (stopCamera w0)) as [_ Hp1 _ _ Ha1].
    destruct (stopCamera_loopFrame w0) as [_ Hp2 _ _ Ha2].
    apply busy_same; simpl in *; congruence.
  - apply (busyOp_from w (with_monitoringInterval None w0));
      [reflexivity | reflexivity | apply monitorEffect_busyOp].
  - apply busy_same; [reflexivity | intros H; exact H].
Qed.

Lemma step_displayConsistent w e : displayConsistent w -> displayConsistent (step w e).
Proof.
  intros H; unfold step.
  eapply busyOp_consistent; [apply render_busyOp |].
  eapply busyOp_consistent; [apply render_busyOp |].
  eapply busyOp_consistent; [apply handle_busyOp | exact H].
Qed.

(** X5. In every reachable state the result area is consistent: no error is
    shown while an analysis is loading, an error is never shown together
    with a result, a published error text is never empty (so the error box
    is rendered), and the loading overlay is on only while some analysis
    cycle is suspended. *)
Theorem display_is_consistent :
  forall (t : Z) (es : list Event),
    (isLoading (analysis (st (run (mount t) es))) = true ->
     error (analysis (st (run (mount t) es))) = None /\
     pending (run (mount t) es) <> []) /\
    (forall text,
        error (analysis (st (run (mount t) es))) = Some text ->
        result (analysis (st (run (mount t) es))) = None /\
        isLoading (analysis (st (run (mount t) es))) = false /\
        JS.truthy text = true).
Proof.
  intros t es.
  assert (H : displayConsistent (run (mount t) es)).
  { apply (run_invariant displayConsistent); [apply step_displayConsistent |].
    split; [apply display_idle | intros H; discriminate H]. }
  destruct H as [[Hl He] Hp].
  split; [intros H; split; [apply Hl, H | apply Hp, H] | exact He].
Qed.

Lemma display_is_consistent_witness :
  error (analysis (st (run (mount 0) oneAnalysis))) = None /\
  pending (run (mount 0) oneAnalysis) <> [] /\
  result (analysis (st (run (mount 0) (oneAnalysis ++ [ClientRejected 0 None]))))
  = None.
Proof.
  destruct (proj1 (display_is_consistent 0 oneAnalysis) ltac:(vm_compute; reflexivity))
    as [He Hp].
  destruct (proj2 (display_is_consistent 0 (oneAnalysis ++ [ClientRejected 0 None]))
              "An unexpected error occurred." ltac:(vm_compute; reflexivity))
    as (Hr & _).
  split; [exact He | split; [exact Hp | exact Hr]].
Defined.

End Display.

(** ** The video elements in the tree *)

Section ShapeFacts.
Import App Spec Outcome Shape.

Lemma shapeFrame_refl w : shapeFrame w w.
Proof. constructor; reflexivity. Qed.

Lemma shapeFrame_trans w1 w2 w3 :
  shapeFrame w1 w2 -> shapeFrame w2 w3 -> shapeFrame w1 w3.
Proof.
  intros [a1 b1 c1 d1 e1] [a2 b2 c2 d2 e2]; constructor; try congruence.
  rewrite a1; exact a2.
Qed.

Lemma stopCamera_shapeFrame w : shapeFrame w (stopCamera w).
Proof.
  unfold stopCamera.
  destruct (webcamRef w) as [el |] eqn:E; [| apply shapeFrame_refl].
  destruct (srcObject el); constructor; simpl; try reflexivity;
    rewrite E; split; intros H; discriminate H.
Qed.

Lemma cameraEffect_shapeFrame snap w : shapeFrame w (cameraEffect snap w).
Proof.
  unfold cameraEffect, startCamera.
  destruct (inputMode snap); [| constructor; reflexivity].
  destruct (uploadType snap) as [[] |];
    try apply stopCamera_shapeFrame;
    (apply (shapeFrame_trans _ (stopCamera w)); [apply stopCamera_shapeFrame |]);
    constructor; reflexivity.
Qed.

Lemma handleAnalyze_shapeFrame snap manual w : shapeFrame w (handleAnalyze snap manual w).
Proof.
  unfold handleAnalyze, enablePreprocessing.
  destruct (imageToAnalyze snap manual w) as [image |]; [| constructor; reflexivity].
  destruct (JS.truthy image && JS.truthy (context snap)); constructor; reflexivity.
Qed.

Lemma monitorEffect_shapeFrame snap w : shapeFrame w (monitorEffect snap w).
Proof.
  unfold monitorEffect.
  destruct (isAutoMonitoring snap && canMonitor snap).
  - apply (shapeFrame_trans _ (handleAnalyze snap None w));
      [apply handleAnalyze_shapeFrame | constructor; reflexivity].
  - constructor; reflexivity.
Qed.

Lemma src_eqb_refl a : src_eqb a a = true.
Proof. destruct a as [x |]; [apply String.eqb_refl | reflexivity]. Qed.

Lemma commitDom_settled prev snap w :
  inputMode (st w) = inputMode snap -> uploadType (st w) = uploadType snap ->
  videoFileSrc (st w) = videoFileSrc snap ->
  domSettled (commitDom prev snap w).
Proof.
  intros Hi Hu Hv; unfold domSettled.
  destruct w as [s wr fr lt mi pc pr pe ca cy al no ni]; simpl in *.
  unfold commitDom, fileVideoShown; simpl.
  rewrite Hi, Hu, Hv, src_eqb_refl.
  destruct (inputMode snap), wr as [el |],
    (InputMode_eqb _ UPLOAD && UploadType_eqb (uploadType snap) (Some VIDEO)
     && JS.truthy_opt (videoFileSrc snap)), fr as [fel |];
    try reflexivity;
    destruct (src_eqb (videoFileSrc prev) (videoFileSrc snap)); reflexivity.
Qed.

Lemma domSettled_iff w :
  domSettled w <->
  (webcamRef w = None <-> inputMode (st w) = UPLOAD) /\
  (fileVideoRef w = None <-> fileVideoShown (st w) = false).
Proof.
  unfold domSettled, commitDom; rewrite src_eqb_refl.
  destruct w as [s wr fr lt mi pc pr pe ca cy al no ni]; simpl.
  destruct (inputMode s), wr as [el |], (fileVideoShown s), fr as [fel |];
    (split;
     [intros H; try discriminate H; repeat split; intros H'; congruence
     | intros [[H1 H2] [H3 H4]]; try reflexivity;
       try (discriminate (H1 eq_refl)); try (discriminate (H2 eq_refl));
       try (discriminate (H3 eq_refl)); try (discriminate (H4 eq_refl))]).
Qed.

Lemma shapeFrame_settled w w' : shapeFrame w w' -> domSettled w -> domSettled w'.
Proof.
  intros [Hw Hf Hi Hu Hv]; rewrite !domSettled_iff.
  unfold fileVideoShown; rewrite Hi, Hu, Hv, Hf, <- Hw; intros H; exact H.
Qed.

Lemma render_settled prev w : domSettled (render prev w).
Proof.
  unfold render, monitorCleanup, cameraCleanup, clearMonitoringInterval.
  set (snap := st w).
  assert (H0 : domSettled (commitDom prev snap w))
    by (apply commitDom_settled; reflexivity).
  assert (Hclear : forall x, shapeFrame x (with_monitoringInterval None x))
    by (intros x; constructor; reflexivity).
  destruct (negb (cameraDeps_eqb prev snap)), (negb (monitorDeps_eqb prev snap)).
  - eapply shapeFrame_settled; [apply monitorEffect_shapeFrame |].
    eapply shapeFrame_settled; [apply cameraEffect_shapeFrame |].
    eapply shapeFrame_settled; [apply Hclear |].
    eapply shapeFrame_settled; [apply stopCamera_shapeFrame | exact H0].
  - eapply shapeFrame_settled; [apply cameraEffect_shapeFrame |].
    eapply shapeFrame_settled; [apply stopCamera_shapeFrame | exact H0].
  - eapply shapeFrame_settled; [apply monitorEffect_shapeFrame |].
    eapply shapeFrame_settled; [apply Hclear | exact H0].
  - exact H0.
Qed.

Lemma run_settled t es : domSettled (run (mount t) es).
Proof.
  apply (run_invariant domSettled).
  - intros w e _; unfold step; apply render_settled.
  - unfold mount; apply render_settled.
Qed.

End ShapeFacts.

(** ** Edits, the toggle and the timer *)

Section Rearm.
Import App Spec Outcome Shape Examples Scenarios.

Lemma commitDom_same prev w1 w :
  domSettled w ->
  webcamRef w1 = webcamRef w -> fileVideoRef w1 = fileVideoRef w ->
  inputMode (st w1) = inputMode (st w) -> uploadType (st w1) = uploadType (st w) ->
  videoFileSrc (st w1) = videoFileSrc (st w) ->
  videoFileSrc prev = videoFileSrc (st w) ->
  commitDom prev (st w1) w1 = w1.
Proof.
  unfold domSettled, commitDom, fileVideoShown.
  intros H Hw Hf Hi Hu Hv Hp; rewrite Hw, Hf, Hi, Hu, Hv, Hp.
  destruct w as [s wr fr lt mi pc pr pe ca cy al no ni];
    destruct w1 as [s1 wr1 fr1 lt1 mi1 pc1 pr1 pe1 ca1 cy1 al1 no1 ni1];
    simpl in *; subst wr1 fr1.
  injection H as H1 H2; rewrite H1, H2; reflexivity.
Qed.

Lemma handleAnalyze_skips snap manual w :
  imageToAnalyze snap manual w = None \/ JS.truthy (context snap) = false ->
  untouched w (handleAnalyze snap manual w).
Proof.
  intros H; unfold untouched, handleAnalyze.
  destruct (imageToAnalyze snap manual w) as [image |]; [| repeat split].
  destruct H as [H | H]; [discriminate H |].
  rewrite H, andb_false_r; repeat split.
Qed.

(** An event that only sets state, keeps the source and changes a
    dependency of the monitoring effect: the effect is cleaned up and runs
    again in the new render. *)
Lemma rearm_step w e f :
  domSettled w ->
  handle e w = updateState f w ->
  inputMode (f (st w)) = inputMode (st w) ->
  uploadType (f (st w)) = uploadType (st w) ->
  videoFileSrc (f (st w)) = videoFileSrc (st w) ->
  monitorDeps (f (st w)) <> monitorDeps (st w) ->
  step w e
  = monitorEffect (f (st w)) (with_monitoringInterval None (updateState f w)).
Proof.
  intros Hs He Hi Hu Hv Hd.
  unfold step; rewrite He.
  set (w1 := updateState f w).
  assert (Hcam : cameraDeps_eqb (st w) (st w1) = true)
    by (unfold cameraDeps_eqb; simpl; rewrite Hi; apply InputMode_eqb_refl).
  assert (Hmon : monitorDeps_eqb (st w) (st w1) = false).
  { destruct (monitorDeps_eqb (st w) (st w1)) eqn:E; [| reflexivity].
    apply monitorDeps_eqb_eq in E; exfalso; apply Hd; symmetry; exact E. }
  assert (Hc1 : commitDom (st w) (st w1) w1 = w1)
    by (apply (commitDom_same _ _ w); try assumption; reflexivity).
  assert (E2 : render (st w) w1
               = monitorEffect (st w1) (with_monitoringInterval None w1)).
  { unfold render; cbv zeta; rewrite Hcam, Hmon; cbn [negb].
    unfold monitorCleanup, clearMonitoringInterval; rewrite Hc1; reflexivity. }
  rewrite E2.
  set (w2 := monitorEffect (st w1) (with_monitoringInterval None w1)).
  assert (Hf : effectFrame (with_monitoringInterval None w1) w2)
    by apply monitorEffect_effectFrame.
  assert (Hsf : shapeFrame (with_monitoringInterval None w1) w2)
    by apply monitorEffect_shapeFrame.
  assert (Ha : isAutoMonitoring (st w2) = isAutoMonitoring (st w1))
    by exact (monitorEffect_isAutoMonitoring (st w1) (with_monitoringInterval None w1)).
  rewrite render_idle.
  - assert (Hset : domSettled w2).
    { apply (shapeFrame_settled _ _ Hsf).
      exact (commitDom_same _ (with_monitoringInterval None w1) w
               Hs eq_refl eq_refl Hi Hu Hv Hv). }
    apply (commitDom_same _ _ w2); try assumption; try reflexivity.
    destruct Hf; simpl in *; congruence.
  - unfold cameraDeps_eqb; apply InputMode_eqb_eq.
    destruct Hf; simpl in *; congruence.
  - apply monitorDeps_eqb_eq; unfold monitorDeps.
    destruct Hf; simpl in *; congruence.
Qed.


Lemma run_gated t es :
  gated (st (run (mount t) es)) /\ intervalCurrent (run (mount t) es).
Proof.
  apply (run_invariant (fun w => gated (st w) /\ intervalCurrent w)).
  - intros w e [Hg Hi]; split; [apply step_gated, Hg | apply step_intervalCurrent, Hi].
  - apply mount_gated.
Qed.

(** The outcome of the monitoring effect when it runs again after such an
    event. *)
Lemma rearm_outcome w e f :
  domSettled w ->
  handle e w = updateState f w ->
  inputMode (f (st w)) = inputMode (st w) ->
  uploadType (f (st w)) = uploadType (st w) ->
  videoFileSrc (f (st w)) = videoFileSrc (st w) ->
  analysis (f (st w)) = analysis (st w) ->
  history (f (st w)) = history (st w) ->
  monitorDeps (f (st w)) <> monitorDeps (st w) ->
  isAutoMonitoring (f (st w)) = true -> canMonitor (st w) = true ->
  monitoringInterval (step w e) = Some (f (st w)) /\
  isAutoMonitoring (st (step w e)) = true /\
  context (st (step w e)) = context (f (st w)) /\
  thinkingLevel (st (step w e)) = thinkingLevel (f (st w)) /\
  (forall image,
      captureFrame (st w) w = Some image ->
      JS.truthy image = true -> JS.truthy (context (f (st w))) = true ->
      started (f (st w)) image w (step w e)) /\
  (captureFrame (st w) w = None \/ JS.truthy (context (f (st w))) = false ->
   untouched w (step w e)).
Proof.
  intros Hs He Hi Hu Hv Han Hhi Hd Ha Hc.
  rewrite (rearm_step w e f Hs He Hi Hu Hv Hd).
  set (x := with_monitoringInterval None (updateState f w)).
  assert (Hcan : canMonitor (f (st w)) = true)
    by (unfold canMonitor in *; rewrite Hi, Hu; exact Hc).
  assert (Himg : imageToAnalyze (f (st w)) None x = captureFrame (st w) w).
  { unfold imageToAnalyze, captureFrame, sourceVideo; rewrite Hi, Hu.
    unfold canMonitor in Hc.
    destruct (inputMode (st w)); [| reflexivity].
    destruct (uploadType (st w)) as [[] |]; try reflexivity; discriminate Hc. }
  unfold monitorEffect; rewrite Ha, Hcan; cbn [andb].
  set (y := handleAnalyze (f (st w)) None x).
  assert (Hy : isAutoMonitoring (st y) = true)
    by (unfold y; rewrite handleAnalyze_isAutoMonitoring; exact Ha).
  destruct (handleAnalyze_effectFrame (f (st w)) None x)
    as [_ _ _ Hctx Hlvl _ _ _ _ _ _ _].
  fold y in Hctx, Hlvl.
  split; [reflexivity |].
  split; [exact Hy |].
  split; [exact Hctx | split; [exact Hlvl |]].
  split.
  - intros image Hcap Ht Htc.
    destruct (handleAnalyze_started (f (st w)) None x image) as (Hp & Hn & Hcl & Hst);
      try assumption; [congruence |].
    fold y in Hp, Hn, Hcl, Hst.
    split; [exact Hp | split; [exact Hn | split; [exact Hcl |]]].
    change (analysis (st y)
            = {| isLoading := true; result := result (analysis (st w));
                 error := None |}).
    rewrite Hst; change (analysis (st x)) with (analysis (f (st w)));
      rewrite Han; reflexivity.
  - intros Hno.
    destruct (handleAnalyze_skips (f (st w)) None x) as (Hp & Hcl & Hn & Hst & Hh).
    { destruct Hno as [Hno | Hno]; [left; congruence | right; exact Hno]. }
    fold y in Hp, Hn, Hcl, Hst, Hh.
    split; [exact Hp | split; [exact Hcl | split; [exact Hn | split]]].
    + change (analysis (st y) = analysis (st w)).
      rewrite Hst; exact Han.
    + change (history (st y) = history (st w)).
      rewrite Hh; exact Hhi.
Qed.

Lemma ThinkingLevel_eqb_false a b : ThinkingLevel_eqb a b = false -> a <> b.
Proof. intros H E; subst; destruct b; discriminate H. Qed.

(** X6. With auto-monitoring on, every edit of the context and every change
    of the thinking level re-creates the timer with the edited render and
    invokes [handleAnalyze] at once, whether or not an analysis is loading:
    with a frame at hand and a context, a new cycle starts with the edit;
    otherwise nothing of an analysis happens. *)
Theorem edit_restarts_monitoring :
  forall (t : Z) (es : list Event) (e : Event) (snap : State),
    isAutoMonitoring (st (run (mount t) es)) = true ->
    edited e (st (run (mount t) es)) = Some snap ->
    monitoringInterval (step (run (mount t) es) e) = Some snap /\
    context (st (step (run (mount t) es) e)) = context snap /\
    thinkingLevel (st (step (run (mount t) es) e)) = thinkingLevel snap /\
    (forall image,
        captureFrame (st (run (mount t) es)) (run (mount t) es) = Some image ->
        JS.truthy image = true -> JS.truthy (context snap) = true ->
        started snap image (run (mount t) es) (step (run (mount t) es) e)) /\
    (captureFrame (st (run (mount t) es)) (run (mount t) es) = None \/
     JS.truthy (context snap) = false ->
     untouched (run (mount t) es) (step (run (mount t) es) e)).
Proof.
  intros t es e snap Ha He.
  pose proof (run_settled t es) as Hs.
  destruct (run_gated t es) as [Hg _].
  assert (Hc : canMonitor (st (run (mount t) es)) = true) by (apply Hg, Ha).
  generalize dependent (run (mount t) es); intros w Ha He Hs Hg Hc.
  destruct e; try discriminate He; simpl in He.
  - destruct (String.eqb text (context (st w))) eqn:E; [discriminate He |].
    injection He as <-.
    apply String.eqb_neq in E.
    destruct (rearm_outcome w (ContextTyped text) (setContext text))
      as (H1 & _ & H2 & H3 & H4 & H5); try reflexivity; try assumption; try exact Ha.
    + unfold monitorDeps; simpl; intros H; injection H as H; congruence.
    + split; [exact H1 | split; [exact H2 | split; [exact H3 | split; [exact H4 | exact H5]]]].
  - destruct (ThinkingLevel_eqb level (thinkingLevel (st w))) eqn:E; [discriminate He |].
    injection He as <-.
    apply ThinkingLevel_eqb_false in E.
    destruct (rearm_outcome w (ThinkingLevelPicked level) (setThinkingLevel level))
      as (H1 & _ & H2 & H3 & H4 & H5); try reflexivity; try assumption; try exact Ha.
    + unfold monitorDeps; simpl; intros H; injection H as H; congruence.
    + split; [exact H1 | split; [exact H2 | split; [exact H3 | split; [exact H4 | exact H5]]]].
Qed.


Lemma edit_restarts_monitoring_witness :
  started (setContext "pH" (st (run (mount 0) cameraReady))) jpegA
    (run (mount 0) cameraReady) (step (run (mount 0) cameraReady) (ContextTyped "pH")).
Proof.
  exact (proj1 (proj2 (proj2 (proj2
           (edit_restarts_monitoring 0 cameraReady (ContextTyped "pH")
              (setContext "pH" (st (run (mount 0) cameraReady)))
              ltac:(vm_compute; reflexivity) ltac:(vm_compute; reflexivity)))))
           jpegA ltac:(vm_compute; reflexivity) ltac:(vm_compute; reflexivity)
           ltac:(vm_compute; reflexivity)).
Defined.

(** In a settled tree with no interval, a tick changes nothing at all. *)
Lemma tick_without_interval w :
  domSettled w -> monitoringInterval w = None -> step w MonitorTick = w.
Proof.
  intros Hs Hi.
  assert (E : handle MonitorTick w = w)
    by (simpl; unfold monitorTick; rewrite Hi; reflexivity).
  rewrite step_idle; rewrite E; [| reflexivity].
  unfold domSettled in Hs; rewrite Hs; exact Hs.
Qed.

(** X7. The monitoring toggle pauses and resumes the loop.  Turning it off
    clears the timer and starts nothing; from then on, in every reachable
    state with auto-monitoring off, a tick changes nothing.  Turning it on
    creates the timer with the render of the click and invokes
    [handleAnalyze] at once: with a frame at hand and a context a cycle
    starts with the click, otherwise nothing of an analysis happens. *)
Theorem toggle_pauses_and_resumes :
  forall (t : Z) (es : list Event),
    (isAutoMonitoring (st (run (mount t) es)) = false ->
     step (run (mount t) es) MonitorTick = run (mount t) es) /\
    (isMonitoringCapable (st (run (mount t) es)) = true ->
     isAutoMonitoring (st (run (mount t) es)) = true ->
     isAutoMonitoring (st (step (run (mount t) es) MonitoringToggleClick)) = false /\
     monitoringInterval (step (run (mount t) es) MonitoringToggleClick) = None /\
     untouched (run (mount t) es) (step (run (mount t) es) MonitoringToggleClick)) /\
    (isMonitoringCapable (st (run (mount t) es)) = true ->
     isAutoMonitoring (st (run (mount t) es)) = false ->
     isAutoMonitoring (st (step (run (mount t) es) MonitoringToggleClick)) = true /\
     monitoringInterval (step (run (mount t) es) MonitoringToggleClick)
     = Some (setIsAutoMonitoring true (st (run (mount t) es))) /\
     (forall image,
         captureFrame (st (run (mount t) es)) (run (mount t) es) = Some image ->
         JS.truthy image = true -> JS.truthy (context (st (run (mount t) es))) = true ->
         started (setIsAutoMonitoring true (st (run (mount t) es))) image
           (run (mount t) es) (step (run (mount t) es) MonitoringToggleClick)) /\
     (captureFrame (st (run (mount t) es)) (run (mount t) es) = None \/
      JS.truthy (context (st (run (mount t) es))) = false ->
      untouched (run (mount t) es) (step (run (mount t) es) MonitoringToggleClick))).
Proof.
  intros t es.
  pose proof (run_settled t es) as Hs.
  destruct (run_gated t es) as [_ Hi].
  generalize dependent (run (mount t) es); intros w Hs Hi.
  split; [| split].
  - intros Ha; apply tick_without_interval; [exact Hs |].
    destruct (monitoringInterval w) as [snap |] eqn:E; [| reflexivity].
    destruct (Hi snap E) as (Hd & Hsa & _).
    unfold monitorDeps in Hd; injection Hd as Hd _ _ _ _; congruence.
  - intros Hcap Ha.
    assert (He : handle MonitoringToggleClick w
                 = updateState (setIsAutoMonitoring false) w)
      by (simpl; rewrite Hcap, Ha; reflexivity).
    rewrite (rearm_step w MonitoringToggleClick (setIsAutoMonitoring false) Hs He);
      try reflexivity.
    + unfold monitorEffect; simpl; repeat split.
    + unfold monitorDeps; simpl; rewrite Ha; intros H; discriminate H.
  - intros Hcap Ha.
    assert (He : handle MonitoringToggleClick w
                 = updateState (setIsAutoMonitoring true) w)
      by (simpl; rewrite Hcap, Ha; reflexivity).
    destruct (rearm_outcome w MonitoringToggleClick (setIsAutoMonitoring true))
      as (H1 & H0 & _ & _ & H4 & H5); try reflexivity; try assumption.
    + unfold monitorDeps; simpl; rewrite Ha; intros H; discriminate H.
    + split; [exact H0 | split; [exact H1 | split; [exact H4 | exact H5]]].
Qed.

Lemma toggle_pauses_and_resumes_witness :
  isAutoMonitoring (st (step (run (mount 0) cameraReady) MonitoringToggleClick)) = false /\
  monitoringInterval (step (run (mount 0) cameraReady) MonitoringToggleClick) = None /\
  untouched (run (mount 0) cameraReady)
    (step (run (mount 0) cameraReady) MonitoringToggleClick).
Proof.
  exact (proj1 (proj2 (toggle_pauses_and_resumes 0 cameraReady))
           ltac:(vm_compute; reflexivity) ltac:(vm_compute; reflexivity)).
Defined.

End Rearm.

(** ** Analyses in flight *)

Section NoCancel.
Import App Spec Outcome Shape Laws Examples Scenarios.

Lemma keeps_refl w w' : pending w' = pending w -> keeps w w'.
Proof. intros H; exists []; rewrite app_nil_r; exact H. Qed.

Lemma keeps_trans w1 w2 w3 : keeps w1 w2 -> keeps w2 w3 -> keeps w1 w3.
Proof.
  intros [n1 H1] [n2 H2]; exists (n1 ++ n2)%list.
  rewrite H2, H1, app_assoc; reflexivity.
Qed.

Lemma handleAnalyze_keeps snap manual w : keeps w (handleAnalyze snap manual w).
Proof.
  destruct (handleAnalyze_pending snap manual w) as [[Hp _] | (image & Hp & _)].
  - apply keeps_refl, Hp.
  - eexists; exact Hp.
Qed.

Lemma handle_keeps w e : settles e = false -> keeps w (handle e w).
Proof.
  intros He; destruct e; try discriminate He;
    try (apply keeps_refl; handler_cases; fail).
  - simpl; destruct (analyzeDisabled (st w));
      [apply keeps_refl; reflexivity | apply handleAnalyze_keeps].
  - simpl; unfold monitorTick.
    destruct (monitoringInterval w) as [snap |]; [| apply keeps_refl; reflexivity].
    destruct (negb (isLoading (analysis snap)));
      [apply handleAnalyze_keeps | apply keeps_refl; reflexivity].
Qed.

Lemma monitorEffect_keeps snap w : keeps w (monitorEffect snap w).
Proof.
  unfold monitorEffect.
  destruct (isAutoMonitoring snap && canMonitor snap);
    [| apply keeps_refl; reflexivity].
  apply (keeps_trans _ (handleAnalyze snap None w));
    [apply handleAnalyze_keeps | apply keeps_refl; reflexivity].
Qed.

Lemma loopFrame_keeps w w' : loopFrame w w' -> keeps w w'.
Proof. intros H; apply keeps_refl, (lf_pending _ _ H). Qed.

Lemma render_keeps prev w : keeps w (render prev w).
Proof.
  unfold render, monitorCleanup, cameraCleanup, clearMonitoringInterval.
  set (snap := st w).
  set (w0 := commitDom prev snap w).
  assert (H0 : keeps w w0) by apply loopFrame_keeps, commitDom_loopFrame.
  assert (Hclear : forall x, keeps x (with_monitoringInterval None x))
    by (intros x; apply keeps_refl; reflexivity).
  assert (Hstop : forall x, keeps x (stopCamera x))
    by (intros x; apply loopFrame_keeps, stopCamera_loopFrame).
  assert (Hcam : forall x, keeps x (cameraEffect snap x))
    by (intros x; apply loopFrame_keeps, cameraEffect_loopFrame).
  destruct (negb (cameraDeps_eqb prev snap)), (negb (monitorDeps_eqb prev snap)).
  - eapply keeps_trans; [| apply monitorEffect_keeps].
    eapply keeps_trans; [| apply Hcam].
    eapply keeps_trans; [| apply Hclear].
    eapply keeps_trans; [exact H0 | apply Hstop].
  - eapply keeps_trans; [| apply Hcam].
    eapply keeps_trans; [exact H0 | apply Hstop].
  - eapply keeps_trans; [| apply monitorEffect_keeps].
    eapply keeps_trans; [exact H0 | apply Hclear].
  - exact H0.
Qed.

Lemma step_keeps w e : settles e = false -> keeps w (step w e).
Proof.
  intros He; unfold step.
  eapply keeps_trans; [| apply render_keeps].
  eapply keeps_trans; [apply handle_keeps, He | apply render_keeps].
Qed.

Lemma find_app_some {A} (f : A -> bool) (l l' : list A) (x : A) :
  find f l = Some x -> find f (l ++ l')%list = Some x.
Proof.
  induction l as [| a l IH]; simpl; [discriminate |].
  destruct (f a); [intros H; exact H | exact IH].
Qed.

Lemma keeps_findCycle w w' id c :
  keeps w w' -> findCycle id w = Some c -> findCycle id w' = Some c.
Proof.
  intros [new Hp] Hf; unfold findCycle in *; rewrite Hp.
  apply find_app_some, Hf.
Qed.

(** X8. No user action, timer or device event cancels an analysis in
    flight: after any event other than the settling of asynchronous work of
    a cycle, every suspended call is still suspended, at the same stage and
    closed over the same render.  So the result of a call that was in
    flight when a gallery sample was selected is still published afterwards
    and becomes the first entry of the emptied ledger, under the context of
    the sample. *)
Theorem in_flight_analysis_is_never_cancelled :
  (forall (w : World) (e : Event) (id : nat) (c : Cycle),
      settles e = false -> findCycle id w = Some c ->
      findCycle id (step w e) = Some c) /\
  (forall (w : World) (exp : SampleExperiment) (id : nat) (r : AnalysisResult)
          (c : Cycle),
      findCycle id w = Some c -> cy_stage c = AwaitingClient ->
      context (st (step (step w (GallerySelect exp)) (ClientResolved id r)))
      = exp_context exp /\
      imagePreview (st (step (step w (GallerySelect exp)) (ClientResolved id r)))
      = Some (exp_imageUrl exp) /\
      analysis (st (step (step w (GallerySelect exp)) (ClientResolved id r)))
      = {| isLoading := false; result := Some r; error := None |} /\
      history (st (step (step w (GallerySelect exp)) (ClientResolved id r)))
      = [{| timestamp := now w; Types.telemetry := telemetry (cy_snap c);
            Types.analysis := r |}]).
Proof.
  split.
  - intros w e id c He Hf; apply (keeps_findCycle w); [apply step_keeps, He | exact Hf].
  - intros w exp id r c Hf Hs.
    set (w1 := step w (GallerySelect exp)).
    assert (Hf1 : findCycle id w1 = Some c)
      by (apply (keeps_findCycle w); [apply step_keeps; reflexivity | exact Hf]).
    assert (Hh1 : history (st w1) = []) by (unfold w1; rewrite step_history; reflexivity).
    assert (Hn1 : now w1 = now w) by (unfold w1; rewrite step_now; reflexivity).
    assert (E : handle (ClientResolved id r) w1
                = updateState
                    (fun prev =>
                       setHistory
                         (history prev ++
                          [{| timestamp := now w1;
                              Types.telemetry := telemetry (cy_snap c);
                              Types.analysis := r |}])%list
                         (setAnalysis {| isLoading := false; result := Some r;
                                         error := None |} prev))
                    (dropCycle id w1))
      by (simpl; unfold handleAnalyze_resolved; rewrite Hf1, Hs; reflexivity).
    assert (Hctx : context (st w1) = exp_context exp /\
                   imagePreview (st w1) = Some (exp_imageUrl exp)).
    { unfold w1, step.
      destruct (render_effectFrame (st (handle (GallerySelect exp) w))
                  (render (st w) (handle (GallerySelect exp) w)))
        as [_ _ _ Hc2 _ _ _ _ _ Hp2 _ _].
      destruct (render_effectFrame (st w) (handle (GallerySelect exp) w))
        as [_ _ _ Hc1 _ _ _ _ _ Hp1 _ _].
      rewrite Hc2, Hc1, Hp2, Hp1; split; reflexivity. }
    rewrite step_idle; rewrite E; [| reflexivity].
    simpl; rewrite Hh1, Hn1; destruct Hctx as [-> ->]; repeat split.
Qed.

Lemma in_flight_analysis_is_never_cancelled_witness :
  history (st (step (step (run (mount 0) oneAnalysis) (GallerySelect titration))
                 (ClientResolved 0 normal)))
  = [{| timestamp := now (run (mount 0) oneAnalysis);
        Types.telemetry :=
          telemetry
            (cy_snap {| cy_id := 0;
                        cy_snap := st (run (mount 0)
                                         [ContextTyped "test"; FileChosen (Some photo);
                                          ReaderLoadEnd 0; ClockAdvance 1000]);
                        cy_stage := AwaitingClient |});
        Types.analysis := normal |}].
Proof.
  exact (proj2 (proj2 (proj2
           (proj2 in_flight_analysis_is_never_cancelled
              (run (mount 0) oneAnalysis) titration 0%nat normal
              {| cy_id := 0;
                 cy_snap := st (run (mount 0)
                                  [ContextTyped "test"; FileChosen (Some photo);
                                   ReaderLoadEnd 0; ClockAdvance 1000]);
                 cy_stage := AwaitingClient |}
              ltac:(vm_compute; reflexivity) eq_refl)))).
Defined.

End NoCancel.

(** ** The answer of the model service *)

Section ServiceOutcome.
Import App Spec Outcome Shape Laws Service Examples MoreExamples Scenarios.

Variable JSON_parse : string -> Error + AnalysisResult.

Lemma resolved_step w id r c :
  findCycle id w = Some c -> cy_stage c = AwaitingClient ->
  analysis (st (step w (ClientResolved id r)))
  = {| isLoading := false; result := Some r; error := None |} /\
  history (st (step w (ClientResolved id r)))
  = (history (st w) ++
     [{| timestamp := now w; Types.telemetry := telemetry (cy_snap c);
         Types.analysis := r |}])%list.
Proof.
  intros Hf Hs; split.
  - assert (E : handle (ClientResolved id r) w
                = updateState
                    (fun prev =>
                       setHistory
                         (history prev ++
                          [{| timestamp := now w;
                              Types.telemetry := telemetry (cy_snap c);
                              Types.analysis := r |}])%list
                         (setAnalysis {| isLoading := false; result := Some r;
                                         error := None |} prev))
                    (dropCycle id w))
      by (simpl; unfold handleAnalyze_resolved; rewrite Hf, Hs; reflexivity).
    rewrite step_idle; rewrite E; reflexivity.
  - rewrite step_history; unfold ledgerAfter; rewrite Hf, Hs; reflexivity.
Qed.

Lemma rejected_step w id msg c :
  findCycle id w = Some c -> cy_stage c = AwaitingClient ->
  analysis (st (step w (ClientRejected id msg)))
  = {| isLoading := false; result := None;
       error := JS.or_else msg (Some "An unexpected error occurred.") |} /\
  history (st (step w (ClientRejected id msg))) = history (st w).
Proof.
  intros Hf Hs; split.
  - assert (E : handle (ClientRejected id msg) w
                = updateState (handleAnalyze_catch msg) (dropCycle id w))
      by (simpl; unfold handleAnalyze_rejected; rewrite Hf, Hs; reflexivity).
    rewrite step_idle; rewrite E; reflexivity.
  - rewrite step_history; reflexivity.
Qed.

(** X9. Whatever the model service answers to a call in flight, the
    component ends in one of two states.  Either the answer had a non-empty
    text that parsed: the parsed result is published and one entry with
    it is appended to the ledger.  Or an error is published, with a
    non-empty text, no result, and the ledger as it was; for a missing or
    empty answer text the error reads "No response received from
    Gemini.". *)
Theorem service_outcome_is_published :
  forall (w : World) (id : nat) (c : Cycle) (g : Generated),
    findCycle id w = Some c -> cy_stage c = AwaitingClient ->
    ((exists text r,
         g = GenResolves (Some text) /\ JS.truthy text = true /\
         JSON_parse text = inr r /\
         analysis (st (step w (resume id (analyzeExperiment JSON_parse g))))
         = {| isLoading := false; result := Some r; error := None |} /\
         history (st (step w (resume id (analyzeExperiment JSON_parse g))))
         = (history (st w) ++
            [{| timestamp := now w; Types.telemetry := telemetry (cy_snap c);
                Types.analysis := r |}])%list)
     \/
     (exists text,
         analysis (st (step w (resume id (analyzeExperiment JSON_parse g))))
         = {| isLoading := false; result := None; error := Some text |} /\
         JS.truthy text = true /\
         history (st (step w (resume id (analyzeExperiment JSON_parse g))))
         = history (st w))) /\
    (g = GenResolves None \/ g = GenResolves (Some "") ->
     error (analysis (st (step w (resume id (analyzeExperiment JSON_parse g)))))
     = Some "No response received from Gemini.").
Proof.
  intros w id c g Hf Hs.
  assert (Hrej : forall msg,
             exists text,
               analysis (st (step w (ClientRejected id msg)))
               = {| isLoading := false; result := None; error := Some text |} /\
               JS.truthy text = true /\
               history (st (step w (ClientRejected id msg))) = history (st w)).
  { intros msg; destruct (rejected_step w id msg c Hf Hs) as [Ha Hh].
    unfold JS.or_else in Ha.
    destruct msg as [m |]; simpl in Ha.
    - destruct (JS.truthy m) eqn:Et.
      + exists m; repeat split; assumption.
      + eexists; repeat split; [exact Ha | reflexivity | exact Hh].
    - eexists; repeat split; [exact Ha | reflexivity | exact Hh]. }
  split.
  - destruct g as [e | [text |]]; simpl.
    + right; apply Hrej.
    + destruct (JS.truthy text) eqn:Et; [| right; apply Hrej].
      destruct (JSON_parse text) as [e | r] eqn:Ep; [right; apply Hrej |].
      left; exists text, r.
      destruct (resolved_step w id r c Hf Hs) as [Ha Hh].
      repeat split; assumption.
    + right; apply Hrej.
  - intros [-> | ->]; simpl;
      rewrite (proj1 (rejected_step w id _ c Hf Hs)); reflexivity.
Qed.

End ServiceOutcome.

Section ServiceWitness.
Import App Spec Outcome Shape Laws Service Examples MoreExamples Scenarios.

Lemma service_outcome_is_published_witness :
  error (analysis (st (step (run (mount 0) oneAnalysis)
                         (resume 0 (analyzeExperiment parseNormal (GenResolves None))))))
  = Some "No response received from Gemini.".
Proof.
  exact (proj2 (service_outcome_is_published parseNormal (run (mount 0) oneAnalysis) 0%nat
                  {| cy_id := 0;
                     cy_snap := st (run (mount 0)
                                      [ContextTyped "test"; FileChosen (Some photo);
                                       ReaderLoadEnd 0; ClockAdvance 1000]);
                     cy_stage := AwaitingClient |}
                  (GenResolves None)
                  ltac:(vm_compute; reflexivity) eq_refl)
           (or_introl eq_refl)).
Defined.

End ServiceWitness.

(** ** The image that is sent *)

Section Payload.
Import App Spec Outcome Shape Laws Examples MoreExamples Scenarios.

Lemma noComma_app (a b : string) : noComma (a ++ b) = noComma a && noComma b.
Proof.
  induction a as [| x a IH]; simpl; [reflexivity |].
  rewrite IH, andb_assoc; reflexivity.
Qed.

Lemma split_aux_noComma (s : string) : forall cur,
  noComma s = true -> JS.split_aux ","%char s cur = [cur ++ s].
Proof.
  induction s as [| a s IH]; intros cur H; simpl in *.
  - rewrite append_nil_r; reflexivity.
  - apply andb_prop in H; destruct H as [Ha Hs].
    apply negb_true_iff in Ha; rewrite Ha, IH by exact Hs.
    rewrite append_assoc; reflexivity.
Qed.

Lemma split_aux_parts (s : string) : forall cur,
  noComma cur = true ->
  Forall (fun p => noComma p = true) (JS.split_aux ","%char s cur).
Proof.
  induction s as [| a s IH]; intros cur H; simpl.
  - constructor; [exact H | constructor].
  - destruct (Ascii.eqb a ","%char) eqn:E.
    + constructor; [exact H | apply IH; reflexivity].
    + apply IH; rewrite noComma_app, H; simpl; rewrite E; reflexivity.
Qed.

Lemma split_header_payload (header payload : string) :
  noComma header = true -> noComma payload = true ->
  JS.split (header ++ "," ++ payload) ","%char = [header; payload].
Proof.
  intros Hh Hp; unfold JS.split.
  change (header ++ "," ++ payload) with (header ++ String ","%char payload).
  rewrite split_aux_app, !split_aux_noComma by assumption; reflexivity.
Qed.

(** The calls an event adds to the log. *)
Lemma handleAnalyze_call_calls c final w :
  calls (handleAnalyze_call c final w) = calls w \/
  exists call,
    calls (handleAnalyze_call c final w) = (calls w ++ [call])%list /\
    noComma (call_image call) = true.
Proof.
  unfold handleAnalyze_call.
  pose proof (split_aux_parts final EmptyString eq_refl) as Hparts.
  fold (JS.split final ","%char) in Hparts.
  destruct (JS.split final ","%char) as [| a [| b [| x l]]]; try (left; reflexivity).
  right; eexists; split; [reflexivity |].
  inversion Hparts as [| ? ? _ Hb]; inversion Hb; assumption.
Qed.

Lemma handle_calls w e :
  calls (handle e w) = calls w \/
  exists call,
    calls (handle e w) = (calls w ++ [call])%list /\ noComma (call_image call) = true.
Proof.
  destruct e; try (left; handler_cases; fail).
  - simpl; unfold handleAnalyze_preprocessed.
    destruct (findCycle id w) as [c |]; [| left; reflexivity].
    destruct (cy_stage c); try (left; reflexivity).
    unfold ensureBase64.
    destruct (JS.startsWith _ "data:"); [apply handleAnalyze_call_calls | left; reflexivity].
  - simpl; unfold handleAnalyze_fetched.
    destruct (findCycle id w) as [c |]; [| left; reflexivity].
    destruct (cy_stage c); try (left; reflexivity).
    destruct o; try (left; reflexivity).
    apply handleAnalyze_call_calls.
Qed.

Lemma step_calls w e :
  calls (step w e) = calls w \/
  exists call,
    calls (step w e) = (calls w ++ [call])%list /\ noComma (call_image call) = true.
Proof.
  unfold step.
  rewrite (ef_calls _ _ (render_effectFrame _ _)).
  rewrite (ef_calls _ _ (render_effectFrame _ _)).
  apply handle_calls.
Qed.

(** X10. The image of a call is the part of the data URL after its comma.
    A data URL made of a header, one comma and a payload is sent as the
    payload alone, with the augmented context of the cycle; a string that
    does not split into exactly two parts at commas is not sent: the error
    "Invalid image data format." is published and the cycle ends.  So no
    call ever issued carries a comma in its image. *)
Theorem image_payload_is_the_part_after_the_comma :
  (forall (c : Cycle) (header payload : string) (w : World),
      noComma header = true -> noComma payload = true ->
      calls (handleAnalyze_call c (header ++ "," ++ payload) w)
      = (calls w ++
         [{| call_id := cy_id c;
             call_context :=
               augmentedContext (context (cy_snap c)) (telemetry (cy_snap c)) (now w);
             call_image := payload;
             call_level := thinkingLevel (cy_snap c) |}])%list) /\
  (forall (c : Cycle) (final : string) (w : World),
      List.length (JS.split final ","%char) <> 2%nat ->
      calls (handleAnalyze_call c final w) = calls w /\
      findCycle (cy_id c) (handleAnalyze_call c final w) = None /\
      analysis (st (handleAnalyze_call c final w))
      = {| isLoading := false; result := None;
           error := Some "Invalid image data format." |}) /\
  (forall (t : Z) (es : list Event),
      Forall (fun call => noComma (call_image call) = true) (calls (run (mount t) es))).
Proof.
  split; [| split].
  - intros c header payload w Hh Hp; unfold handleAnalyze_call.
    rewrite split_header_payload by assumption; reflexivity.
  - intros c final w Hlen; unfold handleAnalyze_call.
    assert (Hdrop : findCycle (cy_id c) (dropCycle (cy_id c) w) = None).
    { unfold findCycle, dropCycle; simpl.
      induction (pending w) as [| x l IH]; simpl; [reflexivity |].
      destruct (Nat.eqb (cy_id x) (cy_id c)) eqn:E; simpl; [exact IH |].
      rewrite E; exact IH. }
    destruct (JS.split final ","%char) as [| a [| b [| x l]]];
      try (repeat split; try reflexivity; exact Hdrop).
    exfalso; apply Hlen; reflexivity.
  - intros t es.
    apply (run_invariant
             (fun w => Forall (fun call => noComma (call_image call) = true) (calls w))).
    + intros w e H.
      destruct (step_calls w e) as [-> | (call & -> & Hc)]; [exact H |].
      apply Forall_app; split; [exact H | constructor; [exact Hc | constructor]].
    + constructor.
Qed.

Lemma image_payload_is_the_part_after_the_comma_witness :
  calls (handleAnalyze_call
           {| cy_id := 0; cy_snap := initialState; cy_stage := Preprocessing jpegA |}
           ("data:image/jpeg;base64" ++ "," ++ "BBBB") (mount 0))
  = (calls (mount 0) ++
     [{| call_id := 0;
         call_context := augmentedContext (context initialState)
                           (telemetry initialState) (now (mount 0));
         call_image := "BBBB";
         call_level := thinkingLevel initialState |}])%list.
Proof.
  exact (proj1 image_payload_is_the_part_after_the_comma
           {| cy_id := 0; cy_snap := initialState; cy_stage := Preprocessing jpegA |}
           "data:image/jpeg;base64" "BBBB" (mount 0) eq_refl eq_refl).
Defined.

End Payload.

(** ** The Analyze button *)

Section AnalyzeButton.
Import App Spec Outcome Shape Laws Examples MoreExamples Scenarios.





End AnalyzeButton.

(** ** One call for each cycle *)

Section CallsFacts.
Import App Spec Outcome Laws Calls Examples.

Lemma callOp_consistent w w' :
  callOp w w' -> cyclesConsistent w -> callsConsistent w -> callsConsistent w'.
Proof.
  intros Hop (Hlt & Hnd & _ & _) (Hc1 & Hc2 & Hc3).
  destruct Hop as [Hp Hc Hn | snap image Hp Hc Hn | c url Hin Hst Hp Hc Hn
                  | c call Hin Hst Hid Hp Hc Hn | id Hp Hc Hn];
    unfold callsConsistent; rewrite Hc, Hn.
  - rewrite Hp; repeat split; assumption.
  - split; [intros call H; apply Hc1 in H; lia | split; [| exact Hc3]].
    intros c Hin Hs; rewrite Hp in Hin.
    apply in_app_or in Hin; destruct Hin as [Hin | [<- | []]]; [apply Hc2; assumption |].
    simpl; intros H; apply in_map_iff in H; destruct H as (call & E & Hcall).
    apply Hc1 in Hcall; lia.
  - split; [exact Hc1 | split; [| exact Hc3]].
    intros c' Hin' Hs'; rewrite Hp in Hin'.
    destruct (in_setStage _ _ _ _ Hin') as [[Hin0 _] | (c0 & Hin0 & Hid0 & ->)];
      [apply Hc2; assumption |].
    simpl.
    assert (c0 = c) by (apply (NoDup_map_inj cy_id (pending w)); assumption).
    subst c0; apply Hc2; assumption.
  - split; [| split].
    + intros x Hx; apply in_app_or in Hx; destruct Hx as [Hx | [<- | []]];
        [apply Hc1, Hx | rewrite Hid; apply Hlt, Hin].
    + intros c' Hin' Hs'; rewrite Hp in Hin'.
      destruct (in_setStage _ _ _ _ Hin') as [[Hin0 Hne] | (c0 & Hin0 & Hid0 & ->)];
        [| exfalso; apply Hs'; reflexivity].
      rewrite map_app; simpl; intros H; apply in_app_or in H.
      destruct H as [H | [H | []]]; [exact (Hc2 c' Hin0 Hs' H) | congruence].
    + rewrite map_app; simpl.
      apply NoDup_app; [exact Hc3 | constructor; [intros [] | constructor] |].
      intros x Hx [<- | []]; rewrite Hid in Hx; exact (Hc2 c Hin Hst Hx).
  - split; [exact Hc1 | split; [| exact Hc3]].
    intros c Hin Hs; rewrite Hp in Hin; apply in_dropCycle in Hin.
    apply Hc2; assumption.
Qed.


Lemma handleAnalyze_callOp snap manual w : callOp w (handleAnalyze snap manual w).
Proof.
  pose proof (ef_calls _ _ (handleAnalyze_effectFrame snap manual w)) as Hc.
  destruct (handleAnalyze_pending snap manual w) as [[Hp Hn] | (image & Hp & Hn)].
  - apply co_same; assumption.
  - eapply co_start; eassumption.
Qed.

Lemma handleAnalyze_call_callOp c final w :
  In c (pending w) -> cy_stage c <> AwaitingClient ->
  callOp w (handleAnalyze_call c final w).
Proof.
  intros Hin Hs; unfold handleAnalyze_call.
  destruct (JS.split final ","%char) as [| a [| b [| x l]]];
    try (apply (co_drop _ _ (cy_id c)); reflexivity).
  apply (co_call _ _ c
           {| call_id := cy_id c;
              call_context :=
                augmentedContext (context (cy_snap c)) (telemetry (cy_snap c)) (now w);
              call_image := b;
              call_level := thinkingLevel (cy_snap c) |});
    try reflexivity; assumption.
Qed.

Lemma ensureBase64_callOp c urlOrData w :
  In c (pending w) -> cy_stage c <> AwaitingClient ->
  callOp w (ensureBase64 c urlOrData w).
Proof.
  intros Hin Hs; unfold ensureBase64.
  destruct (JS.startsWith urlOrData "data:").
  - apply handleAnalyze_call_callOp; assumption.
  - apply (co_fetch _ _ c urlOrData); try reflexivity; assumption.
Qed.

Lemma handle_callOp w e : callOp w (handle e w).
Proof.
  destruct e;
    try (apply co_same; handler_cases; fail).
  - (* AnalyzeClick *)
    simpl; destruct (analyzeDisabled (st w));
      [apply co_same; reflexivity | apply handleAnalyze_callOp].
  - (* MonitorTick *)
    simpl; unfold monitorTick.
    destruct (monitoringInterval w) as [snap |]; [| apply co_same; reflexivity].
    destruct (negb (isLoading (analysis snap)));
      [apply handleAnalyze_callOp | apply co_same; reflexivity].
  - (* PreprocessSettled *)
    simpl; unfold handleAnalyze_preprocessed.
    destruct (findCycle id w) as [c |] eqn:Hf; [| apply co_same; reflexivity].
    destruct (cy_stage c) eqn:Hs; try (apply co_same; reflexivity).
    apply ensureBase64_callOp; [apply (findCycle_some id), Hf |].
    rewrite Hs; discriminate.
  - (* FetchSettled *)
    simpl; unfold handleAnalyze_fetched.
    destruct (findCycle id w) as [c |] eqn:Hf; [| apply co_same; reflexivity].
    destruct (cy_stage c) eqn:Hs; try (apply co_same; reflexivity).
    destruct o; try (apply (co_drop _ _ id); reflexivity).
    apply handleAnalyze_call_callOp; [apply (findCycle_some id), Hf |].
    rewrite Hs; discriminate.
  - (* ClientResolved *)
    simpl; unfold handleAnalyze_resolved.
    destruct (findCycle id w) as [c |] eqn:Hf; [| apply co_same; reflexivity].
    destruct (cy_stage c); try (apply co_same; reflexivity).
    apply (co_drop _ _ id); reflexivity.
  - (* ClientRejected *)
    simpl; unfold handleAnalyze_rejected.
    destruct (findCycle id w) as [c |] eqn:Hf; [| apply co_same; reflexivity].
    destruct (cy_stage c); try (apply co_same; reflexivity).
    apply (co_drop _ _ id); reflexivity.
Qed.

Lemma monitorEffect_callOp snap w : callOp w (monitorEffect snap w).
Proof.
  unfold monitorEffect.
  destruct (isAutoMonitoring snap && canMonitor snap); [| apply co_same; reflexivity].
  pose proof (ef_calls _ _ (handleAnalyze_effectFrame snap None w)) as Hc.
  destruct (handleAnalyze_pending snap None w) as [[Hp Hn] | (image & Hp & Hn)].
  - apply co_same; assumption.
  - eapply co_start; eassumption.
Qed.

Lemma callOp_from w w1 w2 :
  pending w1 = pending w -> nextId w1 = nextId w -> calls w1 = calls w ->
  callOp w1 w2 -> callOp w w2.
Proof.
  intros Hp Hn Hc Hop.
  destruct Hop as [Hp' Hc' Hn' | snap image Hp' Hc' Hn' | c url Hin Hst Hp' Hc' Hn'
                  | c call Hin Hst Hid Hp' Hc' Hn' | id Hp' Hc' Hn'].
  - apply co_same; congruence.
  - apply (co_start _ _ snap image); congruence.
  - apply (co_fetch _ _ c url); try congruence.
    rewrite Hp'; unfold setStage; simpl; rewrite Hp; reflexivity.
  - apply (co_call _ _ c call); try congruence.
    rewrite Hp'; unfold setStage; simpl; rewrite Hp; reflexivity.
  - apply (co_drop _ _ id); try congruence.
    rewrite Hp'; unfold dropCycle; simpl; rewrite Hp; reflexivity.
Qed.

(** In the renders only [handleAnalyze] touches the cycles and the log. *)
Lemma render_callOp prev w : callOp w (render prev w).
Proof.
  unfold render, monitorCleanup, cameraCleanup, clearMonitoringInterval.
  set (snap := st w).
  set (w0 := commitDom prev snap w).
  destruct (negb (cameraDeps_eqb prev snap)), (negb (monitorDeps_eqb prev snap)).
  - set (w1 := cameraEffect snap (with_monitoringInterval None (stopCamera w0))).
    destruct (cameraEffect_loopFrame snap (with_monitoringInterval None (stopCamera w0)))
      as [_ Hp1 Hn1 _ _].
    destruct (cameraEffect_effectFrame snap (with_monitoringInterval None (stopCamera w0)))
      as [_ _ Hc1 _ _ _ _ _ _ _ _ _].
    destruct (stopCamera_loopFrame w0) as [_ Hp2 Hn2 _ _].
    destruct (stopCamera_effectFrame w0) as [_ _ Hc2 _ _ _ _ _ _ _ _ _].
    apply (callOp_from w w1); [| | | apply monitorEffect_callOp];
      unfold w1; simpl in *; congruence.
  - destruct (cameraEffect_loopFrame snap (stopCamera w0)) as [_ Hp1 Hn1 _ _].
    destruct (cameraEffect_effectFrame snap (stopCamera w0))
      as [_ _ Hc1 _ _ _ _ _ _ _ _ _].
    destruct (stopCamera_loopFrame w0) as [_ Hp2 Hn2 _ _].
    destruct (stopCamera_effectFrame w0) as [_ _ Hc2 _ _ _ _ _ _ _ _ _].
    apply co_same; simpl in *; congruence.
  - apply (callOp_from w (with_monitoringInterval None w0));
      [reflexivity | reflexivity | reflexivity | apply monitorEffect_callOp].
  - apply co_same; reflexivity.
Qed.

Lemma step_callsConsistent w e :
  cyclesConsistent w /\ callsConsistent w ->
  cyclesConsistent (step w e) /\ callsConsistent (step w e).
Proof.
  intros [Hcy Hca]; split; [apply step_cyclesConsistent, Hcy |].
  unfold step.
  assert (H1 : cyclesConsistent (handle e w))
    by (eapply cycleOp_consistent; [apply handle_cycleOp | exact Hcy]).
  assert (H2 : cyclesConsistent (render (st w) (handle e w)))
    by (eapply cycleOp_consistent; [apply render_cycleOp | exact H1]).
  eapply callOp_consistent; [apply render_callOp | exact H2 |].
  eapply callOp_consistent; [apply render_callOp | exact H1 |].
  eapply callOp_consistent; [apply handle_callOp | exact Hcy | exact Hca].
Qed.

Lemma NoDup_bounded (l : list nat) (n : nat) :
  NoDup l -> (forall x, In x l -> (x < n)%nat) -> (List.length l <= n)%nat.
Proof.
  intros Hnd Hlt.
  rewrite <- (length_seq n 0%nat).
  apply NoDup_incl_length; [exact Hnd |].
  intros x Hx; apply in_seq; specialize (Hlt x Hx); lia.
Qed.

(** X12. Every cycle calls the Analysis Client at most once.  In every
    reachable state no two calls in the log belong to the same cycle, every
    call belongs to a cycle that was started, a cycle that is still at the
    preprocessor or at the fetch has no call yet, and so there are never
    more calls than cycles started. *)
Theorem each_cycle_calls_once :
  forall (t : Z) (es : list Event),
    NoDup (map call_id (calls (run (mount t) es))) /\
    (forall call, In call (calls (run (mount t) es)) ->
                  (call_id call < nextId (run (mount t) es))%nat) /\
    (forall c, In c (pending (run (mount t) es)) -> cy_stage c <> AwaitingClient ->
               forall call, In call (calls (run (mount t) es)) ->
                            call_id call <> cy_id c) /\
    (List.length (calls (run (mount t) es)) <= nextId (run (mount t) es))%nat.
Proof.
  intros t es.
  assert (H : cyclesConsistent (run (mount t) es) /\ callsConsistent (run (mount t) es)).
  { apply (run_invariant (fun w => cyclesConsistent w /\ callsConsistent w)).
    - intros w e; apply step_callsConsistent.
    - split; [apply mount_cyclesConsistent |].
      split; [intros call [] | split; [intros c [] | constructor]]. }
  destruct H as [_ (H1 & H2 & H3)].
  split; [exact H3 | split; [exact H1 | split]].
  - intros c Hin Hs call Hcall E.
    apply (H2 c Hin Hs); rewrite <- E; apply in_map, Hcall.
  - rewrite <- (length_map call_id).
    apply NoDup_bounded; [exact H3 |].
    intros x Hx; apply in_map_iff in Hx; destruct Hx as (call & <- & Hcall).
    apply H1, Hcall.
Qed.

Lemma each_cycle_calls_once_witness :
  (call_id {| call_id := 0;
              call_context := augmentedContext "pH test" (telemetry initialState) 0;
              call_image := "BBBB"; call_level := HIGH |}
   < nextId (run (mount 0) firstTick))%nat.
Proof.
  exact (proj1 (proj2 (each_cycle_calls_once 0 firstTick))
           {| call_id := 0;
              call_context := augmentedContext "pH test" (telemetry initialState) 0;
              call_image := "BBBB"; call_level := HIGH |}
           ltac:(vm_compute; left; reflexivity)).
Defined.

End CallsFacts.
